(** * IP address management core of the network service

    A shallow embedding of [api/network/app/utils/ipam.py] (class
    [IPAddressManager]) together with the part of CPython 3.11's standard
    [ipaddress] module that its five static methods call: [ip_address],
    [ip_network] (always called with the default [strict=True]),
    [subnet_of], [subnets], [hosts] and the string conversions.

    Python integers are unbounded and are modelled by [Z]; Python strings
    are modelled by [string], so a character is one of the 256 code points
    of [ascii] and the code points from 128 on stand for the non-ASCII
    ones.  Exceptions are values: a computation that may raise returns a
    [result].  Lists built from generators are mathematical lists, so the
    memory a call such as [list(network.hosts())] needs is not modelled. *)

From Stdlib Require Import ZArith List String Ascii Bool Lia Sorted.
From Stdlib Require DecimalString HexadecimalString.
Import ListNotations.

Local Open Scope string_scope.
Local Open Scope Z_scope.
Local Open Scope list_scope.

Set Warnings "-register-all".

(** ** Exceptions *)

(** The exception classes that can arise.  [AddressValueError] and
    [NetmaskValueError] are subclasses of [ValueError]. *)
Inductive exc_class : Type :=
| AddressValueError
| NetmaskValueError
| ValueError
| TypeError.

(** An exception message: a literal text, an integer argument, or a format
    string applied with [%] to its arguments, kept unrendered. *)
Inductive message : Type :=
| Lit (s : string)
| Int (z : Z)
| Fmt (fmt : string) (args : list message).

Inductive exn : Type :=
| Exn (cls : exc_class) (msg : message).

Definition exn_class (e : exn) : exc_class := let 'Exn c _ := e in c.
Definition exn_message (e : exn) : message := let 'Exn _ m := e in m.

(** [isinstance(e, ValueError)] *)
Definition is_ValueError (e : exn) : bool :=
  match exn_class e with
  | AddressValueError | NetmaskValueError | ValueError => true
  | TypeError => false
  end.

(** [isinstance(e, (AddressValueError, NetmaskValueError))] *)
Definition is_Address_or_Netmask_error (e : exn) : bool :=
  match exn_class e with
  | AddressValueError | NetmaskValueError => true
  | ValueError | TypeError => false
  end.

Definition is_AddressValueError (e : exn) : bool :=
  match exn_class e with AddressValueError => true | _ => false end.

Definition is_NetmaskValueError (e : exn) : bool :=
  match exn_class e with NetmaskValueError => true | _ => false end.

Inductive result (A : Type) : Type :=
| Ok (a : A)
| Raise (e : exn).
Arguments Ok {A} a.
Arguments Raise {A} e.

Definition bind {A B : Type} (m : result A) (k : A -> result B) : result B :=
  match m with
  | Ok a => k a
  | Raise e => Raise e
  end.

(** [try: m except <handles>: h e]; an exception the clause does not match
    propagates. *)
Definition try_except {A : Type} (m : result A) (handles : exn -> bool)
           (h : exn -> result A) : result A :=
  match m with
  | Ok a => Ok a
  | Raise e => if handles e then h e else Raise e
  end.

Definition raise {A : Type} (c : exc_class) (m : message) : result A :=
  Raise (Exn c m).

Notation "x <- m ;; k" := (bind m (fun x => k))
  (at level 61, m at next level, right associativity).
Notation "' p <- m ;; k" := (bind m (fun x => let p := x in k))
  (at level 61, p pattern, m at next level, right associativity).

Fixpoint mapM {A B : Type} (f : A -> result B) (l : list A) : result (list B) :=
  match l with
  | [] => Ok []
  | x :: xs => y <- f x ;; ys <- mapM f xs ;; Ok (y :: ys)
  end.

(** ** Python built-ins used by the code *)

Module Py.

(** [len(s)] *)
Definition len (s : string) : Z := Z.of_nat (String.length s).

(** [c in s] for a one-character [c] *)
Fixpoint contains (c : ascii) (s : string) : bool :=
  match s with
  | EmptyString => false
  | String d s' => Ascii.eqb d c || contains c s'
  end.

(** [s.split(sep)] for a one-character separator: never empty. *)
Fixpoint split (sep : ascii) (s : string) : list string :=
  match s with
  | EmptyString => [EmptyString]
  | String c s' =>
      if Ascii.eqb c sep then EmptyString :: split sep s'
      else match split sep s' with
           | [] => [String c EmptyString]
           | p :: ps => String c p :: ps
           end
  end.

(** [s.partition(sep)]: the text before the first separator, whether
    one was found, and the text after it. *)
Fixpoint partition (sep : ascii) (s : string) : string * bool * string :=
  match s with
  | EmptyString => (EmptyString, false, EmptyString)
  | String c s' =>
      if Ascii.eqb c sep then (EmptyString, true, s')
      else let '(a, found, b) := partition sep s' in (String c a, found, b)
  end.

(** [sep.join(l)] *)
Fixpoint join (sep : string) (l : list string) : string :=
  match l with
  | [] => EmptyString
  | [x] => x
  | x :: xs => append x (append sep (join sep xs))
  end.

Definition is_digit (c : ascii) : bool :=
  let n := Z.of_nat (nat_of_ascii c) in (48 <=? n) && (n <=? 57).

Definition is_hex_digit (c : ascii) : bool :=
  let n := Z.of_nat (nat_of_ascii c) in
  ((48 <=? n) && (n <=? 57)) || ((65 <=? n) && (n <=? 70))
  || ((97 <=? n) && (n <=? 102)).

Fixpoint all_chars (p : ascii -> bool) (s : string) : bool :=
  match s with
  | EmptyString => true
  | String c s' => p c && all_chars p s'
  end.

(** [s.isascii() and s.isdigit()]: a non-empty run of [0]..[9]. *)
Definition isascii_isdigit (s : string) : bool :=
  match s with
  | EmptyString => false
  | _ => all_chars is_digit s
  end.

Definition digit_value (c : ascii) : Z :=
  let n := Z.of_nat (nat_of_ascii c) in
  if (48 <=? n) && (n <=? 57) then n - 48
  else if (65 <=? n) && (n <=? 70) then n - 55
  else n - 87.

Fixpoint int_digits (base : Z) (acc : Z) (s : string) : Z :=
  match s with
  | EmptyString => acc
  | String c s' => int_digits base (acc * base + digit_value c) s'
  end.

(** [int(s, base)] on a string of digits of that base; the empty string
    is a [ValueError]. *)
Definition int (s : string) (base : Z) : result Z :=
  match s with
  | EmptyString =>
      raise ValueError
            (Fmt "invalid literal for int() with base %d: %r" [Int base; Lit s])
  | _ => Ok (int_digits base 0 s)
  end.

(** [str(z)] and ['%d' % z] *)
Definition str (z : Z) : string :=
  DecimalString.NilZero.string_of_int (Z.to_int z).

(** ['%x' % z] for [z >= 0] *)
Definition hex (z : Z) : string :=
  HexadecimalString.NilZero.string_of_uint (N.to_hex_uint (Z.to_N z)).

(** [list(range(start, stop))] *)
Definition range (start stop : Z) : list Z :=
  map (fun i => start + Z.of_nat i) (seq 0 (Z.to_nat (stop - start))).

(** [list(range(start, stop, step))]; a zero step is a [ValueError]. *)
Definition range3 (start stop step : Z) : result (list Z) :=
  if step =? 0 then raise ValueError (Lit "range() arg 3 must not be zero")
  else
    let n := if 0 <? step then (stop - start + step - 1) / step
             else (start - stop - step - 1) / (- step) in
    Ok (map (fun i => start + Z.of_nat i * step) (seq 0 (Z.to_nat n))).

(** [l[:count]]: a negative [count] counts from the end. *)
Definition slice_to {A : Type} (l : list A) (count : Z) : list A :=
  if 0 <=? count then firstn (Z.to_nat count) l
  else firstn (List.length l - Z.to_nat (- count)) l.

(** [z.bit_length()] for [z >= 0] *)
Definition bit_length (z : Z) : Z :=
  if z =? 0 then 0 else Z.log2 z + 1.

End Py.

(** ** The [ipaddress] module *)

Module ipaddress.

(** The two class families [_BaseV4] and [_BaseV6] with their class
    attributes. *)
Inductive family : Type := V4 | V6.

Definition family_eqb (f g : family) : bool :=
  match f, g with
  | V4, V4 | V6, V6 => true
  | _, _ => false
  end.

Definition _version (f : family) : Z :=
  match f with V4 => 4 | V6 => 6 end.

(** [IPV4LENGTH] and [IPV6LENGTH] *)
Definition _max_prefixlen (f : family) : Z :=
  match f with V4 => 32 | V6 => 128 end.

Definition _ALL_ONES (f : family) : Z := 2 ^ _max_prefixlen f - 1.

Definition _HEXTET_COUNT : Z := 8.

(** An [IPv4Address] or [IPv6Address] object.  Only [IPv6Address] has
    the [_scope_id] slot; [getattr(other, '_scope_id', None)] reads
    [None] from an [IPv4Address]. *)
Record Address : Type := mkAddress
  { addr_family : family;
    _ip : Z;
    _scope_id : option string }.

(** An [IPv4Network] or [IPv6Network] object. *)
Record Network : Type := mkNetwork
  { network_address : Address;
    netmask : Address;
    _prefixlen : Z }.

Definition net_family (n : Network) : family := addr_family (network_address n).

(** What a constructor receives: text, or an integer, or the pair
    [(address, prefixlen)] of integers that [subnets] passes. *)
Inductive addr_arg : Type := AStr (s : string) | AInt (z : Z).
Inductive net_arg : Type := NStr (s : string) | NTuple (addr : Z) (prefixlen : Z).

(** [_count_righthand_zero_bits] *)
Definition _count_righthand_zero_bits (number bits : Z) : Z :=
  if number =? 0 then bits
  else Z.min bits (Py.bit_length (Z.land (Z.lnot number) (number - 1))).

(** [_split_optional_netmask] *)
Definition _split_optional_netmask (address : string) : result (list string) :=
  let addr := Py.split "/" address in
  if 2 <? Z.of_nat (List.length addr)
  then raise AddressValueError (Fmt "Only one '/' permitted in %r" [Lit address])
  else Ok addr.

(** [_IPAddressBase._check_int_address] *)
Definition _check_int_address (f : family) (address : Z) : result unit :=
  if address <? 0 then
    raise AddressValueError
          (Fmt "%d (< 0) is not permitted as an IPv%d address"
               [Int address; Int (_version f)])
  else if _ALL_ONES f <? address then
    raise AddressValueError
          (Fmt "%d (>= 2**%d) is not permitted as an IPv%d address"
               [Int address; Int (_max_prefixlen f); Int (_version f)])
  else Ok tt.

(** [_IPAddressBase._ip_int_from_prefix] *)
Definition _ip_int_from_prefix (f : family) (prefixlen : Z) : Z :=
  Z.lxor (_ALL_ONES f) (Z.shiftr (_ALL_ONES f) prefixlen).

(** [_IPAddressBase._prefix_from_ip_int]; the message stands for the
    one that shows the bytes of [ip_int]. *)
Definition _prefix_from_ip_int (f : family) (ip_int : Z) : result Z :=
  let trailing_zeroes := _count_righthand_zero_bits ip_int (_max_prefixlen f) in
  let prefixlen := _max_prefixlen f - trailing_zeroes in
  let leading_ones := Z.shiftr ip_int trailing_zeroes in
  let all_ones := Z.shiftl 1 prefixlen - 1 in
  if negb (leading_ones =? all_ones) then
    raise ValueError (Fmt "Netmask pattern %r mixes zeroes & ones" [Int ip_int])
  else Ok prefixlen.

(** [_IPAddressBase._report_invalid_netmask] *)
Definition _report_invalid_netmask {A : Type} (netmask_str : message) : result A :=
  raise NetmaskValueError (Fmt "%r is not a valid netmask" [netmask_str]).

(** [_IPAddressBase._prefix_from_prefix_string] *)
Definition _prefix_from_prefix_string (f : family) (prefixlen_str : string)
  : result Z :=
  if negb (Py.isascii_isdigit prefixlen_str)
  then _report_invalid_netmask (Lit prefixlen_str)
  else
    prefixlen <- try_except (Py.int prefixlen_str 10) is_ValueError
                   (fun _ => _report_invalid_netmask (Lit prefixlen_str)) ;;
    if negb ((0 <=? prefixlen) && (prefixlen <=? _max_prefixlen f))
    then _report_invalid_netmask (Lit prefixlen_str)
    else Ok prefixlen.

(** *** [_BaseV4] *)

(** [_BaseV4._parse_octet] *)
Definition _parse_octet (octet_str : string) : result Z :=
  match octet_str with
  | EmptyString => raise ValueError (Lit "Empty octet not permitted")
  | String c0 _ =>
      if negb (Py.isascii_isdigit octet_str) then
        raise ValueError (Fmt "Only decimal digits permitted in %r" [Lit octet_str])
      else if 3 <? Py.len octet_str then
        raise ValueError (Fmt "At most 3 characters permitted in %r" [Lit octet_str])
      else if negb (String.eqb octet_str "0") && Ascii.eqb c0 "0" then
        raise ValueError (Fmt "Leading zeros are not permitted in %r" [Lit octet_str])
      else
        octet_int <- Py.int octet_str 10 ;;
        if 255 <? octet_int then
          raise ValueError (Fmt "Octet %d (> 255) not permitted" [Int octet_int])
        else Ok octet_int
  end.

(** [int.from_bytes(bs, 'big')] on byte values *)
Definition from_bytes_big (bs : list Z) : Z :=
  fold_left (fun acc b => acc * 256 + b) bs 0.

(** [_BaseV4._ip_int_from_string] *)
Definition v4_ip_int_from_string (ip_str : string) : result Z :=
  match ip_str with
  | EmptyString => raise AddressValueError (Lit "Address cannot be empty")
  | _ =>
      let octets := Py.split "." ip_str in
      if negb (Z.of_nat (List.length octets) =? 4) then
        raise AddressValueError (Fmt "Expected 4 octets in %r" [Lit ip_str])
      else
        try_except (bs <- mapM _parse_octet octets ;; Ok (from_bytes_big bs))
                   is_ValueError
                   (fun exc => raise AddressValueError
                                 (Fmt "%s in %r" [exn_message exc; Lit ip_str]))
  end.

(** [IPv4Address.__init__] *)
Definition IPv4Address (address : addr_arg) : result Address :=
  match address with
  | AInt z =>
      _ <- _check_int_address V4 z ;;
      Ok (mkAddress V4 z None)
  | AStr addr_str =>
      if Py.contains "/" addr_str then
        raise AddressValueError (Fmt "Unexpected '/' in %r" [Lit addr_str])
      else
        ip <- v4_ip_int_from_string addr_str ;;
        Ok (mkAddress V4 ip None)
  end.

(** [ip_int.to_bytes(4, 'big')] for [0 <= ip_int < 2**32] *)
Definition to_bytes4_big (ip_int : Z) : list Z :=
  [Z.land (Z.shiftr ip_int 24) 255; Z.land (Z.shiftr ip_int 16) 255;
   Z.land (Z.shiftr ip_int 8) 255; Z.land ip_int 255].

(** [_BaseV4._string_from_ip_int] *)
Definition v4_string_from_ip_int (ip_int : Z) : string :=
  Py.join "." (map Py.str (to_bytes4_big ip_int)).

(** *** [_BaseV6] *)

Definition is_empty (s : string) : bool :=
  match s with EmptyString => true | _ => false end.

(** [parts[i]], where a negative [i] counts from the end *)
Definition getitem (parts : list string) (i : Z) : string :=
  if i <? 0 then nth (Z.to_nat (Z.of_nat (List.length parts) + i)) parts EmptyString
  else nth (Z.to_nat i) parts EmptyString.

Definition dquote : string := String (ascii_of_nat 34) EmptyString.

(** [_BaseV6._parse_hextet] *)
Definition _parse_hextet (hextet_str : string) : result Z :=
  if negb (Py.all_chars Py.is_hex_digit hextet_str) then
    raise ValueError (Fmt "Only hex digits permitted in %r" [Lit hextet_str])
  else if 4 <? Py.len hextet_str then
    raise ValueError (Fmt "At most 4 characters permitted in %r" [Lit hextet_str])
  else Py.int hextet_str 16.

(** The loop of [_ip_int_from_string] that looks for the one ['::']. *)
Fixpoint find_skip_index (ip_str : string) (parts : list string) (idxs : list Z)
         (skip_index : option Z) : result (option Z) :=
  match idxs with
  | [] => Ok skip_index
  | i :: rest =>
      if is_empty (getitem parts i) then
        match skip_index with
        | Some _ =>
            raise AddressValueError
                  (Fmt "At most one '::' permitted in %r" [Lit ip_str])
        | None => find_skip_index ip_str parts rest (Some i)
        end
      else find_skip_index ip_str parts rest skip_index
  end.

(** The loops of [_ip_int_from_string] that shift the hextets in. *)
Fixpoint parse_hextets (parts : list string) (idxs : list Z) (ip_int : Z)
  : result Z :=
  match idxs with
  | [] => Ok ip_int
  | i :: rest =>
      h <- _parse_hextet (getitem parts i) ;;
      parse_hextets parts rest (Z.lor (Z.shiftl ip_int 16) h)
  end.

(** [_BaseV6._ip_int_from_string] *)
Definition v6_ip_int_from_string (ip_str : string) : result Z :=
  match ip_str with
  | EmptyString => raise AddressValueError (Lit "Address cannot be empty")
  | _ =>
    let parts := Py.split ":" ip_str in
    let _min_parts := 3 in
    if Z.of_nat (List.length parts) <? _min_parts then
      raise AddressValueError
            (Fmt "At least %d parts expected in %r" [Int _min_parts; Lit ip_str])
    else
      parts <-
        (if Py.contains "." (getitem parts (-1)) then
           a <- try_except (IPv4Address (AStr (getitem parts (-1))))
                  is_AddressValueError
                  (fun exc => raise AddressValueError
                                (Fmt "%s in %r" [exn_message exc; Lit ip_str])) ;;
           let ipv4_int := _ip a in
           Ok (removelast parts
                 ++ [Py.hex (Z.land (Z.shiftr ipv4_int 16) 65535);
                     Py.hex (Z.land ipv4_int 65535)])
         else Ok parts) ;;
      let nparts := Z.of_nat (List.length parts) in
      let _max_parts := _HEXTET_COUNT + 1 in
      if _max_parts <? nparts then
        raise AddressValueError
              (Fmt "At most %d colons permitted in %r" [Int (_max_parts - 1); Lit ip_str])
      else
        skip_index <- find_skip_index ip_str parts (Py.range 1 (nparts - 1)) None ;;
        '(parts_hi, parts_lo, parts_skipped) <-
          match skip_index with
          | Some skip_index =>
              let parts_hi := skip_index in
              let parts_lo := nparts - skip_index - 1 in
              parts_hi <-
                (if is_empty (getitem parts 0) then
                   let parts_hi := parts_hi - 1 in
                   if negb (parts_hi =? 0) then
                     raise AddressValueError
                           (Fmt "Leading ':' only permitted as part of '::' in %r"
                                [Lit ip_str])
                   else Ok parts_hi
                 else Ok parts_hi) ;;
              parts_lo <-
                (if is_empty (getitem parts (-1)) then
                   let parts_lo := parts_lo - 1 in
                   if negb (parts_lo =? 0) then
                     raise AddressValueError
                           (Fmt "Trailing ':' only permitted as part of '::' in %r"
                                [Lit ip_str])
                   else Ok parts_lo
                 else Ok parts_lo) ;;
              let parts_skipped := _HEXTET_COUNT - (parts_hi + parts_lo) in
              if parts_skipped <? 1 then
                raise AddressValueError
                      (Fmt "Expected at most %d other parts with '::' in %r"
                           [Int (_HEXTET_COUNT - 1); Lit ip_str])
              else Ok (parts_hi, parts_lo, parts_skipped)
          | None =>
              if negb (nparts =? _HEXTET_COUNT) then
                raise AddressValueError
                      (Fmt "Exactly %d parts expected without '::' in %r"
                           [Int _HEXTET_COUNT; Lit ip_str])
              else if is_empty (getitem parts 0) then
                raise AddressValueError
                      (Fmt "Leading ':' only permitted as part of '::' in %r"
                           [Lit ip_str])
              else if is_empty (getitem parts (-1)) then
                raise AddressValueError
                      (Fmt "Trailing ':' only permitted as part of '::' in %r"
                           [Lit ip_str])
              else Ok (nparts, 0, 0)
          end ;;
        try_except
          (ip_int <- parse_hextets parts (Py.range 0 parts_hi) 0 ;;
           let ip_int := Z.shiftl ip_int (16 * parts_skipped) in
           parse_hextets parts (Py.range (- parts_lo) 0) ip_int)
          is_ValueError
          (fun exc => raise AddressValueError
                        (Fmt "%s in %r" [exn_message exc; Lit ip_str]))
  end.

(** The loop of [_compress_hextets]: the state is
    [(best_doublecolon_start, best_doublecolon_len, doublecolon_start,
    doublecolon_len)]. *)
Definition compress_step (st : Z * Z * Z * Z) (ih : Z * string) : Z * Z * Z * Z :=
  let '(best_start, best_len, dc_start, dc_len) := st in
  let '(index, hextet) := ih in
  if String.eqb hextet "0" then
    let dc_len := dc_len + 1 in
    let dc_start := if dc_start =? -1 then index else dc_start in
    if best_len <? dc_len then (dc_start, dc_len, dc_start, dc_len)
    else (best_start, best_len, dc_start, dc_len)
  else (best_start, best_len, -1, 0).

(** [_BaseV6._compress_hextets] *)
Definition _compress_hextets (hextets : list string) : list string :=
  let n := Z.of_nat (List.length hextets) in
  let '(best_start, best_len, _, _) :=
    fold_left compress_step (combine (Py.range 0 n) hextets) (-1, 0, -1, 0) in
  if 1 <? best_len then
    let best_end := best_start + best_len in
    let hextets := if best_end =? n then hextets ++ [EmptyString] else hextets in
    let hextets := firstn (Z.to_nat best_start) hextets ++ [EmptyString]
                          ++ skipn (Z.to_nat best_end) hextets in
    if best_start =? 0 then EmptyString :: hextets else hextets
  else hextets.

(** [_BaseV6._string_from_ip_int], for [0 <= ip_int <= _ALL_ONES] (every
    address object satisfies it, so the check that raises on a larger
    integer is left out).  The [i]-th hextet is the [i]-th group of four
    digits of ['%032x' % ip_int], printed again with ['%x']. *)
Definition v6_string_from_ip_int (ip_int : Z) : string :=
  let hextets :=
    map (fun i => Py.hex (Z.land (Z.shiftr ip_int (16 * (7 - i))) 65535))
        (Py.range 0 8) in
  Py.join ":" (_compress_hextets hextets).

(** [_BaseV6._split_scope_id] *)
Definition _split_scope_id (ip_str : string) : result (string * option string) :=
  let '(addr, sep, scope_id) := Py.partition "%" ip_str in
  if negb sep then Ok (addr, None)
  else if is_empty scope_id || Py.contains "%" scope_id then
    raise AddressValueError
          (Fmt (append "Invalid IPv6 address: " (append dquote (append "%r" dquote)))
               [Lit ip_str])
  else Ok (addr, Some scope_id).

(** [IPv6Address.__init__] *)
Definition IPv6Address (address : addr_arg) : result Address :=
  match address with
  | AInt z =>
      _ <- _check_int_address V6 z ;;
      Ok (mkAddress V6 z None)
  | AStr addr_str =>
      if Py.contains "/" addr_str then
        raise AddressValueError (Fmt "Unexpected '/' in %r" [Lit addr_str])
      else
        '(addr_str, scope_id) <- _split_scope_id addr_str ;;
        ip <- v6_ip_int_from_string addr_str ;;
        Ok (mkAddress V6 ip scope_id)
  end.

(** *** Address objects *)

(** [cls._ip_int_from_string] *)
Definition _ip_int_from_string (f : family) (ip_str : string) : result Z :=
  match f with
  | V4 => v4_ip_int_from_string ip_str
  | V6 => v6_ip_int_from_string ip_str
  end.

(** The constructor of the family's address class. *)
Definition make_address (f : family) (address : addr_arg) : result Address :=
  match f with
  | V4 => IPv4Address address
  | V6 => IPv6Address address
  end.

(** [self._address_class(x)] on an integer [x] with
    [0 <= x <= _ALL_ONES], where [_check_int_address] passes. *)
Definition _address_class (f : family) (x : Z) : Address := mkAddress f x None.

Definition option_string_eqb (a b : option string) : bool :=
  match a, b with
  | None, None => true
  | Some x, Some y => String.eqb x y
  | _, _ => false
  end.

(** [_BaseAddress.__eq__], refined by [IPv6Address.__eq__] *)
Definition Address_eq (self other : Address) : bool :=
  let address_equal :=
    (_ip self =? _ip other) && family_eqb (addr_family self) (addr_family other) in
  match addr_family self with
  | V4 => address_equal
  | V6 => if negb address_equal then false
          else option_string_eqb (_scope_id self) (_scope_id other)
  end.

(** [str(address)]: [_BaseAddress.__str__], to which [IPv6Address.__str__]
    appends a non-empty scope id. *)
Definition Address_str (self : Address) : string :=
  match addr_family self with
  | V4 => v4_string_from_ip_int (_ip self)
  | V6 =>
      let ip_str := v6_string_from_ip_int (_ip self) in
      match _scope_id self with
      | Some (String c s) => append ip_str (append "%" (String c s))
      | _ => ip_str
      end
  end.

(** [_BaseAddress.__lt__] *)
Definition Address_lt (self other : Address) : result bool :=
  if negb (family_eqb (addr_family self) (addr_family other)) then
    raise TypeError (Fmt "%s and %s are not of the same version"
                         [Lit (Address_str self); Lit (Address_str other)])
  else if negb (_ip self =? _ip other) then Ok (_ip self <? _ip other)
  else Ok false.

(** [__le__] and [__ge__] as [functools.total_ordering] derives them
    from [__lt__] *)
Definition Address_le (self other : Address) : result bool :=
  op_result <- Address_lt self other ;;
  Ok (op_result || Address_eq self other).

Definition Address_ge (self other : Address) : result bool :=
  op_result <- Address_lt self other ;;
  Ok (negb op_result).

(** [x in used_set] for a set of address objects: some element equals
    [x] (equal addresses have equal hashes). *)
Definition set_contains (used_set : list Address) (x : Address) : bool :=
  existsb (Address_eq x) used_set.

(** *** Netmasks *)

(** [_IPAddressBase._prefix_from_ip_string]: the text is first read as a
    netmask and, when that fails, with its bits inverted as a hostmask. *)
Definition _prefix_from_ip_string (f : family) (ip_str : string) : result Z :=
  ip_int <- try_except (_ip_int_from_string f ip_str) is_AddressValueError
              (fun _ => _report_invalid_netmask (Lit ip_str)) ;;
  try_except (_prefix_from_ip_int f ip_int) is_ValueError
    (fun _ =>
       let ip_int := Z.lxor ip_int (_ALL_ONES f) in
       try_except (_prefix_from_ip_int f ip_int) is_ValueError
                  (fun _ => _report_invalid_netmask (Lit ip_str))).

Inductive mask_arg : Type := MStr (s : string) | MInt (z : Z).

(** [_IPAddressBase._split_addr_prefix] *)
Definition _split_addr_prefix (f : family) (address : net_arg)
  : result (addr_arg * mask_arg) :=
  match address with
  | NTuple addr prefixlen => Ok (AInt addr, MInt prefixlen)
  | NStr s =>
      address <- _split_optional_netmask s ;;
      match address with
      | a :: m :: _ => Ok (AStr a, MStr m)
      | a :: [] => Ok (AStr a, MInt (_max_prefixlen f))
      | [] => Ok (AStr EmptyString, MInt (_max_prefixlen f))
      end
  end.

(** [_BaseV4._make_netmask] and [_BaseV6._make_netmask]; the class-level
    cache only memoises the result. *)
Definition _make_netmask (f : family) (arg : mask_arg) : result (Address * Z) :=
  prefixlen <-
    match arg with
    | MInt prefixlen =>
        if negb ((0 <=? prefixlen) && (prefixlen <=? _max_prefixlen f))
        then _report_invalid_netmask (Int prefixlen)
        else Ok prefixlen
    | MStr s =>
        match f with
        | V4 => try_except (_prefix_from_prefix_string V4 s) is_NetmaskValueError
                           (fun _ => _prefix_from_ip_string V4 s)
        | V6 => _prefix_from_prefix_string V6 s
        end
    end ;;
  netmask <- make_address f (AInt (_ip_int_from_prefix f prefixlen)) ;;
  Ok (netmask, prefixlen).

(** *** Network objects *)

(** [str(network)] *)
Definition Network_str (self : Network) : string :=
  append (Address_str (network_address self))
         (append "/" (Py.str (_prefixlen self))).

(** [IPv4Network.__init__] and [IPv6Network.__init__], which differ only
    in the family. *)
Definition make_network (f : family) (address : net_arg) (strict : bool)
  : result Network :=
  '(addr, mask) <- _split_addr_prefix f address ;;
  network_address <- make_address f addr ;;
  '(netmask, prefixlen) <- _make_netmask f mask ;;
  let self := mkNetwork network_address netmask prefixlen in
  let packed := _ip network_address in
  if negb (Z.land packed (_ip netmask) =? packed) then
    if strict then
      raise ValueError (Fmt "%s has host bits set" [Lit (Network_str self)])
    else
      network_address <- make_address f (AInt (Z.land packed (_ip netmask))) ;;
      Ok (mkNetwork network_address netmask prefixlen)
  else Ok self.

Definition IPv4Network := make_network V4.
Definition IPv6Network := make_network V6.

(** [ipaddress.ip_address] on a string *)
Definition ip_address (address : string) : result Address :=
  try_except (IPv4Address (AStr address)) is_Address_or_Netmask_error
    (fun _ =>
       try_except (IPv6Address (AStr address)) is_Address_or_Netmask_error
         (fun _ =>
            raise ValueError
                  (Fmt "%r does not appear to be an IPv4 or IPv6 address"
                       [Lit address]))).

(** [ipaddress.ip_network] on a string *)
Definition ip_network (address : string) (strict : bool) : result Network :=
  try_except (IPv4Network (NStr address) strict) is_Address_or_Netmask_error
    (fun _ =>
       try_except (IPv6Network (NStr address) strict) is_Address_or_Netmask_error
         (fun _ =>
            raise ValueError
                  (Fmt "%r does not appear to be an IPv4 or IPv6 network"
                       [Lit address]))).

Definition version (self : Network) : Z := _version (net_family self).
Definition prefixlen (self : Network) : Z := _prefixlen self.
Definition max_prefixlen (self : Network) : Z := _max_prefixlen (net_family self).

(** [_BaseNetwork.hostmask] *)
Definition hostmask (self : Network) : Address :=
  _address_class (net_family self)
                 (Z.lxor (_ip (netmask self)) (_ALL_ONES (net_family self))).

(** [_BaseNetwork.broadcast_address] *)
Definition broadcast_address (self : Network) : Address :=
  _address_class (net_family self)
                 (Z.lor (_ip (network_address self)) (_ip (hostmask self))).

(** [_BaseNetwork.num_addresses] *)
Definition num_addresses (self : Network) : Z :=
  _ip (broadcast_address self) - _ip (network_address self) + 1.

(** [_BaseNetwork.__iter__] *)
Definition __iter__ (self : Network) : list Address :=
  let network := _ip (network_address self) in
  let broadcast := _ip (broadcast_address self) in
  map (_address_class (net_family self)) (Py.range network (broadcast + 1)).

(** [network.hosts()]: [__init__] rebinds [hosts] to [__iter__] when the
    prefix length is one below the maximum and to the one address the
    network was built from when it is the maximum; otherwise it is
    [_BaseNetwork.hosts] for IPv4 and [IPv6Network.hosts] for IPv6. *)
Definition hosts (self : Network) : list Address :=
  let f := net_family self in
  if _prefixlen self =? _max_prefixlen f - 1 then __iter__ self
  else if _prefixlen self =? _max_prefixlen f then [network_address self]
  else
    let network := _ip (network_address self) in
    let broadcast := _ip (broadcast_address self) in
    match f with
    | V4 => map (_address_class f) (Py.range (network + 1) broadcast)
    | V6 => map (_address_class f) (Py.range (network + 1) (broadcast + 1))
    end.

(** [list(self.subnets(new_prefix=new_prefix))] *)
Definition subnets (self : Network) (new_prefix : Z) : result (list Network) :=
  let f := net_family self in
  if _prefixlen self =? _max_prefixlen f then Ok [self]
  else if new_prefix <? _prefixlen self then
    raise ValueError (Lit "new prefix must be longer")
  else
    let prefixlen_diff := new_prefix - _prefixlen self in
    if prefixlen_diff <? 0 then
      raise ValueError (Lit "prefix length diff must be > 0")
    else
      let new_prefixlen := _prefixlen self + prefixlen_diff in
      if _max_prefixlen f <? new_prefixlen then
        raise ValueError
              (Fmt "prefix length diff %d is invalid for netblock %s"
                   [Int new_prefixlen; Lit (Network_str self)])
      else
        let start := _ip (network_address self) in
        let end_ := _ip (broadcast_address self) + 1 in
        let step := Z.shiftr (_ip (hostmask self) + 1) prefixlen_diff in
        addrs <- Py.range3 start end_ step ;;
        mapM (fun new_addr => make_network f (NTuple new_addr new_prefixlen) true)
             addrs.

(** [_BaseNetwork._is_subnet_of] *)
Definition _is_subnet_of (a b : Network) : result bool :=
  if negb (version a =? version b) then
    raise TypeError (Fmt "%s and %s are not of the same version"
                         [Lit (Network_str a); Lit (Network_str b)])
  else
    low <- Address_le (network_address b) (network_address a) ;;
    if low then Address_ge (broadcast_address b) (broadcast_address a)
    else Ok false.

(** [_BaseNetwork.subnet_of] *)
Definition subnet_of (self other : Network) : result bool :=
  _is_subnet_of self other.

End ipaddress.

(** ** [IPAddressManager] *)

Module IPAddressManager.
Import ipaddress.

(** A value stored in the dictionary that [calculate_network_info]
    returns: a string, an integer or [None]. *)
Inductive value : Type :=
| VStr (s : string)
| VInt (z : Z)
| VNone.

(** A dictionary with string keys, in insertion order. *)
Definition dict : Type := list (string * value).

(** [d[key]], when the key is present *)
Fixpoint dict_get (d : dict) (key : string) : option value :=
  match d with
  | [] => None
  | (k, v) :: d' => if String.eqb k key then Some v else dict_get d' key
  end.

(** [validate_cidr] *)
Definition validate_cidr (cidr : string) : result bool :=
  try_except
    (_ <- ip_network cidr true ;;
     Ok true)
    is_ValueError
    (fun _ => Ok false).

(** [is_subnet_of] *)
Definition is_subnet_of (parent_cidr subnet_cidr : string) : result bool :=
  try_except
    (parent_net <- ip_network parent_cidr true ;;
     subnet_net <- ip_network subnet_cidr true ;;
     subnet_of subnet_net parent_net)
    is_ValueError
    (fun _ => Ok false).

(** [generate_subnets] *)
Definition generate_subnets (parent_cidr : string) (new_prefix count : Z)
  : result (list string) :=
  try_except
    (parent_net <- ip_network parent_cidr true ;;
     subnets <- subnets parent_net new_prefix ;;
     Ok (map Network_str (Py.slice_to subnets count)))
    is_ValueError
    (fun e => raise ValueError
                    (Fmt "Error generating subnets: %s" [exn_message e])).

(** The [for host in subnet.hosts()] loop of [get_available_ip]. *)
Fixpoint first_unused (used_set : list Address) (hosts : list Address)
  : option string :=
  match hosts with
  | [] => None
  | host :: rest =>
      if negb (set_contains used_set host) then Some (Address_str host)
      else first_unused used_set rest
  end.

(** [get_available_ip] *)
Definition get_available_ip (subnet_cidr : string) (used_ips : list string)
  : result (option string) :=
  try_except
    (subnet <- ip_network subnet_cidr true ;;
     used_set <- mapM ip_address used_ips ;;
     Ok (first_unused used_set (hosts subnet)))
    is_ValueError
    (fun _ => Ok None).

(** [calculate_network_info] *)
Definition calculate_network_info (cidr : string) : result dict :=
  try_except
    (network <- ip_network cidr true ;;
     Ok [ ("network_address", VStr (Address_str (network_address network)));
          ("broadcast_address", VStr (Address_str (broadcast_address network)));
          ("netmask", VStr (Address_str (netmask network)));
          ("hostmask", VStr (Address_str (hostmask network)));
          ("prefixlen", VInt (prefixlen network));
          ("num_addresses", VInt (num_addresses network));
          ("usable_hosts",
            VInt (if version network =? 4 then num_addresses network - 2
                  else num_addresses network));
          ("first_usable",
            match hosts network with
            | h :: _ => VStr (Address_str h)
            | [] => VNone
            end);
          ("last_usable",
            match hosts network with
            | h :: hs => VStr (Address_str (last hs h))
            | [] => VNone
            end) ])
    is_ValueError
    (fun _ => Ok []).

End IPAddressManager.

(** ** The utility endpoint of [network_api] over [IPAddressManager] *)

Module network_api.


End network_api.

(** * Predicates used to state the properties *)

(** Every exception that [m] can raise satisfies [P]. *)
Definition raises_only {A : Type} (P : exn -> bool) (m : result A) : Prop :=
  match m with
  | Ok _ => True
  | Raise e => P e = true
  end.

(** [type(e) is ValueError] *)
Definition is_plain_ValueError (e : exn) : bool :=
  match exn_class e with ValueError => true | _ => false end.

(** What [ip_network] with [strict=True] guarantees of the object it
    returns: the prefix length is in range, the netmask is the one of the
    prefix length, and the network address has no bit set outside it. *)
Record wf_network (n : ipaddress.Network) : Prop := mk_wf_network
  { wf_prefix :
      0 <= ipaddress._prefixlen n <= ipaddress._max_prefixlen (ipaddress.net_family n);
    wf_netmask :
      ipaddress.netmask n
      = ipaddress.mkAddress (ipaddress.net_family n)
          (ipaddress._ip_int_from_prefix (ipaddress.net_family n)
                                         (ipaddress._prefixlen n))
          None;
    wf_aligned :
      Z.land (ipaddress._ip (ipaddress.network_address n))
             (ipaddress._ip (ipaddress.netmask n))
      = ipaddress._ip (ipaddress.network_address n) }.

(** The usable hosts of a valid block: the one address of a block of
    maximal prefix length; both addresses when the prefix length is one
    below the maximum; otherwise every address of the block but the
    network address and, for IPv4, the broadcast address. *)
Definition usable_host (n : ipaddress.Network) (h : ipaddress.Address) : Prop :=
  let f := ipaddress.net_family n in
  let network := ipaddress._ip (ipaddress.network_address n) in
  let broadcast := ipaddress._ip (ipaddress.broadcast_address n) in
  if ipaddress._prefixlen n =? ipaddress._max_prefixlen f then
    h = ipaddress.network_address n
  else
    ipaddress.addr_family h = f /\ ipaddress._scope_id h = None
    /\ if ipaddress._prefixlen n =? ipaddress._max_prefixlen f - 1
       then network <= ipaddress._ip h <= broadcast
       else match f with
            | ipaddress.V4 => network < ipaddress._ip h < broadcast
            | ipaddress.V6 => network < ipaddress._ip h <= broadcast
            end.

(** The order of addresses by integer value. *)
Definition ip_lt (a b : ipaddress.Address) : Prop :=
  ipaddress._ip a < ipaddress._ip b.

(** The usable hosts as the specification of FirstAvailableHost words
    them: every address of the block in ascending order, without the
    network address and, for an IPv4 block of prefix length below 31,
    without the broadcast address. *)
Definition claimed_usable_hosts (n : ipaddress.Network) : list ipaddress.Address :=
  filter (fun a =>
            negb (ipaddress._ip a =? ipaddress._ip (ipaddress.network_address n))
            && negb ((ipaddress.version n =? 4) && (ipaddress._prefixlen n <? 31)
                     && (ipaddress._ip a
                         =? ipaddress._ip (ipaddress.broadcast_address n))))
         (ipaddress.__iter__ n).

(** FirstAvailableHost as specified: the first claimed usable host that no
    entry of [usedAddresses] denotes; none for a block that does not
    validate. *)
Definition claimed_FirstAvailableHost (blockText : string)
           (usedAddresses : list string) : option string :=
  match ipaddress.ip_network blockText true with
  | Raise _ => None
  | Ok n =>
      option_map ipaddress.Address_str
        (find (fun h =>
                 negb (existsb (fun u => match ipaddress.ip_address u with
                                         | Ok a => ipaddress.Address_eq h a
                                         | Raise _ => false
                                         end) usedAddresses))
              (claimed_usable_hosts n))
  end.

(** The network object of family [f] with network address [a] and prefix
    length [n], as the constructor builds it from the pair [(a, n)]. *)
Definition network_at (f : ipaddress.family) (a n : Z) : ipaddress.Network :=
  ipaddress.mkNetwork (ipaddress.mkAddress f a None)
                      (ipaddress.mkAddress f (ipaddress._ip_int_from_prefix f n) None)
                      n.

(** The order of networks by the integer of the network address. *)
Definition network_lt (a b : ipaddress.Network) : Prop :=
  ipaddress._ip (ipaddress.network_address a)
  < ipaddress._ip (ipaddress.network_address b).

(** The part of a block text before the first [/]: the address as it is
    written. *)
Definition address_text (s : string) : string :=
  hd EmptyString (Py.split "/" s).

(** The characters of a dotted-decimal address. *)
Definition digit_or_dot (c : ascii) : bool :=
  Py.is_digit c || Ascii.eqb c ".".

(** * Properties *)

Import ipaddress IPAddressManager.

(** ** Netmasks as bit patterns *)

Lemma max_prefixlen_pos (f : family) : 0 < _max_prefixlen f.
Proof. destruct f; reflexivity. Qed.

Lemma ALL_ONES_ones (f : family) : _ALL_ONES f = Z.ones (_max_prefixlen f).
Proof. unfold _ALL_ONES. rewrite Z.ones_equiv. lia. Qed.

Lemma shiftr_ALL_ONES (f : family) (p : Z) :
  0 <= p <= _max_prefixlen f ->
  Z.shiftr (_ALL_ONES f) p = Z.ones (_max_prefixlen f - p).
Proof.
  intros Hp. rewrite ALL_ONES_ones, Z.shiftr_div_pow2 by lia.
  apply Z.ones_div_pow2. lia.
Qed.

Lemma ip_int_from_prefix_bits (f : family) (p i : Z) :
  0 <= p <= _max_prefixlen f -> 0 <= i ->
  Z.testbit (_ip_int_from_prefix f p) i
  = (_max_prefixlen f - p <=? i) && (i <? _max_prefixlen f).
Proof.
  intros Hp Hi. unfold _ip_int_from_prefix.
  rewrite shiftr_ALL_ONES, ALL_ONES_ones by assumption.
  rewrite Z.lxor_spec, !Z.testbit_ones_nonneg by lia.
  destruct (Z.ltb_spec i (_max_prefixlen f));
    destruct (Z.ltb_spec i (_max_prefixlen f - p));
    destruct (Z.leb_spec (_max_prefixlen f - p) i); simpl; try reflexivity; lia.
Qed.

Lemma ip_int_from_prefix_eq (f : family) (p : Z) :
  0 <= p <= _max_prefixlen f ->
  _ip_int_from_prefix f p = 2 ^ _max_prefixlen f - 2 ^ (_max_prefixlen f - p).
Proof.
  intros Hp.
  assert (E : _ip_int_from_prefix f p
              = Z.shiftl (Z.ones p) (_max_prefixlen f - p)).
  { apply Z.bits_inj'. intros i Hi.
    rewrite ip_int_from_prefix_bits by assumption.
    destruct (Z.leb_spec (_max_prefixlen f - p) i).
    - rewrite Z.shiftl_spec, Z.testbit_ones_nonneg by lia.
      simpl. destruct (Z.ltb_spec i (_max_prefixlen f));
        destruct (Z.ltb_spec (i - (_max_prefixlen f - p)) p); try reflexivity; lia.
    - rewrite Z.shiftl_spec_low by lia. reflexivity. }
  rewrite E, Z.shiftl_mul_pow2, Z.ones_equiv by lia.
  replace (2 ^ _max_prefixlen f)
    with (2 ^ p * 2 ^ (_max_prefixlen f - p))
    by (rewrite <- Z.pow_add_r by lia; f_equal; lia).
  lia.
Qed.

Lemma ip_int_from_prefix_range (f : family) (p : Z) :
  0 <= p <= _max_prefixlen f ->
  0 <= _ip_int_from_prefix f p <= _ALL_ONES f.
Proof.
  intros Hp. rewrite ip_int_from_prefix_eq by assumption. unfold _ALL_ONES.
  assert (0 < 2 ^ (_max_prefixlen f - p)) by (apply Z.pow_pos_nonneg; lia).
  assert (2 ^ (_max_prefixlen f - p) <= 2 ^ _max_prefixlen f)
    by (apply Z.pow_le_mono_r; lia).
  lia.
Qed.

(** The hostmask of a prefix length: the low bits. *)
Lemma hostmask_of_prefix (f : family) (p : Z) :
  0 <= p <= _max_prefixlen f ->
  Z.lxor (_ip_int_from_prefix f p) (_ALL_ONES f) = Z.ones (_max_prefixlen f - p).
Proof.
  intros Hp. apply Z.bits_inj'. intros i Hi.
  rewrite Z.lxor_spec, ip_int_from_prefix_bits, ALL_ONES_ones by assumption.
  rewrite !Z.testbit_ones_nonneg by lia.
  destruct (Z.ltb_spec i (_max_prefixlen f));
    destruct (Z.ltb_spec i (_max_prefixlen f - p));
    destruct (Z.leb_spec (_max_prefixlen f - p) i); simpl; try reflexivity; lia.
Qed.

(** An address passes the host-bits check of a prefix length exactly when
    it is a multiple of the block size below [2 ^ max_prefixlen]. *)
Lemma aligned_iff (f : family) (p x : Z) :
  0 <= p <= _max_prefixlen f ->
  Z.land x (_ip_int_from_prefix f p) = x
  <-> 0 <= x < 2 ^ _max_prefixlen f /\ x mod 2 ^ (_max_prefixlen f - p) = 0.
Proof.
  intros Hp. split.
  - intros E.
    assert (Hx : 0 <= x).
    { rewrite <- E. apply Z.land_nonneg. right.
      apply ip_int_from_prefix_range. assumption. }
    assert (Hhi : x mod 2 ^ _max_prefixlen f = x).
    { rewrite <- Z.land_ones by lia. rewrite <- E at 2.
      rewrite <- E at 1. rewrite <- Z.land_assoc. f_equal.
      apply Z.bits_inj'. intros i Hi.
      rewrite Z.land_spec, ip_int_from_prefix_bits, Z.testbit_ones_nonneg by lia.
      destruct (Z.ltb_spec i (_max_prefixlen f));
        destruct (Z.leb_spec (_max_prefixlen f - p) i); reflexivity. }
    split.
    + pose proof (Z.mod_pos_bound x (2 ^ _max_prefixlen f)
                    ltac:(apply Z.pow_pos_nonneg; lia)). lia.
    + rewrite <- Z.land_ones by lia. rewrite <- E, <- Z.land_assoc.
      replace (Z.land (_ip_int_from_prefix f p) (Z.ones (_max_prefixlen f - p)))
        with 0; [apply Z.land_0_r|].
      apply Z.bits_inj'. intros i Hi.
      rewrite Z.land_spec, ip_int_from_prefix_bits, Z.testbit_ones_nonneg by lia.
      rewrite Z.bits_0.
      destruct (Z.ltb_spec i (_max_prefixlen f - p));
        destruct (Z.leb_spec (_max_prefixlen f - p) i);
        destruct (Z.ltb_spec i (_max_prefixlen f)); simpl; try reflexivity; lia.
  - intros [Hx Hm]. apply Z.bits_inj'. intros i Hi.
    rewrite Z.land_spec, ip_int_from_prefix_bits by assumption.
    destruct (Z.leb_spec (_max_prefixlen f - p) i).
    + destruct (Z.ltb_spec i (_max_prefixlen f)); simpl.
      * apply andb_true_r.
      * rewrite andb_false_r. symmetry.
        rewrite <- (Z.mod_small x (2 ^ _max_prefixlen f)) by lia.
        apply Z.mod_pow2_bits_high. lia.
    + simpl. rewrite andb_false_r. symmetry.
      rewrite <- (Z.mod_pow2_bits_low x (_max_prefixlen f - p)) by lia.
      rewrite Hm. apply Z.bits_0.
Qed.

(** On an aligned address, or-ing the hostmask in adds it. *)
Lemma lor_hostmask (k x : Z) :
  0 <= k -> x mod 2 ^ k = 0 -> Z.lor x (Z.ones k) = x + 2 ^ k - 1.
Proof.
  intros Hk Hm.
  assert (E : Z.land x (Z.ones k) = 0) by (rewrite Z.land_ones; assumption).
  rewrite <- Z.lxor_lor by assumption.
  rewrite <- Z.add_nocarry_lxor by assumption.
  rewrite Z.ones_equiv. lia.
Qed.

(** ** Which exceptions can be raised *)

Lemma raises_only_bind {A B : Type} (P : exn -> bool) (m : result A)
      (k : A -> result B) :
  raises_only P m -> (forall a, m = Ok a -> raises_only P (k a)) ->
  raises_only P (bind m k).
Proof. destruct m; simpl; auto. Qed.

Lemma raises_only_try_except {A : Type} (P Q : exn -> bool) (m : result A)
      (handles : exn -> bool) (h : exn -> result A) :
  raises_only Q m ->
  (forall e, Q e = true -> handles e = true -> raises_only P (h e)) ->
  (forall e, Q e = true -> handles e = false -> P e = true) ->
  raises_only P (try_except m handles h).
Proof.
  destruct m as [a|e]; simpl; auto. intros HQ Hh Hp.
  destruct (handles e) eqn:E; auto. simpl. auto.
Qed.

Lemma raises_only_mapM {A B : Type} (P : exn -> bool) (f : A -> result B)
      (l : list A) :
  (forall x, raises_only P (f x)) -> raises_only P (mapM f l).
Proof.
  intros Hf. induction l as [|x xs IH]; simpl; [exact I|].
  apply raises_only_bind; [apply Hf|]. intros y _.
  apply raises_only_bind; [apply IH|]. intros ys _. exact I.
Qed.

Lemma raises_only_weaken {A : Type} (P Q : exn -> bool) (m : result A) :
  (forall e, P e = true -> Q e = true) -> raises_only P m -> raises_only Q m.
Proof. destruct m; simpl; auto. Qed.

Ltac raises_step :=
  match goal with
  | |- raises_only _ (Ok _) => exact I
  | |- raises_only _ (raise _ _) => reflexivity
  | |- raises_only _ (_report_invalid_netmask _) => reflexivity
  | |- raises_only _ (bind _ _) => apply raises_only_bind; [|intros ? ?]
  | |- raises_only _ (if ?c then _ else _) => destruct c eqn:?
  | |- raises_only _ (match ?x with _ => _ end) => destruct x eqn:?
  end.

Lemma Py_int_raises (s : string) (base : Z) :
  raises_only is_plain_ValueError (Py.int s base).
Proof. destruct s; simpl; reflexivity. Qed.

Lemma parse_octet_raises (s : string) :
  raises_only is_plain_ValueError (_parse_octet s).
Proof.
  unfold _parse_octet. repeat raises_step. apply Py_int_raises.
Qed.

Lemma parse_hextet_raises (s : string) :
  raises_only is_plain_ValueError (_parse_hextet s).
Proof.
  unfold _parse_hextet. repeat raises_step. apply Py_int_raises.
Qed.

Lemma parse_hextets_raises (parts : list string) (idxs : list Z) (acc : Z) :
  raises_only is_plain_ValueError (parse_hextets parts idxs acc).
Proof.
  revert acc. induction idxs as [|i rest IH]; intros acc; simpl; [exact I|].
  apply raises_only_bind; [apply parse_hextet_raises|]. intros h _. apply IH.
Qed.

Lemma find_skip_index_raises (ip_str : string) (parts : list string)
      (idxs : list Z) (acc : option Z) :
  raises_only is_AddressValueError (find_skip_index ip_str parts idxs acc).
Proof.
  revert acc. induction idxs as [|i rest IH]; intros acc; simpl; [exact I|].
  repeat raises_step; apply IH.
Qed.

Lemma plain_is_ValueError (e : exn) :
  is_plain_ValueError e = true -> is_ValueError e = true.
Proof. destruct e as [[] m]; cbn; intros; congruence. Qed.

Lemma Address_is_ValueError (e : exn) :
  is_AddressValueError e = true -> is_ValueError e = true.
Proof. destruct e as [[] m]; cbn; intros; congruence. Qed.

Lemma v4_ip_int_from_string_raises (s : string) :
  raises_only is_AddressValueError (v4_ip_int_from_string s).
Proof.
  unfold v4_ip_int_from_string. repeat raises_step.
  apply raises_only_try_except with (Q := is_plain_ValueError).
  - apply raises_only_bind; [|intros; exact I].
    apply raises_only_mapM. apply parse_octet_raises.
  - intros; reflexivity.
  - intros e He Hn. apply plain_is_ValueError in He. congruence.
Qed.

Lemma IPv4Address_raises (a : addr_arg) :
  raises_only is_AddressValueError (IPv4Address a).
Proof.
  unfold IPv4Address, _check_int_address. repeat raises_step.
  apply v4_ip_int_from_string_raises.
Qed.

Lemma v6_ip_int_from_string_raises (s : string) :
  raises_only is_AddressValueError (v6_ip_int_from_string s).
Proof.
  unfold v6_ip_int_from_string.
  repeat first
    [ raises_step
    | apply find_skip_index_raises
    | apply raises_only_try_except with (Q := is_AddressValueError);
      [apply IPv4Address_raises | intros; reflexivity | intros; assumption]
    | apply raises_only_try_except with (Q := is_plain_ValueError);
      [ apply raises_only_bind; [apply parse_hextets_raises|];
        intros; apply parse_hextets_raises
      | intros; reflexivity
      | intros e He Hn; apply plain_is_ValueError in He; congruence ] ].
Qed.

Lemma IPv6Address_raises (a : addr_arg) :
  raises_only is_AddressValueError (IPv6Address a).
Proof.
  unfold IPv6Address, _check_int_address, _split_scope_id.
  repeat raises_step. apply v6_ip_int_from_string_raises.
Qed.

Lemma make_address_raises (f : family) (a : addr_arg) :
  raises_only is_AddressValueError (make_address f a).
Proof. destruct f; [apply IPv4Address_raises | apply IPv6Address_raises]. Qed.

Lemma Netmask_is_ValueError (e : exn) :
  is_NetmaskValueError e = true -> is_ValueError e = true.
Proof. destruct e as [[] m]; cbn; intros; congruence. Qed.

Lemma Address_or_Netmask_is_ValueError (e : exn) :
  is_Address_or_Netmask_error e = true -> is_ValueError e = true.
Proof. destruct e as [[] m]; cbn; intros; congruence. Qed.

Lemma prefix_from_ip_int_raises (f : family) (x : Z) :
  raises_only is_plain_ValueError (_prefix_from_ip_int f x).
Proof. unfold _prefix_from_ip_int. repeat raises_step. Qed.

Lemma prefix_from_prefix_string_raises (f : family) (s : string) :
  raises_only is_NetmaskValueError (_prefix_from_prefix_string f s).
Proof.
  unfold _prefix_from_prefix_string. repeat raises_step.
  apply raises_only_try_except with (Q := is_plain_ValueError).
  - apply Py_int_raises.
  - intros; reflexivity.
  - intros e He Hn. apply plain_is_ValueError in He. congruence.
Qed.

Lemma prefix_from_ip_string_raises (f : family) (s : string) :
  raises_only is_NetmaskValueError (_prefix_from_ip_string f s).
Proof.
  unfold _prefix_from_ip_string. apply raises_only_bind.
  - apply raises_only_try_except with (Q := is_AddressValueError).
    + destruct f; [apply v4_ip_int_from_string_raises
                  | apply v6_ip_int_from_string_raises].
    + intros; reflexivity.
    + intros; congruence.
  - intros x _. apply raises_only_try_except with (Q := is_plain_ValueError).
    + apply prefix_from_ip_int_raises.
    + intros e _ _.
      apply raises_only_try_except with (Q := is_plain_ValueError).
      * apply prefix_from_ip_int_raises.
      * intros; reflexivity.
      * intros e' He Hn. apply plain_is_ValueError in He. congruence.
    + intros e He Hn. apply plain_is_ValueError in He. congruence.
Qed.

Lemma make_netmask_raises (f : family) (m : mask_arg) :
  raises_only is_Address_or_Netmask_error (_make_netmask f m).
Proof.
  unfold _make_netmask. apply raises_only_bind.
  - destruct m as [s|p].
    + destruct f.
      * apply raises_only_try_except with (Q := is_NetmaskValueError).
        -- apply prefix_from_prefix_string_raises.
        -- intros e _ _.
           apply raises_only_weaken with (P := is_NetmaskValueError);
             [|apply prefix_from_ip_string_raises].
           intros [[] ?]; cbn; congruence.
        -- intros; congruence.
      * apply raises_only_weaken with (P := is_NetmaskValueError);
          [|apply prefix_from_prefix_string_raises].
        intros [[] ?]; cbn; congruence.
    + repeat raises_step.
  - intros p _. apply raises_only_bind; [|intros; exact I].
    apply raises_only_weaken with (P := is_AddressValueError);
      [|apply make_address_raises].
    intros [[] ?]; cbn; congruence.
Qed.

Lemma split_addr_prefix_raises (f : family) (a : net_arg) :
  raises_only is_AddressValueError (_split_addr_prefix f a).
Proof.
  unfold _split_addr_prefix, _split_optional_netmask. repeat raises_step.
Qed.

(** A network constructor raises an address or netmask error, or the plain
    [ValueError] of the host-bits check; without [strict] only the
    former. *)
Lemma make_network_raises (f : family) (a : net_arg) (strict : bool) :
  raises_only (fun e => is_Address_or_Netmask_error e
                        || (strict && is_plain_ValueError e))
              (make_network f a strict).
Proof.
  unfold make_network.
  apply raises_only_bind.
  { apply raises_only_weaken with (P := is_AddressValueError);
      [|apply split_addr_prefix_raises].
    intros [[] ?]; cbn; congruence. }
  intros [addr mask] _. apply raises_only_bind.
  { apply raises_only_weaken with (P := is_AddressValueError);
      [|apply make_address_raises].
    intros [[] ?]; cbn; congruence. }
  intros na _. apply raises_only_bind.
  { apply raises_only_weaken with (P := is_Address_or_Netmask_error);
      [|apply make_netmask_raises].
    intros e He. rewrite He. reflexivity. }
  intros [nm p] _.
  destruct (negb _); [|exact I].
  destruct strict; [reflexivity|].
  apply raises_only_bind; [|intros; exact I].
  apply raises_only_weaken with (P := is_AddressValueError);
    [|apply make_address_raises].
  intros [[] ?]; cbn; congruence.
Qed.

Lemma make_network_raises_ValueError (f : family) (a : net_arg) (strict : bool) :
  raises_only is_ValueError (make_network f a strict).
Proof.
  eapply raises_only_weaken; [|apply make_network_raises].
  intros [[] ?]; cbn; try congruence. rewrite andb_false_r. congruence.
Qed.

(** [ip_network] raises nothing but [ValueError] and its subclasses. *)
Lemma ip_network_raises (s : string) (strict : bool) :
  raises_only is_ValueError (ip_network s strict).
Proof.
  unfold ip_network.
  apply raises_only_try_except with (Q := is_ValueError).
  - apply make_network_raises_ValueError.
  - intros e _ _. apply raises_only_try_except with (Q := is_ValueError).
    + apply make_network_raises_ValueError.
    + intros; reflexivity.
    + intros; assumption.
  - intros; assumption.
Qed.

(** [ip_address] raises nothing but [ValueError]. *)
Lemma ip_address_raises (s : string) :
  raises_only is_ValueError (ip_address s).
Proof.
  unfold ip_address.
  apply raises_only_try_except with (Q := is_AddressValueError).
  - apply IPv4Address_raises.
  - intros e _ _. apply raises_only_try_except with (Q := is_AddressValueError).
    + apply IPv6Address_raises.
    + intros; reflexivity.
    + intros; apply Address_is_ValueError; assumption.
  - intros; apply Address_is_ValueError; assumption.
Qed.

(** ** Inversion of successful computations *)

Lemma bind_Ok {A B : Type} (m : result A) (k : A -> result B) (b : B) :
  bind m k = Ok b -> exists a, m = Ok a /\ k a = Ok b.
Proof. destruct m as [a|e]; simpl; [eauto | discriminate]. Qed.

Lemma try_except_Ok {A : Type} (m : result A) (handles : exn -> bool)
      (h : exn -> result A) (a : A) :
  try_except m handles h = Ok a ->
  m = Ok a \/ exists e, m = Raise e /\ handles e = true /\ h e = Ok a.
Proof.
  destruct m as [x|e]; simpl; [auto|].
  destruct (handles e) eqn:E; [eauto | discriminate].
Qed.

Lemma mapM_Ok_length {A B : Type} (f : A -> result B) (l : list A) (r : list B) :
  mapM f l = Ok r -> List.length r = List.length l.
Proof.
  revert r. induction l as [|x xs IH]; simpl; intros r H.
  - injection H as <-. reflexivity.
  - apply bind_Ok in H. destruct H as (y & _ & H).
    apply bind_Ok in H. destruct H as (ys & Hys & H).
    injection H as <-. simpl. f_equal. apply IH. assumption.
Qed.

Lemma mapM_Ok_Forall2 {A B : Type} (f : A -> result B) (l : list A) (r : list B) :
  mapM f l = Ok r -> Forall2 (fun x y => f x = Ok y) l r.
Proof.
  revert r. induction l as [|x xs IH]; simpl; intros r H.
  - injection H as <-. constructor.
  - apply bind_Ok in H. destruct H as (y & Hy & H).
    apply bind_Ok in H. destruct H as (ys & Hys & H).
    injection H as <-. constructor; auto.
Qed.

Lemma mapM_total {A B : Type} (f : A -> result B) (g : A -> B) (l : list A) :
  (forall x, In x l -> f x = Ok (g x)) -> mapM f l = Ok (map g l).
Proof.
  induction l as [|x xs IH]; simpl; intros H; [reflexivity|].
  rewrite H by auto. simpl. rewrite IH by auto. reflexivity.
Qed.

Lemma mapM_Raise {A B : Type} (f : A -> result B) (l : list A) (x : A) (e : exn) :
  In x l -> f x = Raise e -> exists e', mapM f l = Raise e'.
Proof.
  induction l as [|y ys IH]; simpl; [contradiction|].
  intros [->|Hin] Hx.
  - rewrite Hx. simpl. eauto.
  - destruct (f y) as [b|e0]; simpl; [|eauto].
    destruct (IH Hin Hx) as [e' ->]. simpl. eauto.
Qed.

(** ** Networks returned by the strict constructors *)

Lemma count_righthand_zero_bits_range (number bits : Z) :
  0 <= bits -> 0 <= _count_righthand_zero_bits number bits <= bits.
Proof.
  intros Hb. unfold _count_righthand_zero_bits, Py.bit_length.
  destruct (number =? 0); [lia|].
  destruct (_ =? 0); [lia|].
  pose proof (Z.log2_nonneg (Z.land (Z.lnot number) (number - 1))). lia.
Qed.

Lemma prefix_from_ip_int_range (f : family) (x p : Z) :
  _prefix_from_ip_int f x = Ok p -> 0 <= p <= _max_prefixlen f.
Proof.
  unfold _prefix_from_ip_int. destruct (negb _); [discriminate|].
  intros H. injection H as <-.
  pose proof (count_righthand_zero_bits_range x (_max_prefixlen f)
                ltac:(pose proof (max_prefixlen_pos f); lia)).
  lia.
Qed.

Lemma prefix_from_prefix_string_range (f : family) (s : string) (p : Z) :
  _prefix_from_prefix_string f s = Ok p -> 0 <= p <= _max_prefixlen f.
Proof.
  unfold _prefix_from_prefix_string. destruct (negb _); [discriminate|].
  intros H. apply bind_Ok in H. destruct H as (q & _ & H).
  destruct ((0 <=? q) && (q <=? _max_prefixlen f)) eqn:E; simpl in H;
    [|discriminate].
  injection H as <-. apply andb_true_iff in E. lia.
Qed.

Lemma prefix_from_ip_string_range (f : family) (s : string) (p : Z) :
  _prefix_from_ip_string f s = Ok p -> 0 <= p <= _max_prefixlen f.
Proof.
  unfold _prefix_from_ip_string. intros H.
  apply bind_Ok in H. destruct H as (x & _ & H).
  apply try_except_Ok in H. destruct H as [H|(e & _ & _ & H)].
  - eapply prefix_from_ip_int_range; eassumption.
  - apply try_except_Ok in H. destruct H as [H|(e' & _ & _ & H)].
    + eapply prefix_from_ip_int_range; eassumption.
    + discriminate.
Qed.

Lemma make_address_int (f : family) (x : Z) :
  0 <= x <= _ALL_ONES f -> make_address f (AInt x) = Ok (mkAddress f x None).
Proof.
  intros Hx. destruct f; simpl; unfold _check_int_address;
    destruct (Z.ltb_spec x 0); try lia;
    match goal with |- context [?a <? x] => destruct (Z.ltb_spec a x) end;
    try lia; reflexivity.
Qed.

Lemma make_address_family (f : family) (a : addr_arg) (x : Address) :
  make_address f a = Ok x -> addr_family x = f.
Proof.
  destruct f, a as [s|z]; simpl; intros H.
  - destruct (Py.contains _ _); [discriminate|].
    apply bind_Ok in H. destruct H as (? & _ & H). injection H as <-. reflexivity.
  - apply bind_Ok in H. destruct H as (? & _ & H). injection H as <-. reflexivity.
  - destruct (Py.contains _ _); [discriminate|].
    apply bind_Ok in H. destruct H as ([? ?] & _ & H).
    apply bind_Ok in H. destruct H as (? & _ & H). injection H as <-. reflexivity.
  - apply bind_Ok in H. destruct H as (? & _ & H). injection H as <-. reflexivity.
Qed.

Lemma make_netmask_Ok (f : family) (m : mask_arg) (nm : Address) (p : Z) :
  _make_netmask f m = Ok (nm, p) ->
  0 <= p <= _max_prefixlen f
  /\ nm = mkAddress f (_ip_int_from_prefix f p) None.
Proof.
  unfold _make_netmask. intros H.
  apply bind_Ok in H. destruct H as (q & Hq & H).
  assert (Hr : 0 <= q <= _max_prefixlen f).
  { destruct m as [s|z].
    - destruct f.
      + apply try_except_Ok in Hq. destruct Hq as [Hq|(e & _ & _ & Hq)].
        * eapply prefix_from_prefix_string_range; eassumption.
        * eapply prefix_from_ip_string_range; eassumption.
      + eapply prefix_from_prefix_string_range; eassumption.
    - destruct ((0 <=? z) && (z <=? _max_prefixlen f)) eqn:E; simpl in Hq;
        [|discriminate].
      injection Hq as <-. apply andb_true_iff in E. lia. }
  rewrite make_address_int in H by (apply ip_int_from_prefix_range; assumption).
  simpl in H. injection H as <- <-. auto.
Qed.

Lemma make_network_strict_wf (f : family) (a : net_arg) (n : Network) :
  make_network f a true = Ok n -> wf_network n /\ net_family n = f.
Proof.
  unfold make_network. intros H.
  apply bind_Ok in H. destruct H as ([addr mask] & _ & H).
  apply bind_Ok in H. destruct H as (na & Hna & H).
  apply bind_Ok in H. destruct H as ([nm p] & Hnm & H).
  apply make_netmask_Ok in Hnm. destruct Hnm as [Hp ->].
  apply make_address_family in Hna.
  simpl in H.
  destruct (Z.eqb_spec (Z.land (_ip na) (_ip_int_from_prefix f p)) (_ip na)) as [E|E];
    simpl in H; [|discriminate].
  injection H as <-. unfold net_family. simpl. split; [|assumption].
  constructor; unfold net_family; simpl; rewrite ?Hna; auto.
Qed.

Lemma ip_network_strict_Ok (s : string) (n : Network) :
  ip_network s true = Ok n ->
  exists f, make_network f (NStr s) true = Ok n.
Proof.
  unfold ip_network, IPv4Network, IPv6Network. intros H.
  apply try_except_Ok in H. destruct H as [H|(e & _ & _ & H)]; [eauto|].
  apply try_except_Ok in H. destruct H as [H|(e' & _ & _ & H)]; [eauto|].
  discriminate.
Qed.

Lemma ip_network_wf (s : string) (n : Network) :
  ip_network s true = Ok n -> wf_network n.
Proof.
  intros H. apply ip_network_strict_Ok in H. destruct H as [f H].
  apply make_network_strict_wf in H. tauto.
Qed.

(** ** The address range of a network *)

Lemma aligned_upper (W k x : Z) :
  0 <= k <= W -> 0 <= x < 2 ^ W -> x mod 2 ^ k = 0 -> x + 2 ^ k <= 2 ^ W.
Proof.
  intros Hk Hx Hm.
  assert (Hpk : 0 < 2 ^ k) by (apply Z.pow_pos_nonneg; lia).
  assert (EW : 2 ^ W = 2 ^ (W - k) * 2 ^ k)
    by (rewrite <- Z.pow_add_r by lia; f_equal; lia).
  pose proof (Z.div_mod x (2 ^ k) ltac:(lia)) as Ex. rewrite Hm in Ex.
  assert (x / 2 ^ k < 2 ^ (W - k)).
  { apply Z.div_lt_upper_bound; [lia|]. rewrite Z.mul_comm, <- EW. lia. }
  nia.
Qed.

Lemma wf_network_facts (n : Network) :
  wf_network n ->
  let W := _max_prefixlen (net_family n) in
  let k := W - _prefixlen n in
  let x := _ip (network_address n) in
  0 <= k <= W /\ 0 <= x /\ x mod 2 ^ k = 0 /\ x + 2 ^ k <= 2 ^ W
  /\ _ip (hostmask n) = 2 ^ k - 1
  /\ _ip (broadcast_address n) = x + 2 ^ k - 1
  /\ num_addresses n = 2 ^ k.
Proof.
  intros [Hp Hnm Hal]. intros W k x.
  rewrite Hnm in Hal. simpl in Hal.
  apply aligned_iff in Hal; [|assumption]. destruct Hal as [Hx Hm].
  assert (Hk : 0 <= k <= W) by (subst k W; lia).
  assert (Hh : _ip (hostmask n) = 2 ^ k - 1).
  { unfold hostmask, _address_class. cbn [_ip]. rewrite Hnm. cbn [_ip].
    rewrite hostmask_of_prefix by assumption. rewrite Z.ones_equiv.
    subst k W. lia. }
  assert (Hb : _ip (broadcast_address n) = x + 2 ^ k - 1).
  { unfold broadcast_address, _address_class. cbn [_ip]. rewrite Hh.
    replace (2 ^ k - 1) with (Z.ones k) by (rewrite Z.ones_equiv; lia).
    apply lor_hostmask; [lia | assumption]. }
  repeat split; try assumption; try lia.
  - apply aligned_upper; assumption.
  - unfold num_addresses. rewrite Hb. fold x. lia.
Qed.

(** ** Ranges *)

Lemma range_length (a b : Z) : List.length (Py.range a b) = Z.to_nat (b - a).
Proof. unfold Py.range. rewrite length_map, length_seq. reflexivity. Qed.

Lemma range_In (a b y : Z) : In y (Py.range a b) <-> a <= y < b.
Proof.
  unfold Py.range. rewrite in_map_iff. split.
  - intros (i & <- & Hi). apply in_seq in Hi. lia.
  - intros H. exists (Z.to_nat (y - a)). split; [lia|]. apply in_seq. lia.
Qed.

Lemma range_cons (a b : Z) : a < b -> Py.range a b = a :: Py.range (a + 1) b.
Proof.
  intros H. unfold Py.range.
  replace (Z.to_nat (b - a)) with (S (Z.to_nat (b - (a + 1)))) by lia.
  simpl. f_equal; [lia|]. rewrite <- seq_shift, map_map.
  apply map_ext. intros i. lia.
Qed.

Lemma range_nil (a b : Z) : b <= a -> Py.range a b = [].
Proof.
  intros H. unfold Py.range. replace (Z.to_nat (b - a)) with 0%nat by lia.
  reflexivity.
Qed.

Lemma range_snoc (a b : Z) : a < b -> Py.range a b = Py.range a (b - 1) ++ [b - 1].
Proof.
  intros H. unfold Py.range.
  replace (Z.to_nat (b - a)) with (Z.to_nat (b - 1 - a) + 1)%nat by lia.
  rewrite seq_app, map_app. simpl. f_equal. f_equal. lia.
Qed.

Lemma range_sorted (a b : Z) : StronglySorted Z.lt (Py.range a b).
Proof.
  remember (Z.to_nat (b - a)) as m eqn:Em. revert a Em.
  induction m as [|m IH]; intros a Em.
  - rewrite range_nil by lia. constructor.
  - rewrite range_cons by lia. constructor.
    + apply IH. lia.
    + apply Forall_forall. intros y Hy. apply range_In in Hy. lia.
Qed.

(** ** The hosts of a network *)

(** The bounds [lo <= x < hi] of the integers that [hosts] turns into
    addresses when the prefix length is below the maximum. *)
Lemma hosts_eq (n : Network) :
  wf_network n ->
  let f := net_family n in
  let x := _ip (network_address n) in
  let k := _max_prefixlen f - _prefixlen n in
  hosts n =
    if _prefixlen n =? _max_prefixlen f then [network_address n]
    else if _prefixlen n =? _max_prefixlen f - 1
         then map (_address_class f) (Py.range x (x + 2))
         else match f with
              | V4 => map (_address_class f) (Py.range (x + 1) (x + 2 ^ k - 1))
              | V6 => map (_address_class f) (Py.range (x + 1) (x + 2 ^ k))
              end.
Proof.
  intros Hwf f x k.
  destruct (wf_network_facts n Hwf) as (Hk & Hx & Hm & Hup & Hh & Hb & Hnum).
  fold f in Hk, Hm, Hup, Hh, Hb, Hnum. fold k in Hk, Hm, Hup, Hh, Hb, Hnum.
  fold x in Hx, Hm, Hup, Hb.
  unfold hosts. fold f.
  destruct (Z.eqb_spec (_prefixlen n) (_max_prefixlen f - 1)) as [E1|E1].
  - destruct (Z.eqb_spec (_prefixlen n) (_max_prefixlen f)) as [E2|E2]; [lia|].
    unfold __iter__. fold f. rewrite Hb. fold x.
    replace k with 1 by (subst k; lia). do 2 f_equal.
    change (2 ^ 1) with 2. lia.
  - destruct (Z.eqb_spec (_prefixlen n) (_max_prefixlen f)) as [E2|E2];
      [reflexivity|].
    rewrite Hb. fold x. destruct f; do 2 f_equal; lia.
Qed.

Lemma pow2_ge_4 (k : Z) : 2 <= k -> 4 <= 2 ^ k.
Proof.
  intros H. change 4 with (2 ^ 2). apply Z.pow_le_mono_r; lia.
Qed.

(** A network that passed the strict constructor always has a host. *)
Lemma hosts_nonempty (n : Network) : wf_network n -> hosts n <> [].
Proof.
  intros Hwf. rewrite hosts_eq by assumption.
  destruct (wf_network_facts n Hwf) as (Hk & _).
  pose proof (wf_prefix n Hwf) as Hp.
  destruct (Z.eqb_spec (_prefixlen n) (_max_prefixlen (net_family n)));
    [discriminate|].
  destruct (Z.eqb_spec (_prefixlen n) (_max_prefixlen (net_family n) - 1)).
  - rewrite range_cons by lia. discriminate.
  - pose proof (pow2_ge_4 (_max_prefixlen (net_family n) - _prefixlen n)
                  ltac:(lia)).
    destruct (net_family n); rewrite range_cons by lia; discriminate.
Qed.

Lemma last_map_range {B : Type} (g : Z -> B) (a b : Z) (d : B) :
  a < b -> last (map g (Py.range a b)) d = g (b - 1).
Proof.
  intros H. rewrite range_snoc by assumption. rewrite map_app. simpl.
  apply last_last.
Qed.

(** The first and the last host of a network, by prefix length. *)
Lemma hosts_first_last (n : Network) :
  wf_network n ->
  let f := net_family n in
  let x := _ip (network_address n) in
  let b := _ip (broadcast_address n) in
  exists h hs,
    hosts n = h :: hs
    /\ (if _prefixlen n =? _max_prefixlen f then
          h = network_address n /\ hs = []
        else if _prefixlen n =? _max_prefixlen f - 1 then
          h = _address_class f x /\ last hs h = _address_class f b
        else
          h = _address_class f (x + 1)
          /\ last hs h = _address_class f (match f with V4 => b - 1 | V6 => b end)).
Proof.
  intros Hwf f x b. pose proof (hosts_eq n Hwf) as E. cbv zeta in E.
  destruct (wf_network_facts n Hwf) as (Hk & Hx & Hm & Hup & Hh & Hb & Hnum).
  pose proof (wf_prefix n Hwf) as Hp.
  fold f in E, Hk, Hb, Hp. fold x in E, Hb. fold b in Hb.
  destruct (Z.eqb_spec (_prefixlen n) (_max_prefixlen f)) as [E2|E2].
  { exists (network_address n), []. auto. }
  destruct (Z.eqb_spec (_prefixlen n) (_max_prefixlen f - 1)) as [E1|E1].
  { rewrite range_cons in E by lia. simpl in E.
    eexists _, _. split; [exact E|]. split; [reflexivity|].
    rewrite range_cons by lia. rewrite range_nil by lia. simpl.
    f_equal. rewrite Hb. replace (_max_prefixlen f - _prefixlen n) with 1 by lia.
    change (2 ^ 1) with 2. lia. }
  pose proof (pow2_ge_4 (_max_prefixlen f - _prefixlen n) ltac:(lia)) as H4.
  assert (G : forall hi, x + 2 < hi ->
              exists h hs, map (_address_class f) (Py.range (x + 1) hi) = h :: hs
                           /\ h = _address_class f (x + 1)
                           /\ last hs h = _address_class f (hi - 1)).
  { intros hi Hhi. rewrite range_cons by lia. simpl.
    eexists _, _. split; [reflexivity|]. split; [reflexivity|].
    apply last_map_range. lia. }
  subst f. destruct (net_family n) eqn:Ef.
  - destruct (G (x + 2 ^ (_max_prefixlen V4 - _prefixlen n) - 1))
      as (h & hs & E3 & -> & Hl); [lia|].
    exists (_address_class V4 (x + 1)), hs. rewrite E. split; [exact E3|].
    split; [reflexivity|]. rewrite Hl. f_equal. lia.
  - destruct (G (x + 2 ^ (_max_prefixlen V6 - _prefixlen n)))
      as (h & hs & E3 & -> & Hl); [lia|].
    exists (_address_class V6 (x + 1)), hs. rewrite E. split; [exact E3|].
    split; [reflexivity|]. rewrite Hl. f_equal. lia.
Qed.

(** ** [calculate_network_info] *)

Lemma ip_network_Raise_ValueError (s : string) (strict : bool) (e : exn) :
  ip_network s strict = Raise e -> is_ValueError e = true.
Proof.
  intros H. pose proof (ip_network_raises s strict) as R.
  rewrite H in R. exact R.
Qed.

Lemma ip_address_Raise_ValueError (s : string) (e : exn) :
  ip_address s = Raise e -> is_ValueError e = true.
Proof.
  intros H. pose proof (ip_address_raises s) as R. rewrite H in R. exact R.
Qed.

Lemma validate_cidr_true_iff (s : string) :
  validate_cidr s = Ok true <-> exists n, ip_network s true = Ok n.
Proof.
  unfold validate_cidr. destruct (ip_network s true) as [n|e] eqn:E; simpl.
  - split; eauto.
  - rewrite (ip_network_Raise_ValueError _ _ _ E).
    split; [discriminate | intros [n H]; discriminate].
Qed.

Lemma validate_cidr_false_iff (s : string) :
  validate_cidr s = Ok false <-> exists e, ip_network s true = Raise e.
Proof.
  unfold validate_cidr. destruct (ip_network s true) as [n|e] eqn:E; simpl.
  - split; [discriminate | intros [e H]; discriminate].
  - rewrite (ip_network_Raise_ValueError _ _ _ E). split; eauto.
Qed.

Lemma calculate_network_info_Ok (s : string) (network : Network) :
  ip_network s true = Ok network ->
  calculate_network_info s =
    Ok [ ("network_address", VStr (Address_str (network_address network)));
         ("broadcast_address", VStr (Address_str (broadcast_address network)));
         ("netmask", VStr (Address_str (netmask network)));
         ("hostmask", VStr (Address_str (hostmask network)));
         ("prefixlen", VInt (prefixlen network));
         ("num_addresses", VInt (num_addresses network));
         ("usable_hosts",
           VInt (if version network =? 4 then num_addresses network - 2
                 else num_addresses network));
         ("first_usable",
           match hosts network with
           | h :: _ => VStr (Address_str h)
           | [] => VNone
           end);
         ("last_usable",
           match hosts network with
           | h :: hs => VStr (Address_str (last hs h))
           | [] => VNone
           end) ].
Proof. intros H. unfold calculate_network_info. rewrite H. reflexivity. Qed.

Lemma calculate_network_info_invalid (s : string) (e : exn) :
  ip_network s true = Raise e -> calculate_network_info s = Ok [].
Proof.
  intros H. unfold calculate_network_info. rewrite H. simpl.
  rewrite (ip_network_Raise_ValueError _ _ _ H). reflexivity.
Qed.

(** C8: [calculate_network_info "192.168.1.0/24"] is the dictionary with
    network address 192.168.1.0, broadcast address 192.168.1.255, prefix
    length 24, 256 addresses, 254 usable hosts, first usable host
    192.168.1.1 and last usable host 192.168.1.254; a string that fails
    validation gives the empty dictionary, and no string makes the call
    raise. *)
Theorem calculate_network_info_example_and_invalid :
  calculate_network_info "192.168.1.0/24"
  = Ok [ ("network_address", VStr "192.168.1.0");
         ("broadcast_address", VStr "192.168.1.255");
         ("netmask", VStr "255.255.255.0");
         ("hostmask", VStr "0.0.0.255");
         ("prefixlen", VInt 24);
         ("num_addresses", VInt 256);
         ("usable_hosts", VInt 254);
         ("first_usable", VStr "192.168.1.1");
         ("last_usable", VStr "192.168.1.254") ]
  /\ (forall s, validate_cidr s = Ok false -> calculate_network_info s = Ok [])
  /\ (forall s, exists d, calculate_network_info s = Ok d).
Proof.
  split; [vm_compute; reflexivity|]. split.
  - intros s H. apply validate_cidr_false_iff in H. destruct H as [e H].
    eapply calculate_network_info_invalid; eassumption.
  - intros s. destruct (ip_network s true) as [n|e] eqn:E.
    + eexists. apply (calculate_network_info_Ok _ _ E).
    + exists []. eapply calculate_network_info_invalid; eassumption.
Qed.

(** The usable-host count that [calculate_network_info] reports for a
    valid block of prefix length [p]: [2 ^ (32 - p) - 2] for IPv4 and
    [2 ^ (128 - p)], the number of addresses, for IPv6. *)
Lemma usable_hosts_value (s : string) (n : Network) :
  ip_network s true = Ok n ->
  exists d,
    calculate_network_info s = Ok d
    /\ dict_get d "num_addresses"
       = Some (VInt (2 ^ (_max_prefixlen (net_family n) - _prefixlen n)))
    /\ dict_get d "usable_hosts"
       = Some (VInt (match net_family n with
                     | V4 => 2 ^ (32 - _prefixlen n) - 2
                     | V6 => 2 ^ (128 - _prefixlen n)
                     end)).
Proof.
  intros H. eexists. split; [apply calculate_network_info_Ok; exact H|].
  destruct (wf_network_facts n (ip_network_wf _ _ H)) as (_ & _ & _ & _ & _ & _ & Hnum).
  cbn [dict_get String.eqb Ascii.eqb Bool.eqb]. rewrite Hnum.
  split; [reflexivity|]. unfold version.
  destruct (net_family n); reflexivity.
Qed.

(** C5: on the IPv4 point-to-point blocks the reported usable-host count
    is the number of addresses minus 2 (so [-1] for a /32 and [0] for a
    /31), not the number of addresses. *)
Theorem usable_hosts_point_to_point_blocks :
  (exists d, calculate_network_info "10.0.0.1/32" = Ok d
             /\ dict_get d "num_addresses" = Some (VInt 1)
             /\ dict_get d "usable_hosts" = Some (VInt (-1)))
  /\ (exists d, calculate_network_info "10.0.0.0/31" = Ok d
                /\ dict_get d "num_addresses" = Some (VInt 2)
                /\ dict_get d "usable_hosts" = Some (VInt 0)).
Proof.
  split; eexists; (split; [vm_compute; reflexivity|]);
    split; vm_compute; reflexivity.
Qed.

(** C7, as stated, fails: for the /32 block 10.0.0.1/32 the first and the
    last usable host are reported as the address 10.0.0.1. *)
Lemma first_usable_present_on_slash32 :
  ~ (forall d, calculate_network_info "10.0.0.1/32" = Ok d ->
               dict_get d "first_usable" = Some VNone
               /\ dict_get d "last_usable" = Some VNone).
Proof.
  intros H.
  destruct (H _ ltac:(vm_compute; reflexivity)) as [H1 _].
  vm_compute in H1. discriminate.
Qed.

(** C7, amended: for a valid block whose prefix length is the maximum or
    one below it (IPv4 /31 and /32, IPv6 /127 and /128) the first usable
    host reported is an address with the integer of the network address
    and the last usable host one with the integer of the last address of
    the block; neither is [None]. *)
Theorem first_last_usable_point_to_point (s : string) (n : Network)
        (Hvalid : ip_network s true = Ok n)
        (Hp2p : _max_prefixlen (net_family n) - 1 <= _prefixlen n) :
  exists d first last,
    calculate_network_info s = Ok d
    /\ dict_get d "first_usable" = Some (VStr (Address_str first))
    /\ dict_get d "last_usable" = Some (VStr (Address_str last))
    /\ addr_family first = net_family n
    /\ addr_family last = net_family n
    /\ _ip first = _ip (network_address n)
    /\ _ip last = _ip (broadcast_address n).
Proof.
  pose proof (ip_network_wf _ _ Hvalid) as Hwf.
  destruct (hosts_first_last n Hwf) as (h & hs & Eh & Hc).
  destruct (wf_network_facts n Hwf) as (Hk & Hx & Hm & Hup & Hh & Hb & Hnum).
  pose proof (wf_prefix n Hwf) as Hp.
  eexists _, h, (last hs h).
  split; [apply (calculate_network_info_Ok _ _ Hvalid)|].
  rewrite Eh. cbn [dict_get String.eqb Ascii.eqb Bool.eqb].
  split; [reflexivity|]. split; [reflexivity|].
  destruct (Z.eqb_spec (_prefixlen n) (_max_prefixlen (net_family n))) as [E|E].
  - destruct Hc as [-> ->]. cbn [last]. rewrite Hb.
    replace (_max_prefixlen (net_family n) - _prefixlen n) with 0 by lia.
    change (2 ^ 0) with 1. repeat split; try reflexivity. lia.
  - destruct (Z.eqb_spec (_prefixlen n) (_max_prefixlen (net_family n) - 1));
      [|lia].
    destruct Hc as [-> ->]. repeat split; reflexivity.
Qed.

(** The concrete blocks of C7: each reports addresses, not [None]. *)
Lemma first_last_usable_point_to_point_witness :
  exists n,
    ip_network "10.0.0.0/31" true = Ok n
    /\ _max_prefixlen (net_family n) - 1 <= _prefixlen n
    /\ exists d first last,
        calculate_network_info "10.0.0.0/31" = Ok d
        /\ dict_get d "first_usable" = Some (VStr (Address_str first))
        /\ dict_get d "last_usable" = Some (VStr (Address_str last))
        /\ addr_family first = net_family n
        /\ addr_family last = net_family n
        /\ _ip first = _ip (network_address n)
        /\ _ip last = _ip (broadcast_address n).
Proof.
  eexists. split; [vm_compute; reflexivity|].
  split; [vm_compute; discriminate|].
  apply (first_last_usable_point_to_point "10.0.0.0/31").
  - vm_compute. reflexivity.
  - vm_compute. discriminate.
Defined.

(** ** [is_subnet_of] *)

(** C6: when the parent and the child are valid blocks of different IP
    versions, [is_subnet_of] does not return [False]: the [TypeError] of
    [subnet_of] is not a [ValueError] and escapes. *)
Theorem is_subnet_of_mixed_versions_raises (parent child : string)
        (np nc : Network)
        (Hparent : ip_network parent true = Ok np)
        (Hchild : ip_network child true = Ok nc)
        (Hmixed : net_family np <> net_family nc) :
  exists m, is_subnet_of parent child = Raise (Exn TypeError m).
Proof.
  unfold is_subnet_of. rewrite Hparent, Hchild. simpl.
  unfold subnet_of, _is_subnet_of, version.
  destruct (net_family np), (net_family nc); try congruence;
    simpl; eexists; reflexivity.
Qed.

Lemma is_subnet_of_mixed_versions_raises_witness :
  exists np nc,
    ip_network "10.0.0.0/8" true = Ok np
    /\ ip_network "::/0" true = Ok nc
    /\ net_family np <> net_family nc
    /\ exists m, is_subnet_of "10.0.0.0/8" "::/0" = Raise (Exn TypeError m).
Proof.
  eexists _, _. split; [vm_compute; reflexivity|].
  split; [vm_compute; reflexivity|]. split; [vm_compute; discriminate|].
  eapply (is_subnet_of_mixed_versions_raises "10.0.0.0/8" "::/0").
  - vm_compute. reflexivity.
  - vm_compute. reflexivity.
  - vm_compute. discriminate.
Defined.

(** ** [get_available_ip] *)

Lemma mapM_ip_address_raises (used : list string) :
  raises_only is_ValueError (mapM ip_address used).
Proof. apply raises_only_mapM. apply ip_address_raises. Qed.

Lemma get_available_ip_invalid_block (s : string) (used : list string) (e : exn) :
  ip_network s true = Raise e -> get_available_ip s used = Ok None.
Proof.
  intros H. unfold get_available_ip. rewrite H. simpl.
  rewrite (ip_network_Raise_ValueError _ _ _ H). reflexivity.
Qed.

Lemma get_available_ip_Ok (s : string) (used : list string) (n : Network)
      (addrs : list Address) :
  ip_network s true = Ok n -> mapM ip_address used = Ok addrs ->
  get_available_ip s used = Ok (first_unused addrs (hosts n)).
Proof.
  intros Hn Hu. unfold get_available_ip. rewrite Hn. simpl. rewrite Hu.
  reflexivity.
Qed.

(** C10: if some entry of the used list is not an IP address, the call
    returns [None], whatever the block and the other entries are. *)
Theorem get_available_ip_malformed_used (s : string) (used : list string)
        (u : string) (e : exn)
        (Hin : In u used) (Hbad : ip_address u = Raise e) :
  get_available_ip s used = Ok None.
Proof.
  destruct (ip_network s true) as [n|e0] eqn:En.
  - unfold get_available_ip. rewrite En. simpl.
    destruct (mapM_Raise ip_address used u e Hin Hbad) as [e' He'].
    pose proof (mapM_ip_address_raises used) as R. rewrite He' in R.
    rewrite He'. simpl. simpl in R. rewrite R. reflexivity.
  - eapply get_available_ip_invalid_block; eassumption.
Qed.

(** With no used address the block 192.168.1.0/30 has a free host; one
    malformed entry suppresses it. *)
Lemma get_available_ip_malformed_used_witness :
  get_available_ip "192.168.1.0/30" [] = Ok (Some "192.168.1.1")
  /\ In "not-an-ip" ["192.168.1.2"; "not-an-ip"]
  /\ (exists e, ip_address "not-an-ip" = Raise e)
  /\ get_available_ip "192.168.1.0/30" ["192.168.1.2"; "not-an-ip"] = Ok None.
Proof.
  split; [vm_compute; reflexivity|].
  split; [simpl; auto|].
  split; [eexists; vm_compute; reflexivity|].
  eapply (get_available_ip_malformed_used "192.168.1.0/30" _ "not-an-ip").
  - simpl. auto.
  - vm_compute. reflexivity.
Defined.

Lemma address_class_In (f : family) (l : list Z) (h : Address) :
  In h (map (_address_class f) l)
  <-> addr_family h = f /\ _scope_id h = None /\ In (_ip h) l.
Proof.
  rewrite in_map_iff. split.
  - intros (x & <- & Hx). simpl. auto.
  - intros (Hf & Hs & Hin). exists (_ip h). split; [|assumption].
    destruct h as [hf hip hsc]. simpl in *. subst. reflexivity.
Qed.

Lemma address_class_sorted (f : family) (l : list Z) :
  StronglySorted Z.lt l -> StronglySorted ip_lt (map (_address_class f) l).
Proof.
  induction 1 as [|x l Hs IH Hall]; simpl; constructor; [assumption|].
  apply Forall_forall. intros h Hh. apply in_map_iff in Hh.
  destruct Hh as (y & <- & Hy). unfold ip_lt. simpl.
  rewrite Forall_forall in Hall. auto.
Qed.

(** [hosts] enumerates exactly the usable hosts. *)
Lemma hosts_usable (n : Network) (h : Address) :
  wf_network n -> In h (hosts n) <-> usable_host n h.
Proof.
  intros Hwf. rewrite hosts_eq by assumption. unfold usable_host.
  destruct (wf_network_facts n Hwf) as (Hk & Hx & Hm & Hup & Hh & Hb & Hnum).
  destruct (Z.eqb_spec (_prefixlen n) (_max_prefixlen (net_family n))) as [E|E].
  { simpl. split; [intros [H|[]]; auto | auto]. }
  destruct (Z.eqb_spec (_prefixlen n) (_max_prefixlen (net_family n) - 1))
    as [E1|E1].
  { rewrite address_class_In, range_In, Hb.
    replace (_max_prefixlen (net_family n) - _prefixlen n) with 1 by lia.
    change (2 ^ 1) with 2. intuition lia. }
  rewrite Hb. destruct (net_family n);
    rewrite address_class_In, range_In; intuition lia.
Qed.

(** [hosts] enumerates them in strictly ascending order. *)
Lemma hosts_sorted (n : Network) :
  wf_network n -> StronglySorted ip_lt (hosts n).
Proof.
  intros Hwf. rewrite hosts_eq by assumption.
  destruct (_prefixlen n =? _max_prefixlen (net_family n)).
  { repeat constructor. }
  destruct (_prefixlen n =? _max_prefixlen (net_family n) - 1).
  { apply address_class_sorted, range_sorted. }
  destruct (net_family n); apply address_class_sorted, range_sorted.
Qed.

(** The loop returns the first host, in the order of the list, that the
    used set does not contain. *)
Lemma first_unused_spec (used : list Address) (hs : list Address) :
  StronglySorted ip_lt hs ->
  match first_unused used hs with
  | Some x =>
      exists h, x = Address_str h /\ In h hs /\ set_contains used h = false
                /\ forall h', In h' hs -> ip_lt h' h -> set_contains used h' = true
  | None => forall h, In h hs -> set_contains used h = true
  end.
Proof.
  induction 1 as [|a hs Hs IH Hall]; simpl.
  - intros h [].
  - destruct (set_contains used a) eqn:Ea; simpl.
    + destruct (first_unused used hs) as [x|].
      * destruct IH as (h & -> & Hin & Hfree & Hbefore).
        exists h. repeat split; auto.
        intros h' [<-|Hin'] Hlt; auto.
      * intros h [<-|Hin]; auto.
    + exists a. repeat split; auto.
      intros h' [<-|Hin'] Hlt.
      * unfold ip_lt in Hlt. lia.
      * rewrite Forall_forall in Hall. specialize (Hall _ Hin').
        unfold ip_lt in *. lia.
Qed.

(** C1, as stated, fails on a /31 block, where the first host returned is
    the network address, and on a used list with an entry that is not an
    address, where no host is returned. *)
Lemma get_available_ip_differs_from_claimed :
  get_available_ip "10.0.0.0/31" []
  <> Ok (claimed_FirstAvailableHost "10.0.0.0/31" [])
  /\ get_available_ip "192.168.1.0/30" ["not-an-ip"]
     <> Ok (claimed_FirstAvailableHost "192.168.1.0/30" ["not-an-ip"]).
Proof. split; vm_compute; discriminate. Qed.

(** C1, amended: for a valid block and a used list whose entries all
    parse as addresses, [get_available_ip] returns the first usable host,
    in ascending numeric order, that equals no used address, and [None]
    when every usable host is used.  The usable hosts exclude the network
    address and, for IPv4, the broadcast address only when the prefix
    length is at least two below the maximum.  A block that fails to
    validate gives [None], and the block 192.168.1.0/30 with no used
    address gives 192.168.1.1. *)
Theorem get_available_ip_first_unused_host (s : string) (used : list string)
        (n : Network) (addrs : list Address)
        (Hvalid : ip_network s true = Ok n)
        (Hused : mapM ip_address used = Ok addrs) :
  (exists r,
      get_available_ip s used = Ok r
      /\ match r with
         | Some x =>
             exists h, x = Address_str h /\ usable_host n h
                       /\ set_contains addrs h = false
                       /\ forall h', usable_host n h' -> ip_lt h' h ->
                                     set_contains addrs h' = true
         | None => forall h, usable_host n h -> set_contains addrs h = true
         end)
  /\ (forall s' used', validate_cidr s' = Ok false ->
                       get_available_ip s' used' = Ok None)
  /\ get_available_ip "192.168.1.0/30" [] = Ok (Some "192.168.1.1").
Proof.
  pose proof (ip_network_wf _ _ Hvalid) as Hwf.
  split; [|split].
  - exists (first_unused addrs (hosts n)).
    split; [apply get_available_ip_Ok; assumption|].
    pose proof (first_unused_spec addrs (hosts n) (hosts_sorted n Hwf)) as S.
    destruct (first_unused addrs (hosts n)) as [x|].
    + destruct S as (h & -> & Hin & Hfree & Hbefore).
      exists h. repeat split; auto.
      * apply hosts_usable; assumption.
      * intros h' Hh'. apply Hbefore. apply hosts_usable; assumption.
    + intros h Hh. apply S. apply hosts_usable; assumption.
  - intros s' used' H. apply validate_cidr_false_iff in H. destruct H as [e H].
    eapply get_available_ip_invalid_block; eassumption.
  - vm_compute. reflexivity.
Qed.

Lemma get_available_ip_first_unused_host_witness :
  exists n addrs,
    ip_network "192.168.1.0/30" true = Ok n
    /\ mapM ip_address ["192.168.1.1"] = Ok addrs
    /\ exists r,
        get_available_ip "192.168.1.0/30" ["192.168.1.1"] = Ok r
        /\ match r with
           | Some x =>
               exists h, x = Address_str h /\ usable_host n h
                         /\ set_contains addrs h = false
                         /\ forall h', usable_host n h' -> ip_lt h' h ->
                                       set_contains addrs h' = true
           | None => forall h, usable_host n h -> set_contains addrs h = true
           end.
Proof.
  eexists _, _. split; [vm_compute; reflexivity|].
  split; [vm_compute; reflexivity|].
  eapply (get_available_ip_first_unused_host "192.168.1.0/30" ["192.168.1.1"]).
  - vm_compute. reflexivity.
  - vm_compute. reflexivity.
Defined.

Lemma first_unused_ext (used1 used2 : list Address) (hs : list Address) :
  (forall h, set_contains used1 h = set_contains used2 h) ->
  first_unused used1 hs = first_unused used2 hs.
Proof.
  intros H. induction hs as [|a hs IH]; simpl; [reflexivity|].
  rewrite H, IH. reflexivity.
Qed.

(** C9, as stated, fails: the entry with leading zeros is rejected by
    [ip_address], so no host is returned, while the canonical entry only
    excludes 10.0.0.1. *)
Lemma leading_zero_entry_differs_from_canonical :
  get_available_ip "10.0.0.0/24" ["010.000.000.001"] = Ok None
  /\ get_available_ip "10.0.0.0/24" ["10.0.0.1"] = Ok (Some "10.0.0.2")
  /\ get_available_ip "10.0.0.0/24" ["010.000.000.001"]
     <> get_available_ip "10.0.0.0/24" ["10.0.0.1"].
Proof.
  split; [vm_compute; reflexivity|]. split; [vm_compute; reflexivity|].
  vm_compute. discriminate.
Qed.

(** C9, amended: used entries are compared by the address they parse to,
    not as strings: two used lists whose entries parse to address lists
    with the same members give the same result for every block.  An IPv4
    entry with leading zeros such as 010.000.000.001 does not parse, and
    the call then returns [None]. *)
Theorem get_available_ip_compares_parsed_addresses
        (s : string) (used1 used2 : list string) (addrs1 addrs2 : list Address)
        (Hused1 : mapM ip_address used1 = Ok addrs1)
        (Hused2 : mapM ip_address used2 = Ok addrs2)
        (Hsame : forall h, set_contains addrs1 h = set_contains addrs2 h) :
  get_available_ip s used1 = get_available_ip s used2
  /\ (forall s', get_available_ip s' ["010.000.000.001"] = Ok None).
Proof.
  split.
  - destruct (ip_network s true) as [n|e] eqn:En.
    + rewrite (get_available_ip_Ok _ _ _ _ En Hused1).
      rewrite (get_available_ip_Ok _ _ _ _ En Hused2).
      f_equal. apply first_unused_ext. assumption.
    + rewrite !(get_available_ip_invalid_block _ _ _ En). reflexivity.
  - intros s'.
    assert (E0 : exists e, mapM ip_address ["010.000.000.001"] = Raise e
                           /\ is_ValueError e = true)
      by (eexists; split; [vm_compute; reflexivity | reflexivity]).
    destruct E0 as (e & E0 & Ev).
    unfold get_available_ip.
    destruct (ip_network s' true) as [n|e1] eqn:En; cbn [bind try_except].
    + rewrite E0. cbn [bind try_except]. rewrite Ev. reflexivity.
    + rewrite (ip_network_Raise_ValueError _ _ _ En). reflexivity.
Qed.

(** Two spellings of the IPv6 address 2001:db8::1 exclude the same host. *)
Lemma get_available_ip_compares_parsed_addresses_witness :
  exists addrs1 addrs2,
    mapM ip_address ["2001:DB8:0:0:0:0:0:1"] = Ok addrs1
    /\ mapM ip_address ["2001:db8::1"] = Ok addrs2
    /\ (forall h, set_contains addrs1 h = set_contains addrs2 h)
    /\ get_available_ip "2001:db8::/126" ["2001:DB8:0:0:0:0:0:1"]
       = get_available_ip "2001:db8::/126" ["2001:db8::1"]
    /\ get_available_ip "2001:db8::/126" ["2001:db8::1"]
       = Ok (Some "2001:db8::2").
Proof.
  eexists _, _. split; [vm_compute; reflexivity|].
  split; [vm_compute; reflexivity|].
  split; [intros h; reflexivity|].
  split; [|vm_compute; reflexivity].
  eapply (get_available_ip_compares_parsed_addresses
            "2001:db8::/126" ["2001:DB8:0:0:0:0:0:1"] ["2001:db8::1"]).
  - vm_compute. reflexivity.
  - vm_compute. reflexivity.
  - intros h. reflexivity.
Defined.

(** ** [subnets] and [generate_subnets] *)

Lemma make_network_tuple (f : family) (a n : Z) :
  0 <= n <= _max_prefixlen f ->
  0 <= a < 2 ^ _max_prefixlen f ->
  a mod 2 ^ (_max_prefixlen f - n) = 0 ->
  make_network f (NTuple a n) true = Ok (network_at f a n).
Proof.
  intros Hn Ha Hm. unfold make_network. simpl.
  rewrite make_address_int by (unfold _ALL_ONES; lia). simpl.
  unfold _make_netmask.
  replace ((0 <=? n) && (n <=? _max_prefixlen f)) with true
    by (symmetry; apply andb_true_iff; lia).
  simpl. rewrite make_address_int by (apply ip_int_from_prefix_range; assumption).
  simpl.
  assert (E : Z.land a (_ip_int_from_prefix f n) = a)
    by (apply aligned_iff; auto).
  rewrite E, Z.eqb_refl. reflexivity.
Qed.

Lemma pow2_split (a b : Z) : 0 <= a -> 0 <= b -> 2 ^ (a + b) = 2 ^ a * 2 ^ b.
Proof. intros. apply Z.pow_add_r; assumption. Qed.

(** The addresses [x + i * 2 ^ k'] with [i < 2 ^ (k - k')] inside an
    aligned block of size [2 ^ k] are aligned to [2 ^ k'] and stay inside
    the block. *)
Lemma sub_block_aligned (W k k' x i : Z) :
  0 <= k' <= k -> k <= W -> 0 <= x -> x mod 2 ^ k = 0 -> x + 2 ^ k <= 2 ^ W ->
  0 <= i < 2 ^ (k - k') ->
  0 <= x + i * 2 ^ k' < 2 ^ W
  /\ (x + i * 2 ^ k') mod 2 ^ k' = 0
  /\ x + i * 2 ^ k' + 2 ^ k' <= x + 2 ^ k.
Proof.
  intros Hk' Hk Hx Hm Hup Hi.
  assert (Hp' : 0 < 2 ^ k') by (apply Z.pow_pos_nonneg; lia).
  assert (Hpk : 0 < 2 ^ k) by (apply Z.pow_pos_nonneg; lia).
  assert (Ek : 2 ^ k = 2 ^ (k - k') * 2 ^ k').
  { rewrite <- pow2_split by lia. f_equal. lia. }
  assert (Hin : i * 2 ^ k' + 2 ^ k' <= 2 ^ k) by (rewrite Ek; nia).
  repeat split; try nia.
  pose proof (Z.div_mod x (2 ^ k) ltac:(lia)) as Ex. rewrite Hm in Ex.
  rewrite Ex, Ek.
  replace (2 ^ (k - k') * 2 ^ k' * (x / (2 ^ (k - k') * 2 ^ k')) + 0 + i * 2 ^ k')
    with ((2 ^ (k - k') * (x / (2 ^ (k - k') * 2 ^ k')) + i) * 2 ^ k') by ring.
  apply Z.mod_mul. lia.
Qed.

(** [subnets] of a block of maximal prefix length is the block itself,
    whatever the new prefix length. *)
Lemma subnets_max_prefixlen (p : Network) (n : Z) :
  _prefixlen p = _max_prefixlen (net_family p) -> subnets p n = Ok [p].
Proof. intros E. unfold subnets. rewrite E, Z.eqb_refl. reflexivity. Qed.

Lemma subnets_Ok (p : Network) (n : Z) :
  wf_network p ->
  _prefixlen p < _max_prefixlen (net_family p) ->
  _prefixlen p <= n <= _max_prefixlen (net_family p) ->
  subnets p n
  = Ok (map (fun i => network_at (net_family p)
                        (_ip (network_address p)
                         + Z.of_nat i * 2 ^ (_max_prefixlen (net_family p) - n)) n)
            (seq 0 (Z.to_nat (2 ^ (n - _prefixlen p))))).
Proof.
  intros Hwf Hlt Hn.
  destruct (wf_network_facts p Hwf) as (Hk & Hx & Hm & Hup & Hh & Hb & Hnum).
  unfold subnets.
  destruct (Z.eqb_spec (_prefixlen p) (_max_prefixlen (net_family p))); [lia|].
  destruct (Z.ltb_spec n (_prefixlen p)); [lia|].
  destruct (Z.ltb_spec (n - _prefixlen p) 0); [lia|].
  destruct (Z.ltb_spec (_max_prefixlen (net_family p))
                       (_prefixlen p + (n - _prefixlen p))); [lia|].
  rewrite Hh, Hb.
  set (W := _max_prefixlen (net_family p)) in *.
  set (x := _ip (network_address p)) in *.
  assert (Estep : Z.shiftr (2 ^ (W - _prefixlen p) - 1 + 1) (n - _prefixlen p)
                  = 2 ^ (W - n)).
  { replace (2 ^ (W - _prefixlen p) - 1 + 1) with (2 ^ (W - _prefixlen p)) by lia.
    rewrite Z.shiftr_div_pow2 by lia.
    replace (W - _prefixlen p) with ((W - n) + (n - _prefixlen p)) by lia.
    rewrite pow2_split by lia. apply Z.div_mul.
    apply Z.pow_nonzero; lia. }
  rewrite Estep.
  assert (Hs : 0 < 2 ^ (W - n)) by (apply Z.pow_pos_nonneg; lia).
  assert (Ecount : (x + 2 ^ (W - _prefixlen p) - 1 + 1 - x + 2 ^ (W - n) - 1)
                   / 2 ^ (W - n) = 2 ^ (n - _prefixlen p)).
  { replace (W - _prefixlen p) with ((n - _prefixlen p) + (W - n)) by lia.
    rewrite pow2_split by lia.
    replace (x + 2 ^ (n - _prefixlen p) * 2 ^ (W - n) - 1 + 1 - x + 2 ^ (W - n) - 1)
      with (2 ^ (n - _prefixlen p) * 2 ^ (W - n) + (2 ^ (W - n) - 1)) by lia.
    rewrite Z.div_add_l by lia. rewrite Z.div_small by lia. lia. }
  unfold Py.range3.
  destruct (Z.eqb_spec (2 ^ (W - n)) 0); [lia|].
  destruct (Z.ltb_spec 0 (2 ^ (W - n))); [|lia].
  rewrite Ecount. simpl.
  rewrite (mapM_total _ (fun a => network_at (net_family p) a (_prefixlen p + (n - _prefixlen p)))).
  - rewrite map_map. f_equal. apply map_ext. intros i.
    replace (_prefixlen p + (n - _prefixlen p)) with n by lia. reflexivity.
  - intros a Ha. apply in_map_iff in Ha. destruct Ha as (i & <- & Hi).
    apply in_seq in Hi.
    replace (_prefixlen p + (n - _prefixlen p)) with n by lia.
    assert (Hpos : 0 < 2 ^ (n - _prefixlen p)) by (apply Z.pow_pos_nonneg; lia).
    destruct (sub_block_aligned W (W - _prefixlen p) (W - n) x (Z.of_nat i))
      as (Hr1 & Hr2 & Hr3); try lia.
    { replace (W - _prefixlen p - (W - n)) with (n - _prefixlen p) by lia. lia. }
    apply make_network_tuple; fold W; try lia.
Qed.

Lemma subnets_Raise (p : Network) (n : Z) :
  _prefixlen p < _max_prefixlen (net_family p) ->
  n < _prefixlen p \/ _max_prefixlen (net_family p) < n ->
  exists m, subnets p n = Raise (Exn ValueError m).
Proof.
  intros Hlt Hn. unfold subnets.
  destruct (Z.eqb_spec (_prefixlen p) (_max_prefixlen (net_family p))); [lia|].
  destruct (Z.ltb_spec n (_prefixlen p)); [eexists; reflexivity|].
  destruct (Z.ltb_spec (n - _prefixlen p) 0); [lia|].
  destruct (Z.ltb_spec (_max_prefixlen (net_family p))
                       (_prefixlen p + (n - _prefixlen p))); [|lia].
  eexists; reflexivity.
Qed.

Lemma wf_network_at (f : family) (a n : Z) :
  0 <= n <= _max_prefixlen f ->
  0 <= a < 2 ^ _max_prefixlen f ->
  a mod 2 ^ (_max_prefixlen f - n) = 0 ->
  wf_network (network_at f a n).
Proof.
  intros Hn Ha Hm. constructor; unfold net_family; simpl; auto.
  apply aligned_iff; auto.
Qed.

(** A list whose elements are related along increasing indices is
    sorted. *)
Lemma sorted_of_nth {A : Type} (R : A -> A -> Prop) (d : A) (l : list A) :
  (forall i j, (i < j < List.length l)%nat -> R (nth i l d) (nth j l d)) ->
  StronglySorted R l.
Proof.
  induction l as [|a l IH]; intros H; constructor.
  - apply IH. intros i j Hij. apply (H (S i) (S j)). simpl. lia.
  - apply Forall_forall. intros y Hy.
    destruct (In_nth l y d Hy) as (j & Hj & <-).
    apply (H 0%nat (S j)). simpl. lia.
Qed.

(** What [subnets] returns for a new prefix length in range: the
    [2 ^ (n - m)] blocks of prefix length [n], the [i]-th at the network
    address of the parent plus [i] times the new block size. *)
Lemma subnets_spec (p : Network) (n : Z) :
  wf_network p ->
  _prefixlen p <= n <= _max_prefixlen (net_family p) ->
  exists all,
    subnets p n = Ok all
    /\ Z.of_nat (List.length all) = 2 ^ (n - _prefixlen p)
    /\ forall i, 0 <= i < 2 ^ (n - _prefixlen p) ->
         let sub := nth (Z.to_nat i) all p in
         net_family sub = net_family p
         /\ _prefixlen sub = n
         /\ _ip (network_address sub)
            = _ip (network_address p)
              + i * 2 ^ (_max_prefixlen (net_family p) - n)
         /\ wf_network sub.
Proof.
  intros Hwf Hn.
  destruct (Z.eq_dec (_prefixlen p) (_max_prefixlen (net_family p))) as [E|E].
  - exists [p]. split; [apply subnets_max_prefixlen; assumption|].
    replace (n - _prefixlen p) with 0 by lia. split; [reflexivity|].
    intros i Hi. change (2 ^ 0) with 1 in Hi. replace i with 0 by lia.
    simpl. split; [reflexivity|]. split; [lia|]. split; [lia|]. assumption.
  - eexists. split; [apply subnets_Ok; auto; lia|].
    assert (Hpos : 0 < 2 ^ (n - _prefixlen p)) by (apply Z.pow_pos_nonneg; lia).
    rewrite length_map, length_seq. split; [lia|].
    intros i Hi. cbv zeta.
    set (g := fun i0 : nat => network_at _ _ n).
    rewrite (nth_indep _ p (g 0%nat)) by (rewrite length_map, length_seq; lia).
    rewrite map_nth, seq_nth by lia.
    subst g. cbv beta. rewrite Nat.add_0_l, Z2Nat.id by lia.
    destruct (wf_network_facts p Hwf) as (Hk & Hx & Hm & Hup & _).
    destruct (sub_block_aligned (_max_prefixlen (net_family p))
                (_max_prefixlen (net_family p) - _prefixlen p)
                (_max_prefixlen (net_family p) - n)
                (_ip (network_address p)) i) as (Hr1 & Hr2 & Hr3); try lia.
    { replace (_max_prefixlen (net_family p) - _prefixlen p
               - (_max_prefixlen (net_family p) - n))
        with (n - _prefixlen p) by lia. lia. }
    split; [reflexivity|]. split; [reflexivity|]. split; [reflexivity|].
    pose proof (wf_prefix p Hwf).
    apply wf_network_at; auto. lia.
Qed.

Lemma generate_subnets_Ok (s : string) (n count : Z) (p : Network)
      (all : list Network) :
  ip_network s true = Ok p -> subnets p n = Ok all ->
  generate_subnets s n count = Ok (map Network_str (Py.slice_to all count)).
Proof.
  intros Hp Hall. unfold generate_subnets. rewrite Hp. simpl. rewrite Hall.
  reflexivity.
Qed.

(** C3: for a valid parent of prefix length [m], a new prefix length [n]
    with [m <= n <= max] and a count [>= 0], [generate_subnets] returns
    the texts of exactly [min count (2 ^ (n - m))] blocks of prefix length
    [n]; the [i]-th block starts [i] block sizes after the network address
    of the parent and ends within the parent, so the blocks are the
    subnets of the parent in strictly ascending order of network address.  The parent 10.0.0.0/16 split at
    /18 with count 5 gives the four /18 blocks. *)
Theorem generate_subnets_ascending_prefix (s : string) (n count : Z)
        (p : Network)
        (Hvalid : ip_network s true = Ok p)
        (Hn : _prefixlen p <= n <= _max_prefixlen (net_family p))
        (Hcount : 0 <= count) :
  (exists nets,
      generate_subnets s n count = Ok (map Network_str nets)
      /\ Z.of_nat (List.length nets) = Z.min count (2 ^ (n - _prefixlen p))
      /\ (forall i, 0 <= i < Z.min count (2 ^ (n - _prefixlen p)) ->
            let sub := nth (Z.to_nat i) nets p in
            net_family sub = net_family p
            /\ _prefixlen sub = n
            /\ _ip (network_address sub)
               = _ip (network_address p)
                 + i * 2 ^ (_max_prefixlen (net_family p) - n)
            /\ _ip (broadcast_address sub) <= _ip (broadcast_address p)
            /\ wf_network sub)
      /\ StronglySorted network_lt nets)
  /\ generate_subnets "10.0.0.0/16" 18 5
     = Ok ["10.0.0.0/18"; "10.0.64.0/18"; "10.0.128.0/18"; "10.0.192.0/18"].
Proof.
  split; [|vm_compute; reflexivity].
  pose proof (ip_network_wf _ _ Hvalid) as Hwf.
  destruct (subnets_spec p n Hwf Hn) as (all & Hall & Hlen & Hnth).
  exists (Py.slice_to all count).
  split; [eapply generate_subnets_Ok; eassumption|].
  unfold Py.slice_to. destruct (Z.leb_spec 0 count); [|lia].
  assert (Hlen' : Z.of_nat (List.length (firstn (Z.to_nat count) all))
                  = Z.min count (2 ^ (n - _prefixlen p))).
  { rewrite length_firstn. lia. }
  assert (Hnth' : forall i, 0 <= i < Z.min count (2 ^ (n - _prefixlen p)) ->
            nth (Z.to_nat i) (firstn (Z.to_nat count) all) p
            = nth (Z.to_nat i) all p).
  { intros i Hi. rewrite nth_firstn.
    destruct (Nat.ltb_spec (Z.to_nat i) (Z.to_nat count)); [reflexivity|lia]. }
  split; [assumption|]. split.
  - intros i Hi. cbv zeta. rewrite Hnth' by assumption.
    destruct (Hnth i ltac:(lia)) as (Hf & Hpl & Hip & Hwfs).
    split; [assumption|]. split; [assumption|]. split; [assumption|].
    split; [|assumption].
    destruct (wf_network_facts _ Hwfs) as (_ & _ & _ & _ & _ & -> & _).
    destruct (wf_network_facts p Hwf) as (Hk & Hx & Hm & Hup & _ & -> & _).
    rewrite Hf, Hpl, Hip.
    pose proof (wf_prefix p Hwf) as Hp.
    destruct (sub_block_aligned (_max_prefixlen (net_family p))
                (_max_prefixlen (net_family p) - _prefixlen p)
                (_max_prefixlen (net_family p) - n)
                (_ip (network_address p)) i) as (_ & _ & Hr3); try lia.
    replace (_max_prefixlen (net_family p) - _prefixlen p
             - (_max_prefixlen (net_family p) - n))
      with (n - _prefixlen p) by lia. lia.
  - apply sorted_of_nth with (d := p). intros i j Hij.
    unfold network_lt.
    replace i with (Z.to_nat (Z.of_nat i)) by lia.
    replace j with (Z.to_nat (Z.of_nat j)) by lia.
    rewrite !Hnth' by lia.
    destruct (Hnth (Z.of_nat i) ltac:(lia)) as (_ & _ & -> & _).
    destruct (Hnth (Z.of_nat j) ltac:(lia)) as (_ & _ & -> & _).
    assert (0 < 2 ^ (_max_prefixlen (net_family p) - n))
      by (apply Z.pow_pos_nonneg; lia).
    nia.
Qed.

Lemma generate_subnets_ascending_prefix_witness :
  exists p,
    ip_network "10.0.0.0/16" true = Ok p
    /\ _prefixlen p <= 18 <= _max_prefixlen (net_family p)
    /\ 0 <= 5
    /\ exists nets,
        generate_subnets "10.0.0.0/16" 18 5 = Ok (map Network_str nets)
        /\ Z.of_nat (List.length nets) = Z.min 5 (2 ^ (18 - _prefixlen p))
        /\ (forall i, 0 <= i < Z.min 5 (2 ^ (18 - _prefixlen p)) ->
              let sub := nth (Z.to_nat i) nets p in
              net_family sub = net_family p
              /\ _prefixlen sub = 18
              /\ _ip (network_address sub)
                 = _ip (network_address p)
                   + i * 2 ^ (_max_prefixlen (net_family p) - 18)
              /\ _ip (broadcast_address sub) <= _ip (broadcast_address p)
              /\ wf_network sub)
        /\ StronglySorted network_lt nets.
Proof.
  eexists. split; [vm_compute; reflexivity|].
  split; [vm_compute; split; discriminate|].
  split; [lia|].
  eapply (generate_subnets_ascending_prefix "10.0.0.0/16" 18 5).
  - vm_compute. reflexivity.
  - vm_compute. split; discriminate.
  - lia.
Defined.

Lemma generate_subnets_invalid_parent (s : string) (n count : Z) (e : exn) :
  ip_network s true = Raise e ->
  generate_subnets s n count
  = Raise (Exn ValueError (Fmt "Error generating subnets: %s" [exn_message e])).
Proof.
  intros H. unfold generate_subnets. rewrite H. simpl.
  rewrite (ip_network_Raise_ValueError _ _ _ H). reflexivity.
Qed.

Lemma generate_subnets_bad_prefix (s : string) (n count : Z) (p : Network)
      (m : message) :
  ip_network s true = Ok p -> subnets p n = Raise (Exn ValueError m) ->
  generate_subnets s n count
  = Raise (Exn ValueError (Fmt "Error generating subnets: %s" [m])).
Proof.
  intros Hp Hs. unfold generate_subnets. rewrite Hp. simpl. rewrite Hs.
  reflexivity.
Qed.

(** C4, as stated, fails: for the valid parent 10.0.0.1/32 the new prefix
    length 24 is shorter than the parent's, and the call returns the
    parent instead of raising. *)
Lemma generate_subnets_max_prefix_parent_accepts_shorter :
  (exists p, ip_network "10.0.0.1/32" true = Ok p /\ 24 < _prefixlen p)
  /\ generate_subnets "10.0.0.1/32" 24 1 = Ok ["10.0.0.1/32"]
  /\ ~ (exists e, generate_subnets "10.0.0.1/32" 24 1 = Raise e).
Proof.
  split.
  { eexists. split.
    - vm_compute. reflexivity.
    - vm_compute. reflexivity. }
  split; [vm_compute; reflexivity|].
  intros [e H]. vm_compute in H. discriminate.
Qed.

(** C4, amended: [generate_subnets] raises exactly when the parent text
    fails to validate, or the parent is valid with a prefix length below
    the address-family maximum and the new prefix length is shorter than
    the parent's or exceeds the maximum (a parent of maximal prefix length
    is returned as its own only subnet whatever the new prefix length).
    What is raised is a [ValueError] whose message starts with
    [Error generating subnets: ] and carries the description of the
    violation; the parent 10.0.0.0/24 with new prefix length 23 raises
    it. *)
Theorem generate_subnets_raises_iff (s : string) (n count : Z) :
  ((exists e, generate_subnets s n count = Raise e)
   <-> (validate_cidr s = Ok false
        \/ exists p, ip_network s true = Ok p
                     /\ _prefixlen p < _max_prefixlen (net_family p)
                     /\ (n < _prefixlen p \/ _max_prefixlen (net_family p) < n)))
  /\ (forall e, generate_subnets s n count = Raise e ->
                exists m, e = Exn ValueError (Fmt "Error generating subnets: %s" [m]))
  /\ generate_subnets "10.0.0.0/24" 23 1
     = Raise (Exn ValueError (Fmt "Error generating subnets: %s"
                                  [Lit "new prefix must be longer"])).
Proof.
  split; [|split; [|vm_compute; reflexivity]].
  - destruct (ip_network s true) as [p|e0] eqn:Ep.
    + pose proof (ip_network_wf _ _ Ep) as Hwf.
      pose proof (wf_prefix p Hwf) as Hp.
      assert (Hv : validate_cidr s <> Ok false).
      { intros Hv. apply validate_cidr_false_iff in Hv. destruct Hv as [e He].
        congruence. }
      destruct (Z_lt_ge_dec (_prefixlen p) (_max_prefixlen (net_family p)))
        as [Hlt|Hge].
      * destruct (Z_lt_ge_dec n (_prefixlen p)) as [Hn1|Hn1];
          [|destruct (Z_lt_ge_dec (_max_prefixlen (net_family p)) n) as [Hn2|Hn2]].
        -- destruct (subnets_Raise p n Hlt (or_introl Hn1)) as [m Hm].
           rewrite (generate_subnets_bad_prefix _ _ _ _ _ Ep Hm).
           split; [intros _; right; exists p; auto | intros _; eauto].
        -- destruct (subnets_Raise p n Hlt (or_intror Hn2)) as [m Hm].
           rewrite (generate_subnets_bad_prefix _ _ _ _ _ Ep Hm).
           split; [intros _; right; exists p; auto | intros _; eauto].
        -- rewrite (generate_subnets_Ok _ _ _ _ _ Ep
                      (subnets_Ok p n Hwf Hlt ltac:(lia))).
           split; [intros [e He]; discriminate|].
           intros [Hv'|(p' & Hp' & _ & Hn')]; [contradiction|].
           assert (p' = p) by congruence. subst p'. lia.
      * rewrite (generate_subnets_Ok _ _ _ _ _ Ep
                   (subnets_max_prefixlen p n ltac:(lia))).
        split; [intros [e He]; discriminate|].
        intros [Hv'|(p' & Hp' & Hlt' & _)]; [contradiction|].
        assert (p' = p) by congruence. subst p'. lia.
    + rewrite (generate_subnets_invalid_parent _ _ _ _ Ep).
      split; [intros _; left; apply validate_cidr_false_iff; eauto
             | intros _; eauto].
  - intros e He. unfold generate_subnets in He.
    destruct (bind _ _) as [l|e0] eqn:Eb; simpl in He; [discriminate|].
    destruct (is_ValueError e0) eqn:Ev.
    + injection He as <-. eauto.
    + exfalso. destruct (ip_network s true) as [p|e1] eqn:Ep; simpl in Eb.
      * destruct (subnets p n) as [all|e2] eqn:Es; simpl in Eb; [discriminate|].
        injection Eb as ->.
        destruct (Z.eq_dec (_prefixlen p) (_max_prefixlen (net_family p)))
          as [E|E].
        -- rewrite subnets_max_prefixlen in Es by assumption. discriminate.
        -- pose proof (ip_network_wf _ _ Ep) as Hwf.
           pose proof (wf_prefix p Hwf) as Hp.
           destruct (Z_lt_ge_dec n (_prefixlen p)) as [Hn1|Hn1];
             [|destruct (Z_lt_ge_dec (_max_prefixlen (net_family p)) n)
                 as [Hn2|Hn2]].
           ++ destruct (subnets_Raise p n ltac:(lia) (or_introl Hn1)) as [m Hm].
              rewrite Hm in Es. injection Es as <-. discriminate.
           ++ destruct (subnets_Raise p n ltac:(lia) (or_intror Hn2)) as [m Hm].
              rewrite Hm in Es. injection Es as <-. discriminate.
           ++ rewrite subnets_Ok in Es by (auto; lia). discriminate.
      * injection Eb as ->.
        rewrite (ip_network_Raise_ValueError _ _ _ Ep) in Ev. discriminate.
Qed.

(** ** Texts that are IPv4 addresses are not IPv6 addresses *)

Lemma split_not_nil (sep : ascii) (s : string) : Py.split sep s <> [].
Proof.
  destruct s as [|c s]; simpl; [discriminate|].
  destruct (Ascii.eqb c sep); [discriminate|].
  destruct (Py.split sep s); discriminate.
Qed.

Lemma contains_false_split (sep : ascii) (s : string) :
  Py.contains sep s = false -> Py.split sep s = [s].
Proof.
  induction s as [|c s IH]; simpl; [reflexivity|].
  intros H. apply orb_false_iff in H. destruct H as [Hc Hs].
  rewrite Hc, (IH Hs). reflexivity.
Qed.

Lemma contains_false_partition (sep : ascii) (s : string) :
  Py.contains sep s = false -> Py.partition sep s = (s, false, EmptyString).
Proof.
  induction s as [|c s IH]; simpl; [reflexivity|].
  intros H. apply orb_false_iff in H. destruct H as [Hc Hs].
  rewrite Hc, (IH Hs). reflexivity.
Qed.

Lemma all_chars_contains_false (P : ascii -> bool) (sep : ascii) (s : string) :
  P sep = false -> Py.all_chars P s = true -> Py.contains sep s = false.
Proof.
  intros Hsep. induction s as [|c s IH]; simpl; [reflexivity|].
  intros H. apply andb_true_iff in H. destruct H as [Hc Hs].
  rewrite (IH Hs), orb_false_r.
  destruct (Ascii.eqb_spec c sep) as [->|]; [congruence | reflexivity].
Qed.

Lemma split_dot_all_chars (s : string) :
  Forall (fun o => Py.all_chars Py.is_digit o = true) (Py.split "." s) ->
  Py.all_chars digit_or_dot s = true.
Proof.
  induction s as [|c s IH]; simpl; [reflexivity|].
  unfold digit_or_dot at 1.
  destruct (Ascii.eqb c ".") eqn:Ec.
  - intros H. inversion H; subst. rewrite orb_true_r. simpl. auto.
  - destruct (Py.split "." s) as [|o os] eqn:Es.
    + exfalso. exact (split_not_nil _ _ Es).
    + intros H. inversion H as [|? ? Ho Hos]; subst. simpl in Ho.
      apply andb_true_iff in Ho. destruct Ho as [Hc Ho].
      rewrite Hc. simpl. apply IH. constructor; assumption.
Qed.

Lemma parse_octet_Ok_digits (o : string) (b : Z) :
  _parse_octet o = Ok b -> Py.all_chars Py.is_digit o = true.
Proof.
  unfold _parse_octet. destruct o as [|c o]; [discriminate|].
  destruct (Py.isascii_isdigit (String c o)) eqn:E; simpl; [|discriminate].
  intros _. exact E.
Qed.

Lemma v4_ip_int_from_string_chars (s : string) (x : Z) :
  v4_ip_int_from_string s = Ok x ->
  s <> EmptyString /\ Py.all_chars digit_or_dot s = true.
Proof.
  unfold v4_ip_int_from_string. destruct s as [|c s]; [discriminate|].
  destruct (negb _); [discriminate|]. intros H. split; [discriminate|].
  apply try_except_Ok in H. destruct H as [H|(e & _ & _ & H)]; [|discriminate].
  apply bind_Ok in H. destruct H as (bs & Hbs & _).
  apply split_dot_all_chars. apply mapM_Ok_Forall2 in Hbs.
  clear -Hbs. induction Hbs as [|o b os bs Ho _ IH]; constructor; auto.
  eapply parse_octet_Ok_digits; eassumption.
Qed.

(** A text that [IPv4Address] accepts is rejected by [IPv6Address]. *)
Lemma IPv4Address_not_IPv6Address (a : string) (x : Address) :
  IPv4Address (AStr a) = Ok x -> exists e, IPv6Address (AStr a) = Raise e.
Proof.
  simpl. destruct (Py.contains "/" a) eqn:Es; [discriminate|]. intros H.
  apply bind_Ok in H. destruct H as (ip & Hip & _).
  apply v4_ip_int_from_string_chars in Hip. destruct Hip as [Hne Hch].
  assert (Hpct : Py.contains "%" a = false)
    by (eapply all_chars_contains_false; [|exact Hch]; reflexivity).
  assert (Hcol : Py.contains ":" a = false)
    by (eapply all_chars_contains_false; [|exact Hch]; reflexivity).
  unfold _split_scope_id. rewrite (contains_false_partition _ _ Hpct). simpl.
  unfold v6_ip_int_from_string. destruct a as [|c a]; [congruence|].
  rewrite (contains_false_split _ _ Hcol). simpl. eexists. reflexivity.
Qed.

(** ** [validate_cidr] and the host bits *)

Lemma land_netmask_range (f : family) (x p : Z) :
  0 <= p <= _max_prefixlen f ->
  0 <= Z.land x (_ip_int_from_prefix f p) <= _ALL_ONES f.
Proof.
  intros Hp. pose proof (ip_int_from_prefix_range f p Hp) as Hr.
  pose proof (max_prefixlen_pos f) as HW.
  split; [apply Z.land_nonneg; right; lia|].
  assert (E : Z.land (Z.land x (_ip_int_from_prefix f p))
                     (Z.ones (_max_prefixlen f))
              = Z.land x (_ip_int_from_prefix f p)).
  { rewrite <- Z.land_assoc. f_equal. rewrite Z.land_ones by lia.
    apply Z.mod_small. unfold _ALL_ONES in Hr. lia. }
  rewrite Z.land_ones in E by lia.
  pose proof (Z.mod_pos_bound (Z.land x (_ip_int_from_prefix f p))
                (2 ^ _max_prefixlen f) ltac:(apply Z.pow_pos_nonneg; lia)).
  unfold _ALL_ONES. lia.
Qed.

Lemma split_addr_prefix_address_text (f : family) (s : string)
      (addr : addr_arg) (m : mask_arg) :
  _split_addr_prefix f (NStr s) = Ok (addr, m) -> addr = AStr (address_text s).
Proof.
  unfold _split_addr_prefix, _split_optional_netmask, address_text.
  destruct (2 <? _); simpl; [discriminate|].
  destruct (Py.split "/" s) as [|a [|b l]]; simpl; intros H;
    injection H as <- _; reflexivity.
Qed.

(** How a network constructor treats a text: it rejects it with an address
    or netmask error in both modes; or the address has no host bits and
    both modes return the same network; or it has host bits, the strict
    mode raises a plain [ValueError] and the other mode masks them off. *)
Lemma make_network_str_cases (f : family) (s : string) :
  (exists e, is_Address_or_Netmask_error e = true
             /\ forall strict, make_network f (NStr s) strict = Raise e)
  \/ (exists na nm p,
         make_address f (AStr (address_text s)) = Ok na
         /\ ((Z.land (_ip na) (_ip nm) = _ip na
              /\ forall strict,
                  make_network f (NStr s) strict = Ok (mkNetwork na nm p))
             \/ (Z.land (_ip na) (_ip nm) <> _ip na
                 /\ (exists m, make_network f (NStr s) true
                               = Raise (Exn ValueError m))
                 /\ make_network f (NStr s) false
                    = Ok (mkNetwork (mkAddress f (Z.land (_ip na) (_ip nm)) None)
                                    nm p)))).
Proof.
  unfold make_network.
  destruct (_split_addr_prefix f (NStr s)) as [[addr m]|e] eqn:Es.
  2:{ left. exists e. split; [|reflexivity].
      pose proof (split_addr_prefix_raises f (NStr s)) as R. rewrite Es in R.
      destruct e as [[] ?]; cbn in *; congruence. }
  rewrite (split_addr_prefix_address_text _ _ _ _ Es). simpl.
  destruct (make_address f (AStr (address_text s))) as [na|e] eqn:Ea.
  2:{ left. exists e. split; [|reflexivity].
      pose proof (make_address_raises f (AStr (address_text s))) as R.
      rewrite Ea in R. destruct e as [[] ?]; cbn in *; congruence. }
  simpl. destruct (_make_netmask f m) as [[nm p]|e] eqn:Em.
  2:{ left. exists e. split; [|reflexivity].
      pose proof (make_netmask_raises f m) as R. rewrite Em in R. exact R. }
  simpl. right. exists na, nm, p. split; [reflexivity|].
  destruct (Z.eqb_spec (Z.land (_ip na) (_ip nm)) (_ip na)) as [E|E]; simpl.
  - left. split; [assumption|]. intros strict. reflexivity.
  - right. split; [assumption|]. split; [eexists; reflexivity|].
    apply make_netmask_Ok in Em. destruct Em as [Hp ->]. simpl.
    rewrite make_address_int by (apply land_netmask_range; assumption).
    reflexivity.
Qed.

(** C2, as stated, fails: 10.0.0.1/16 parses as an address with a prefix
    length in range and normalises to 10.0.0.0/16, but [validate_cidr]
    returns [False] for it. *)
Lemma validate_cidr_rejects_host_bits :
  (exists n, ip_network "10.0.0.1/16" false = Ok n
             /\ Network_str n = "10.0.0.0/16")
  /\ validate_cidr "10.0.0.1/16" = Ok false.
Proof.
  split; [|vm_compute; reflexivity].
  eexists. split.
  - vm_compute. reflexivity.
  - vm_compute. reflexivity.
Qed.

Lemma ip_network_unfold (s : string) (strict : bool) :
  ip_network s strict
  = try_except (make_network V4 (NStr s) strict) is_Address_or_Netmask_error
      (fun _ =>
         try_except (make_network V6 (NStr s) strict) is_Address_or_Netmask_error
           (fun _ =>
              raise ValueError
                    (Fmt "%r does not appear to be an IPv4 or IPv6 network"
                         [Lit s]))).
Proof. reflexivity. Qed.

Lemma ip_address_unfold (a : string) :
  ip_address a
  = try_except (make_address V4 (AStr a)) is_Address_or_Netmask_error
      (fun _ =>
         try_except (make_address V6 (AStr a)) is_Address_or_Netmask_error
           (fun _ =>
              raise ValueError
                    (Fmt "%r does not appear to be an IPv4 or IPv6 address"
                         [Lit a]))).
Proof. reflexivity. Qed.

Lemma make_address_Raise_class (f : family) (a : addr_arg) (e : exn) :
  make_address f a = Raise e -> is_Address_or_Netmask_error e = true.
Proof.
  intros H. pose proof (make_address_raises f a) as R. rewrite H in R.
  destruct e as [[] ?]; cbn in *; congruence.
Qed.

Lemma ip_address_V4 (a : string) (x : Address) :
  make_address V4 (AStr a) = Ok x -> ip_address a = Ok x.
Proof. intros H. rewrite ip_address_unfold, H. reflexivity. Qed.

Lemma ip_address_V6 (a : string) (x : Address) :
  make_address V6 (AStr a) = Ok x -> ip_address a = Ok x.
Proof.
  intros H. rewrite ip_address_unfold.
  destruct (make_address V4 (AStr a)) as [a4|e] eqn:Ea4.
  - destruct (IPv4Address_not_IPv6Address _ _ Ea4) as [e' He'].
    change (IPv6Address (AStr a)) with (make_address V6 (AStr a)) in He'.
    congruence.
  - cbn [try_except]. rewrite (make_address_Raise_class _ _ _ Ea4), H.
    reflexivity.
Qed.

Lemma ip_address_Ok_inv (a : string) (x : Address) :
  ip_address a = Ok x -> make_address (addr_family x) (AStr a) = Ok x.
Proof.
  rewrite ip_address_unfold. intros H.
  destruct (make_address V4 (AStr a)) as [a4|e] eqn:Ea4.
  - cbn [try_except] in H. injection H as <-.
    rewrite (make_address_family _ _ _ Ea4). assumption.
  - cbn [try_except] in H. rewrite (make_address_Raise_class _ _ _ Ea4) in H.
    destruct (make_address V6 (AStr a)) as [a6|e6] eqn:Ea6.
    + cbn [try_except] in H. injection H as <-.
      rewrite (make_address_family _ _ _ Ea6). assumption.
    + cbn [try_except] in H.
      rewrite (make_address_Raise_class _ _ _ Ea6) in H. discriminate.
Qed.

(** C2, amended: [validate_cidr] returns [True] exactly for the texts that
    parse as a network when host bits are tolerated and whose address, as
    written, is already the network address of the result; a text with
    host bits set beyond the prefix is rejected. *)
Theorem validate_cidr_iff_network_address (s : string) :
  validate_cidr s = Ok true
  <-> exists n, ip_network s false = Ok n
                /\ ip_address (address_text s) = Ok (network_address n).
Proof.
  rewrite validate_cidr_true_iff. rewrite !ip_network_unfold.
  destruct (make_network_str_cases V4 s)
    as [(e4 & He4 & H4)
       |(na4 & nm4 & p4 & Ha4 & [(Hal4 & H4)|(Hnal4 & (m4 & H4t) & H4f)])].
  - (* the text is no IPv4 network *)
    rewrite !H4. cbn [try_except]. rewrite He4.
    destruct (make_network_str_cases V6 s)
      as [(e6 & He6 & H6)
         |(na6 & nm6 & p6 & Ha6 & [(Hal6 & H6)|(Hnal6 & (m6 & H6t) & H6f)])].
    + rewrite !H6. cbn [try_except]. rewrite He6.
      split; [intros [n Hn]; discriminate | intros (n & Hn & _); discriminate].
    + rewrite !H6. cbn [try_except]. split; [|eauto].
      intros [n Hn]. injection Hn as <-. eexists. split; [reflexivity|].
      cbn [network_address]. apply ip_address_V6. assumption.
    + rewrite H6t, H6f. cbn [try_except].
      change (is_Address_or_Netmask_error (Exn ValueError m6)) with false.
      cbv iota.
      split; [intros [n Hn]; discriminate|].
      intros (n & Hn & Ha). injection Hn as <-. cbn [network_address] in Ha.
      apply ip_address_Ok_inv in Ha. cbn [addr_family] in Ha.
      rewrite Ha6 in Ha. injection Ha as Ha. apply (f_equal _ip) in Ha.
      cbn [_ip] in Ha. congruence.
  - rewrite !H4. cbn [try_except]. split; [|eauto].
    intros [n Hn]. injection Hn as <-. eexists. split; [reflexivity|].
    cbn [network_address]. apply ip_address_V4. assumption.
  - rewrite H4t, H4f. cbn [try_except].
    change (is_Address_or_Netmask_error (Exn ValueError m4)) with false.
    cbv iota.
    split; [intros [n Hn]; discriminate|].
    intros (n & Hn & Ha). injection Hn as <-. cbn [network_address] in Ha.
    apply ip_address_Ok_inv in Ha. cbn [addr_family] in Ha.
    rewrite Ha4 in Ha. injection Ha as Ha. apply (f_equal _ip) in Ha.
    cbn [_ip] in Ha. congruence.
Qed.

(** * Further properties of the IPAM functions *)

(** ** [validate_cidr] never raises *)

(** X1: [validate_cidr] returns a boolean for every string and never
    raises: [True] with a network whose prefix length is in range and
    whose address has no host bits, [False] exactly when [ip_network]
    raises. *)
Theorem validate_cidr_total (s : string) :
  (validate_cidr s = Ok true /\ exists n, ip_network s true = Ok n /\ wf_network n)
  \/ (validate_cidr s = Ok false /\ exists e, ip_network s true = Raise e).
Proof.
  destruct (ip_network s true) as [n|e] eqn:E.
  - left. split; [apply validate_cidr_true_iff; eauto|].
    exists n. split; [reflexivity|]. eapply ip_network_wf; eassumption.
  - right. split; [apply validate_cidr_false_iff|]; eauto.
Qed.

(** ** Containment *)

Lemma option_string_eqb_refl (a : option string) : option_string_eqb a a = true.
Proof. destruct a; simpl; [apply String.eqb_refl | reflexivity]. Qed.

Lemma option_string_eqb_eq (a b : option string) :
  option_string_eqb a b = true <-> a = b.
Proof.
  destruct a, b; simpl; try (split; [discriminate | congruence]);
    [|split; reflexivity].
  rewrite String.eqb_eq. split; congruence.
Qed.

Lemma family_eqb_eq (f g : family) : family_eqb f g = true <-> f = g.
Proof. destruct f, g; simpl; split; congruence. Qed.

Lemma Address_eq_refl (a : Address) : Address_eq a a = true.
Proof.
  unfold Address_eq. rewrite Z.eqb_refl.
  destruct (addr_family a); simpl; [reflexivity|].
  apply option_string_eqb_refl.
Qed.

(** On addresses of one family [__eq__] compares the integers and, for
    IPv6, the scope ids. *)
Lemma Address_eq_same_family (a b : Address) :
  addr_family a = addr_family b ->
  Address_eq a b
  = (_ip a =? _ip b)
    && match addr_family a with
       | V4 => true
       | V6 => option_string_eqb (_scope_id a) (_scope_id b)
       end.
Proof.
  intros Hf. unfold Address_eq. rewrite <- Hf.
  replace (family_eqb (addr_family a) (addr_family a)) with true
    by (symmetry; apply family_eqb_eq; reflexivity).
  rewrite andb_true_r. destruct (addr_family a); [rewrite andb_true_r; reflexivity|].
  destruct (_ip a =? _ip b); reflexivity.
Qed.

(** [is_subnet_of] on two valid blocks of one IP version, as a boolean
    over the integers of their first and last addresses. *)
Lemma is_subnet_of_same_family (parent child : string) (np nc : Network) :
  ip_network parent true = Ok np -> ip_network child true = Ok nc ->
  net_family np = net_family nc ->
  is_subnet_of parent child
  = Ok (((_ip (network_address np) <? _ip (network_address nc))
         || Address_eq (network_address np) (network_address nc))
        && negb (_ip (broadcast_address np) <? _ip (broadcast_address nc))).
Proof.
  intros Hp Hc Hf. unfold is_subnet_of. rewrite Hp, Hc. cbn [bind].
  unfold subnet_of, _is_subnet_of, version. rewrite Hf, Z.eqb_refl.
  cbn [negb]. unfold Address_le, Address_ge, Address_lt.
  fold (net_family np). fold (net_family nc).
  cbn [broadcast_address _address_class addr_family].
  replace (family_eqb (net_family np) (net_family nc)) with true
    by (symmetry; apply family_eqb_eq; assumption).
  cbn [negb].
  assert (L : forall x y : Z,
             (if negb (x =? y) then Ok (A:=bool) (x <? y) else Ok false)
             = Ok (x <? y)).
  { intros x y. destruct (Z.eqb_spec x y); simpl; [|reflexivity].
    subst. rewrite Z.ltb_irrefl. reflexivity. }
  rewrite L. cbn [bind try_except].
  destruct ((_ip (network_address np) <? _ip (network_address nc))
            || Address_eq (network_address np) (network_address nc)).
  - cbn [_ip]. rewrite L. reflexivity.
  - reflexivity.
Qed.

(** What a [True] answer of [is_subnet_of] presupposes. *)
Lemma is_subnet_of_true_inv (parent child : string) :
  is_subnet_of parent child = Ok true ->
  exists np nc,
    ip_network parent true = Ok np /\ ip_network child true = Ok nc
    /\ net_family np = net_family nc.
Proof.
  unfold is_subnet_of. intros H.
  destruct (ip_network parent true) as [np|e] eqn:Ep.
  2:{ cbn [bind try_except] in H.
      rewrite (ip_network_Raise_ValueError _ _ _ Ep) in H. discriminate. }
  destruct (ip_network child true) as [nc|e] eqn:Ec.
  2:{ cbn [bind try_except] in H.
      rewrite (ip_network_Raise_ValueError _ _ _ Ec) in H. discriminate. }
  exists np, nc. split; [reflexivity|]. split; [reflexivity|].
  cbn [bind] in H. unfold subnet_of, _is_subnet_of, version in H.
  destruct (net_family np), (net_family nc); try reflexivity;
    cbn in H; discriminate.
Qed.

(** X2: [is_subnet_of] answers [False], without raising, as soon as one
    of the two texts fails to validate. *)
Theorem is_subnet_of_invalid_text (parent child : string)
        (Hinvalid : validate_cidr parent = Ok false
                    \/ validate_cidr child = Ok false) :
  is_subnet_of parent child = Ok false.
Proof.
  unfold is_subnet_of.
  destruct (ip_network parent true) as [np|e] eqn:Ep.
  - destruct Hinvalid as [H|H]; apply validate_cidr_false_iff in H;
      destruct H as [e H]; [congruence|].
    rewrite H. cbn [bind try_except].
    rewrite (ip_network_Raise_ValueError _ _ _ H). reflexivity.
  - cbn [bind try_except].
    rewrite (ip_network_Raise_ValueError _ _ _ Ep). reflexivity.
Qed.

Lemma is_subnet_of_invalid_text_witness :
  (validate_cidr "10.0.0.0/16" = Ok false
   \/ validate_cidr "10.0.1.7/24" = Ok false)
  /\ is_subnet_of "10.0.0.0/16" "10.0.1.7/24" = Ok false.
Proof.
  assert (H : validate_cidr "10.0.0.0/16" = Ok false
              \/ validate_cidr "10.0.1.7/24" = Ok false)
    by (right; vm_compute; reflexivity).
  split; [exact H|].
  exact (is_subnet_of_invalid_text "10.0.0.0/16" "10.0.1.7/24" H).
Defined.

(** X3: every valid block is a subnet of itself. *)
Theorem is_subnet_of_reflexive (s : string)
        (Hvalid : validate_cidr s = Ok true) :
  is_subnet_of s s = Ok true.
Proof.
  apply validate_cidr_true_iff in Hvalid. destruct Hvalid as [n Hn].
  rewrite (is_subnet_of_same_family s s n n Hn Hn eq_refl).
  rewrite Address_eq_refl, !Z.ltb_irrefl. reflexivity.
Qed.

Lemma is_subnet_of_reflexive_witness :
  validate_cidr "fe80::%eth0/64" = Ok true
  /\ is_subnet_of "fe80::%eth0/64" "fe80::%eth0/64" = Ok true.
Proof.
  assert (H : validate_cidr "fe80::%eth0/64" = Ok true)
    by (vm_compute; reflexivity).
  split; [exact H|]. exact (is_subnet_of_reflexive "fe80::%eth0/64" H).
Defined.

Lemma Ok_inj {A : Type} (x y : A) : Ok x = Ok y -> x = y.
Proof. intros H. injection H as H. exact H. Qed.

Lemma Address_eq_trans (a b c : Address) :
  addr_family a = addr_family b -> addr_family b = addr_family c ->
  Address_eq a b = true -> Address_eq b c = true -> Address_eq a c = true.
Proof.
  intros Hab Hbc.
  rewrite (Address_eq_same_family a b Hab), (Address_eq_same_family b c Hbc).
  rewrite (Address_eq_same_family a c) by congruence.
  rewrite <- Hab. rewrite !andb_true_iff, !Z.eqb_eq.
  intros [E1 S1] [E2 S2]. split; [congruence|].
  destruct (addr_family a); [reflexivity|].
  apply option_string_eqb_eq in S1, S2. apply option_string_eqb_eq. congruence.
Qed.

(** X4: containment composes: if [b] is a subnet of [a] and [c] is a
    subnet of [b], then [c] is a subnet of [a]. *)
Theorem is_subnet_of_transitive (a b c : string)
        (Hab : is_subnet_of a b = Ok true)
        (Hbc : is_subnet_of b c = Ok true) :
  is_subnet_of a c = Ok true.
Proof.
  destruct (is_subnet_of_true_inv _ _ Hab) as (na & nb & Ha & Hb & Hfab).
  destruct (is_subnet_of_true_inv _ _ Hbc) as (nb' & nc & Hb' & Hc & Hfbc).
  assert (nb' = nb) by congruence. subst nb'.
  rewrite (is_subnet_of_same_family _ _ _ _ Ha Hb Hfab) in Hab.
  rewrite (is_subnet_of_same_family _ _ _ _ Hb Hc Hfbc) in Hbc.
  rewrite (is_subnet_of_same_family _ _ _ _ Ha Hc) by congruence.
  apply Ok_inj in Hab. apply Ok_inj in Hbc. f_equal.
  apply andb_true_iff in Hab, Hbc. destruct Hab as [L1 G1], Hbc as [L2 G2].
  apply negb_true_iff in G1. apply Z.ltb_ge in G1.
  apply negb_true_iff in G2. apply Z.ltb_ge in G2.
  apply andb_true_iff. split; [|apply negb_true_iff; apply Z.ltb_ge; lia].
  apply orb_true_iff in L1, L2. apply orb_true_iff.
  assert (Eip : forall x y, Address_eq x y = true -> _ip x = _ip y).
  { intros x y H. unfold Address_eq in H.
    destruct (Z.eqb_spec (_ip x) (_ip y)); [assumption|].
    destruct (addr_family x); simpl in H; discriminate. }
  destruct L1 as [L1|L1], L2 as [L2|L2].
  - left. apply Z.ltb_lt in L1, L2. apply Z.ltb_lt. lia.
  - left. apply Z.ltb_lt in L1. apply Eip in L2. apply Z.ltb_lt. lia.
  - left. apply Z.ltb_lt in L2. apply Eip in L1. apply Z.ltb_lt. lia.
  - right. eapply Address_eq_trans; eauto.
Qed.

Lemma is_subnet_of_transitive_witness :
  is_subnet_of "10.0.0.0/8" "10.1.0.0/16" = Ok true
  /\ is_subnet_of "10.1.0.0/16" "10.1.2.0/24" = Ok true
  /\ is_subnet_of "10.0.0.0/8" "10.1.2.0/24" = Ok true.
Proof.
  assert (H1 : is_subnet_of "10.0.0.0/8" "10.1.0.0/16" = Ok true)
    by (vm_compute; reflexivity).
  assert (H2 : is_subnet_of "10.1.0.0/16" "10.1.2.0/24" = Ok true)
    by (vm_compute; reflexivity).
  split; [exact H1|]. split; [exact H2|].
  exact (is_subnet_of_transitive _ _ _ H1 H2).
Defined.

(** X5: for two valid blocks of one IP version a [True] answer means that
    the child's address range lies within the parent's and that the
    child's prefix is at least as long; conversely a child range within
    the parent's gives [True] for IPv4 blocks, and for IPv6 blocks whose
    network addresses carry the same scope id. *)
Theorem is_subnet_of_range (parent child : string) (np nc : Network)
        (Hparent : ip_network parent true = Ok np)
        (Hchild : ip_network child true = Ok nc)
        (Hfamily : net_family np = net_family nc) :
  (is_subnet_of parent child = Ok true ->
   _ip (network_address np) <= _ip (network_address nc)
   /\ _ip (broadcast_address nc) <= _ip (broadcast_address np)
   /\ _prefixlen np <= _prefixlen nc)
  /\ (_ip (network_address np) <= _ip (network_address nc) ->
      _ip (broadcast_address nc) <= _ip (broadcast_address np) ->
      net_family np = V4
      \/ _scope_id (network_address np) = _scope_id (network_address nc) ->
      is_subnet_of parent child = Ok true).
Proof.
  rewrite (is_subnet_of_same_family _ _ _ _ Hparent Hchild Hfamily).
  pose proof (ip_network_wf _ _ Hparent) as Wp.
  pose proof (ip_network_wf _ _ Hchild) as Wc.
  assert (Fp : addr_family (network_address np) = addr_family (network_address nc))
    by exact Hfamily.
  rewrite (Address_eq_same_family _ _ Fp).
  split.
  - intros H. apply Ok_inj in H. apply andb_true_iff in H. destruct H as [L G].
    apply negb_true_iff in G. apply Z.ltb_ge in G.
    assert (Hle : _ip (network_address np) <= _ip (network_address nc)).
    { apply orb_true_iff in L. destruct L as [L|L].
      - apply Z.ltb_lt in L. lia.
      - apply andb_true_iff in L. destruct L as [L _].
        apply Z.eqb_eq in L. lia. }
    split; [assumption|]. split; [assumption|].
    destruct (wf_network_facts np Wp) as (Hkp & _ & _ & _ & _ & Hbp & _).
    destruct (wf_network_facts nc Wc) as (Hkc & _ & _ & _ & _ & Hbc & _).
    rewrite Hbp, Hbc in G. rewrite <- Hfamily in Hbc, Hkc, G.
    assert (Hpow : 2 ^ (_max_prefixlen (net_family np) - _prefixlen nc)
                   <= 2 ^ (_max_prefixlen (net_family np) - _prefixlen np))
      by lia.
    apply Z.pow_le_mono_r_iff in Hpow; lia.
  - intros Hle Hb Hs. f_equal. apply andb_true_iff.
    split; [|apply negb_true_iff; apply Z.ltb_ge; assumption].
    destruct (Z.eq_dec (_ip (network_address np)) (_ip (network_address nc)))
      as [E|E].
    + apply orb_true_iff. right. rewrite E, Z.eqb_refl. cbn [andb].
      fold (net_family np). destruct Hs as [-> | Hs]; [reflexivity|].
      destruct (net_family np); [reflexivity|].
      apply option_string_eqb_eq. assumption.
    + apply orb_true_iff. left. apply Z.ltb_lt. lia.
Qed.

Lemma is_subnet_of_range_witness :
  exists np nc,
    ip_network "10.0.0.0/16" true = Ok np
    /\ ip_network "10.0.1.0/24" true = Ok nc
    /\ net_family np = net_family nc
    /\ (is_subnet_of "10.0.0.0/16" "10.0.1.0/24" = Ok true ->
        _ip (network_address np) <= _ip (network_address nc)
        /\ _ip (broadcast_address nc) <= _ip (broadcast_address np)
        /\ _prefixlen np <= _prefixlen nc)
    /\ is_subnet_of "10.0.0.0/16" "10.0.1.0/24" = Ok true.
Proof.
  eexists _, _.
  split; [vm_compute; reflexivity|]. split; [vm_compute; reflexivity|].
  split; [reflexivity|].
  split; [|vm_compute; reflexivity].
  eapply (is_subnet_of_range "10.0.0.0/16" "10.0.1.0/24").
  - vm_compute. reflexivity.
  - vm_compute. reflexivity.
  - reflexivity.
Defined.

(** ** More on [generate_subnets] *)

Lemma generate_subnets_slice (s : string) (n count : Z) (p : Network) :
  ip_network s true = Ok p ->
  _prefixlen p <= n <= _max_prefixlen (net_family p) ->
  exists all,
    generate_subnets s n count = Ok (map Network_str (Py.slice_to all count))
    /\ Z.of_nat (List.length all) = 2 ^ (n - _prefixlen p)
    /\ forall i, 0 <= i < 2 ^ (n - _prefixlen p) ->
         let sub := nth (Z.to_nat i) all p in
         net_family sub = net_family p
         /\ _prefixlen sub = n
         /\ _ip (network_address sub)
            = _ip (network_address p)
              + i * 2 ^ (_max_prefixlen (net_family p) - n)
         /\ wf_network sub.
Proof.
  intros Hp Hn. pose proof (ip_network_wf _ _ Hp) as Hwf.
  destruct (subnets_spec p n Hwf Hn) as (all & Hall & Hlen & Hnth).
  exists all. split; [eapply generate_subnets_Ok; eassumption|]. auto.
Qed.

(** X6: the blocks that [generate_subnets] returns tile the parent from
    its network address on: the first block starts at the network address
    of the parent, each next block starts right after the last address of
    the one before (so the blocks are pairwise disjoint), and when the
    count asks for all of them the last block ends at the last address of
    the parent. *)
Theorem generate_subnets_tiles_parent (s : string) (n count : Z) (p : Network)
        (Hvalid : ip_network s true = Ok p)
        (Hn : _prefixlen p <= n <= _max_prefixlen (net_family p))
        (Hcount : 0 < count) :
  exists nets,
    generate_subnets s n count = Ok (map Network_str nets)
    /\ _ip (network_address (nth 0 nets p)) = _ip (network_address p)
    /\ (forall i, 0 <= i -> i + 1 < Z.min count (2 ^ (n - _prefixlen p)) ->
          _ip (network_address (nth (Z.to_nat (i + 1)) nets p))
          = _ip (broadcast_address (nth (Z.to_nat i) nets p)) + 1)
    /\ (2 ^ (n - _prefixlen p) <= count ->
        _ip (broadcast_address (nth (Z.to_nat (2 ^ (n - _prefixlen p) - 1)) nets p))
        = _ip (broadcast_address p)).
Proof.
  destruct (generate_subnets_slice s n count p Hvalid Hn)
    as (all & Hgen & Hlen & Hnth).
  pose proof (ip_network_wf _ _ Hvalid) as Hwf.
  pose proof (wf_prefix p Hwf) as Hp.
  assert (Hpos : 0 < 2 ^ (n - _prefixlen p)) by (apply Z.pow_pos_nonneg; lia).
  exists (Py.slice_to all count). split; [assumption|].
  unfold Py.slice_to. destruct (Z.leb_spec 0 count); [|lia].
  assert (Hnth' : forall i, 0 <= i < Z.min count (2 ^ (n - _prefixlen p)) ->
            nth (Z.to_nat i) (firstn (Z.to_nat count) all) p
            = nth (Z.to_nat i) all p).
  { intros i Hi. rewrite nth_firstn.
    destruct (Nat.ltb_spec (Z.to_nat i) (Z.to_nat count)); [reflexivity|lia]. }
  assert (Hbc : forall i, 0 <= i < 2 ^ (n - _prefixlen p) ->
            _ip (broadcast_address (nth (Z.to_nat i) all p))
            = _ip (network_address p)
              + (i + 1) * 2 ^ (_max_prefixlen (net_family p) - n) - 1).
  { intros i Hi. destruct (Hnth i Hi) as (Hf & Hpl & Hip & Hwfs).
    destruct (wf_network_facts _ Hwfs) as (_ & _ & _ & _ & _ & -> & _).
    rewrite Hf, Hpl, Hip. lia. }
  split; [|split].
  - pose proof (Hnth' 0 ltac:(lia)) as H0.
    destruct (Hnth 0 ltac:(lia)) as (_ & _ & Hip0 & _).
    change (Z.to_nat 0) with 0%nat in H0, Hip0. rewrite H0, Hip0. lia.
  - intros i Hi0 Hi. rewrite !Hnth' by lia. rewrite Hbc by lia.
    destruct (Hnth (i + 1) ltac:(lia)) as (_ & _ & -> & _). lia.
  - intros Hall. rewrite Hnth' by lia. rewrite Hbc by lia.
    destruct (wf_network_facts p Hwf) as (_ & _ & _ & _ & _ & -> & _).
    replace (_max_prefixlen (net_family p) - _prefixlen p)
      with ((n - _prefixlen p) + (_max_prefixlen (net_family p) - n)) by lia.
    rewrite pow2_split by lia. lia.
Qed.

Lemma generate_subnets_tiles_parent_witness :
  exists p nets,
    ip_network "10.0.0.0/16" true = Ok p
    /\ _prefixlen p <= 18 <= _max_prefixlen (net_family p)
    /\ 0 < 5
    /\ generate_subnets "10.0.0.0/16" 18 5 = Ok (map Network_str nets)
    /\ _ip (network_address (nth 0 nets p)) = _ip (network_address p)
    /\ (forall i, 0 <= i -> i + 1 < Z.min 5 (2 ^ (18 - _prefixlen p)) ->
          _ip (network_address (nth (Z.to_nat (i + 1)) nets p))
          = _ip (broadcast_address (nth (Z.to_nat i) nets p)) + 1)
    /\ (2 ^ (18 - _prefixlen p) <= 5 ->
        _ip (broadcast_address
               (nth (Z.to_nat (2 ^ (18 - _prefixlen p) - 1)) nets p))
        = _ip (broadcast_address p)).
Proof.
  assert (Hp : ip_network "10.0.0.0/16" true
               = Ok (network_at V4 167772160 16))
    by (vm_compute; reflexivity).
  assert (Hn : _prefixlen (network_at V4 167772160 16) <= 18
               <= _max_prefixlen (net_family (network_at V4 167772160 16)))
    by (vm_compute; split; discriminate).
  assert (Hc : 0 < 5) by lia.
  destruct (generate_subnets_tiles_parent "10.0.0.0/16" 18 5 _ Hp Hn Hc)
    as (nets & H1 & H2 & H3 & H4).
  exists (network_at V4 167772160 16), nets. auto 10.
Defined.

(** X7: a negative count is not rejected: as the slice [subnets[:count]]
    it drops that many blocks from the end, so the call returns
    [max 0 (2 ^ (n - m) + count)] blocks, the first ones in ascending
    order. *)
Theorem generate_subnets_negative_count (s : string) (n count : Z) (p : Network)
        (Hvalid : ip_network s true = Ok p)
        (Hn : _prefixlen p <= n <= _max_prefixlen (net_family p))
        (Hcount : count < 0) :
  exists nets,
    generate_subnets s n count = Ok (map Network_str nets)
    /\ Z.of_nat (List.length nets) = Z.max 0 (2 ^ (n - _prefixlen p) + count)
    /\ forall i, 0 <= i < 2 ^ (n - _prefixlen p) + count ->
         let sub := nth (Z.to_nat i) nets p in
         _prefixlen sub = n
         /\ _ip (network_address sub)
            = _ip (network_address p)
              + i * 2 ^ (_max_prefixlen (net_family p) - n).
Proof.
  destruct (generate_subnets_slice s n count p Hvalid Hn)
    as (all & Hgen & Hlen & Hnth).
  exists (Py.slice_to all count). split; [assumption|].
  unfold Py.slice_to. destruct (Z.leb_spec 0 count); [lia|].
  split.
  - rewrite length_firstn. lia.
  - intros i Hi. cbv zeta. rewrite nth_firstn.
    destruct (Nat.ltb_spec (Z.to_nat i) (List.length all - Z.to_nat (- count)));
      [|lia].
    destruct (Hnth i ltac:(lia)) as (_ & Hpl & Hip & _). auto.
Qed.

Lemma generate_subnets_negative_count_witness :
  exists p nets,
    ip_network "10.0.0.0/16" true = Ok p
    /\ _prefixlen p <= 18 <= _max_prefixlen (net_family p)
    /\ -1 < 0
    /\ generate_subnets "10.0.0.0/16" 18 (-1) = Ok (map Network_str nets)
    /\ Z.of_nat (List.length nets) = Z.max 0 (2 ^ (18 - _prefixlen p) + -1)
    /\ generate_subnets "10.0.0.0/16" 18 (-1)
       = Ok ["10.0.0.0/18"; "10.0.64.0/18"; "10.0.128.0/18"].
Proof.
  assert (Hp : ip_network "10.0.0.0/16" true
               = Ok (network_at V4 167772160 16))
    by (vm_compute; reflexivity).
  assert (Hn : _prefixlen (network_at V4 167772160 16) <= 18
               <= _max_prefixlen (net_family (network_at V4 167772160 16)))
    by (vm_compute; split; discriminate).
  assert (Hc : -1 < 0) by lia.
  destruct (generate_subnets_negative_count "10.0.0.0/16" 18 (-1) _ Hp Hn Hc)
    as (nets & H1 & H2 & _).
  exists (network_at V4 167772160 16), nets.
  split; [exact Hp|]. split; [exact Hn|]. split; [exact Hc|].
  split; [exact H1|]. split; [exact H2|]. vm_compute. reflexivity.
Defined.

(** ** More on [calculate_network_info] *)

(** X8: for a valid block of prefix length [p] in a family of [W] address
    bits, the dictionary reports [2 ^ (W - p)] addresses, the netmask
    [2 ^ W - 2 ^ (W - p)], the hostmask [2 ^ (W - p) - 1], and as broadcast
    address the network address plus the hostmask. *)
Theorem calculate_network_info_fields (s : string) (n : Network)
        (Hvalid : ip_network s true = Ok n) :
  let f := net_family n in
  let k := _max_prefixlen f - _prefixlen n in
  exists d,
    calculate_network_info s = Ok d
    /\ dict_get d "network_address" = Some (VStr (Address_str (network_address n)))
    /\ dict_get d "prefixlen" = Some (VInt (_prefixlen n))
    /\ 0 <= _prefixlen n <= _max_prefixlen f
    /\ dict_get d "num_addresses" = Some (VInt (2 ^ k))
    /\ dict_get d "netmask"
       = Some (VStr (Address_str (_address_class f (2 ^ _max_prefixlen f - 2 ^ k))))
    /\ dict_get d "hostmask"
       = Some (VStr (Address_str (_address_class f (2 ^ k - 1))))
    /\ dict_get d "broadcast_address"
       = Some (VStr (Address_str
                       (_address_class f (_ip (network_address n) + 2 ^ k - 1)))).
Proof.
  intros f k. pose proof (ip_network_wf _ _ Hvalid) as Hwf.
  destruct (wf_network_facts n Hwf) as (Hk & Hx & Hm & Hup & Hh & Hb & Hnum).
  pose proof (wf_prefix n Hwf) as Hp. pose proof (wf_netmask n Hwf) as Hnm.
  fold f in Hk, Hm, Hup, Hh, Hb, Hnum, Hp, Hnm. fold k in Hk, Hm, Hup, Hh, Hb, Hnum.
  eexists. split; [apply (calculate_network_info_Ok _ _ Hvalid)|].
  cbn [dict_get String.eqb Ascii.eqb Bool.eqb]. unfold prefixlen.
  rewrite Hnum.
  split; [reflexivity|]. split; [reflexivity|]. split; [assumption|].
  split; [reflexivity|]. split; [|split].
  - rewrite Hnm. rewrite ip_int_from_prefix_eq by assumption. reflexivity.
  - do 3 f_equal. unfold hostmask in *. fold f in Hh |- *.
    unfold _address_class in *. cbn [_ip] in Hh. rewrite Hh. reflexivity.
  - do 3 f_equal. unfold broadcast_address in *. fold f in Hb |- *.
    unfold _address_class in *. cbn [_ip] in Hb. rewrite Hb. reflexivity.
Qed.

Lemma calculate_network_info_fields_witness :
  exists d,
    calculate_network_info "2001:db8::/32" = Ok d
    /\ dict_get d "num_addresses" = Some (VInt (2 ^ 96))
    /\ dict_get d "hostmask" = Some (VStr "::ffff:ffff:ffff:ffff:ffff:ffff").
Proof.
  assert (Hp : ip_network "2001:db8::/32" true
               = Ok (network_at V6 (Z.shiftl 536939960 96) 32))
    by (vm_compute; reflexivity).
  destruct (calculate_network_info_fields _ _ Hp)
    as (d & Hd & _ & _ & _ & Hnum & _ & Hh & _).
  exists d. split; [exact Hd|]. split; [exact Hnum|].
  rewrite Hh. vm_compute. reflexivity.
Defined.

(** X9: for a valid block whose prefix length is at least two below the
    maximum, the first usable host reported is the address after the
    network address; the last one is the address before the broadcast
    address for IPv4 and the last address of the block itself for
    IPv6. *)
Theorem first_last_usable_ordinary_block (s : string) (n : Network)
        (Hvalid : ip_network s true = Ok n)
        (Hprefix : _prefixlen n <= _max_prefixlen (net_family n) - 2) :
  exists d,
    calculate_network_info s = Ok d
    /\ dict_get d "first_usable"
       = Some (VStr (Address_str
                       (_address_class (net_family n)
                                       (_ip (network_address n) + 1))))
    /\ dict_get d "last_usable"
       = Some (VStr (Address_str
                       (_address_class (net_family n)
                          (match net_family n with
                           | V4 => _ip (broadcast_address n) - 1
                           | V6 => _ip (broadcast_address n)
                           end)))).
Proof.
  pose proof (ip_network_wf _ _ Hvalid) as Hwf.
  destruct (hosts_first_last n Hwf) as (h & hs & Eh & Hc).
  eexists. split; [apply (calculate_network_info_Ok _ _ Hvalid)|].
  rewrite Eh. cbn [dict_get String.eqb Ascii.eqb Bool.eqb].
  destruct (Z.eqb_spec (_prefixlen n) (_max_prefixlen (net_family n))); [lia|].
  destruct (Z.eqb_spec (_prefixlen n) (_max_prefixlen (net_family n) - 1)); [lia|].
  destruct Hc as [-> ->]. split; reflexivity.
Qed.

Lemma first_last_usable_ordinary_block_witness :
  exists d,
    calculate_network_info "2001:db8::/126" = Ok d
    /\ dict_get d "first_usable" = Some (VStr "2001:db8::1")
    /\ dict_get d "last_usable" = Some (VStr "2001:db8::3").
Proof.
  assert (Hp : ip_network "2001:db8::/126" true
               = Ok (network_at V6 (Z.shiftl 536939960 96) 126))
    by (vm_compute; reflexivity).
  assert (Hl : _prefixlen (network_at V6 (Z.shiftl 536939960 96) 126)
               <= _max_prefixlen (net_family (network_at V6 (Z.shiftl 536939960 96) 126)) - 2)
    by (vm_compute; discriminate).
  destruct (first_last_usable_ordinary_block _ _ Hp Hl) as (d & Hd & Hf & Hla).
  exists d. split; [exact Hd|].
  split; [rewrite Hf | rewrite Hla]; vm_compute; reflexivity.
Defined.

(** X10: the number of hosts that a valid block offers to
    [get_available_ip] and to the first/last fields: 1 for the maximal
    prefix length, 2 for one below it, otherwise the number of addresses
    minus 2 for IPv4 and minus 1 for IPv6. *)
Theorem hosts_count (s : string) (n : Network)
        (Hvalid : ip_network s true = Ok n) :
  let f := net_family n in
  Z.of_nat (List.length (hosts n))
  = if _prefixlen n =? _max_prefixlen f then 1
    else if _prefixlen n =? _max_prefixlen f - 1 then 2
         else match f with
              | V4 => 2 ^ (32 - _prefixlen n) - 2
              | V6 => 2 ^ (128 - _prefixlen n) - 1
              end.
Proof.
  cbv zeta. pose proof (ip_network_wf _ _ Hvalid) as Hwf.
  rewrite hosts_eq by assumption.
  pose proof (wf_prefix n Hwf) as Hp.
  destruct (Z.eqb_spec (_prefixlen n) (_max_prefixlen (net_family n)));
    [reflexivity|].
  destruct (Z.eqb_spec (_prefixlen n) (_max_prefixlen (net_family n) - 1)).
  - rewrite length_map, range_length. lia.
  - pose proof (pow2_ge_4 (_max_prefixlen (net_family n) - _prefixlen n)
                  ltac:(lia)) as H4.
    destruct (net_family n); rewrite length_map, range_length;
      cbn [_max_prefixlen] in *; lia.
Qed.

Lemma hosts_count_witness :
  exists n,
    ip_network "192.168.1.0/30" true = Ok n
    /\ Z.of_nat (List.length (hosts n)) = 2.
Proof.
  assert (Hp : ip_network "192.168.1.0/30" true
               = Ok (network_at V4 3232235776 30))
    by (vm_compute; reflexivity).
  exists (network_at V4 3232235776 30). split; [exact Hp|].
  rewrite (hosts_count _ _ Hp). vm_compute. reflexivity.
Defined.


(** ** Texts of IPv4 addresses and blocks read back as what they print *)

Lemma octet_texts_checked :
  forallb (fun b => match _parse_octet (Py.str b) with
                    | Ok b' => (b' =? b)
                               && negb (Py.contains "." (Py.str b))
                               && negb (Py.contains "/" (Py.str b))
                    | Raise _ => false
                    end) (Py.range 0 256) = true.
Proof. vm_compute. reflexivity. Qed.

(** The decimal text of a byte is an octet that parses back to it. *)
Lemma octet_text (b : Z) :
  0 <= b <= 255 ->
  _parse_octet (Py.str b) = Ok b
  /\ Py.contains "." (Py.str b) = false
  /\ Py.contains "/" (Py.str b) = false.
Proof.
  intros Hb. pose proof octet_texts_checked as H.
  rewrite forallb_forall in H. specialize (H b ltac:(apply range_In; lia)).
  destruct (_parse_octet (Py.str b)) as [b'|e]; [|discriminate].
  apply andb_true_iff in H. destruct H as [H H3].
  apply andb_true_iff in H. destruct H as [H1 H2].
  apply Z.eqb_eq in H1. apply negb_true_iff in H2, H3. subst. auto.
Qed.

Lemma prefix_texts_checked (f : family) :
  forallb (fun p => match _prefix_from_prefix_string f (Py.str p) with
                    | Ok p' => (p' =? p) && negb (Py.contains "/" (Py.str p))
                    | Raise _ => false
                    end) (Py.range 0 (_max_prefixlen f + 1)) = true.
Proof. destruct f; vm_compute; reflexivity. Qed.

(** The decimal text of a prefix length in range parses back to it. *)
Lemma prefix_text (f : family) (p : Z) :
  0 <= p <= _max_prefixlen f ->
  _prefix_from_prefix_string f (Py.str p) = Ok p
  /\ Py.contains "/" (Py.str p) = false.
Proof.
  intros Hp. pose proof (prefix_texts_checked f) as H.
  rewrite forallb_forall in H. specialize (H p ltac:(apply range_In; lia)).
  destruct (_prefix_from_prefix_string f (Py.str p)) as [p'|e]; [|discriminate].
  apply andb_true_iff in H. destruct H as [H1 H2].
  apply Z.eqb_eq in H1. apply negb_true_iff in H2. subst. auto.
Qed.

Lemma contains_append (c : ascii) (s t : string) :
  Py.contains c (append s t) = Py.contains c s || Py.contains c t.
Proof.
  induction s as [|d s IH]; simpl; [reflexivity|].
  rewrite IH. apply orb_assoc.
Qed.

(** Splitting at a separator that the first piece does not contain. *)
Lemma split_append_sep (sep : ascii) (s t : string) :
  Py.contains sep s = false ->
  Py.split sep (append s (String sep t)) = s :: Py.split sep t.
Proof.
  induction s as [|c s IH]; simpl; intros H.
  - rewrite Ascii.eqb_refl. reflexivity.
  - apply orb_false_iff in H. destruct H as [Hc Hs].
    rewrite Hc, (IH Hs). reflexivity.
Qed.

Lemma from_bytes_to_bytes4 (x : Z) :
  0 <= x < 2 ^ 32 -> from_bytes_big (to_bytes4_big x) = x.
Proof.
  intros Hx. unfold from_bytes_big, to_bytes4_big. cbn [fold_left].
  change 255 with (Z.ones 8). rewrite !Z.land_ones, !Z.shiftr_div_pow2 by lia.
  change (2 ^ 32) with 4294967296 in Hx.
  change (2 ^ 24) with 16777216. change (2 ^ 16) with 65536.
  change (2 ^ 8) with 256.
  Z.div_mod_to_equations. lia.
Qed.

Lemma land_255_range (a : Z) : 0 <= Z.land a 255 <= 255.
Proof.
  change (Z.land a 255) with (Z.land a (Z.ones 8)).
  rewrite Z.land_ones by lia.
  pose proof (Z.mod_pos_bound a (2 ^ 8) ltac:(lia)).
  change (2 ^ 8) with 256 in *. lia.
Qed.

(** The dotted text of a 32-bit integer reads back as that integer. *)
Lemma v4_string_roundtrip (x : Z) :
  0 <= x < 2 ^ 32 ->
  v4_ip_int_from_string (v4_string_from_ip_int x) = Ok x
  /\ Py.contains "/" (v4_string_from_ip_int x) = false.
Proof.
  intros Hx. pose proof (from_bytes_to_bytes4 x Hx) as Hfb.
  unfold v4_string_from_ip_int. unfold to_bytes4_big in *.
  set (b0 := Z.land (Z.shiftr x 24) 255) in *.
  set (b1 := Z.land (Z.shiftr x 16) 255) in *.
  set (b2 := Z.land (Z.shiftr x 8) 255) in *.
  set (b3 := Z.land x 255) in *.
  destruct (octet_text b0 (land_255_range _)) as (P0 & D0 & S0).
  destruct (octet_text b1 (land_255_range _)) as (P1 & D1 & S1).
  destruct (octet_text b2 (land_255_range _)) as (P2 & D2 & S2).
  destruct (octet_text b3 (land_255_range _)) as (P3 & D3 & S3).
  cbn [map Py.join].
  change (append "." ?t) with (String "."%char t).
  split.
  - unfold v4_ip_int_from_string.
    assert (Hsplit : Py.split "."
                       (append (Py.str b0) (String "." (append (Py.str b1)
                          (String "." (append (Py.str b2)
                             (String "." (Py.str b3)))))))
                     = [Py.str b0; Py.str b1; Py.str b2; Py.str b3]).
    { rewrite !split_append_sep by assumption.
      rewrite (contains_false_split _ _ D3). reflexivity. }
    destruct (append (Py.str b0) _) as [|c rest] eqn:Es.
    { exfalso. destruct (Py.str b0); [|discriminate].
      vm_compute in P0. discriminate. }
    cbv beta iota zeta. rewrite Hsplit.
    change (negb (Z.of_nat (List.length [Py.str b0; Py.str b1; Py.str b2; Py.str b3])
                  =? 4)) with false.
    cbv iota. cbn [mapM].
    rewrite P0, P1, P2, P3. cbn [bind try_except]. rewrite Hfb. reflexivity.
  - repeat (rewrite contains_append; cbn [Py.contains]).
    rewrite S0, S1, S2, S3. reflexivity.
Qed.

(** X12: the text of an IPv4 address reads back as the same address:
    printing and [ip_address] are inverse on the 32-bit integers. *)
Theorem ip_address_of_IPv4_text (x : Z) (Hx : 0 <= x < 2 ^ 32) :
  ip_address (Address_str (_address_class V4 x)) = Ok (_address_class V4 x).
Proof.
  destruct (v4_string_roundtrip x Hx) as [Hparse Hslash].
  apply ip_address_V4. unfold Address_str, _address_class.
  cbn [addr_family _ip make_address IPv4Address].
  rewrite Hslash, Hparse. reflexivity.
Qed.

Lemma ip_address_of_IPv4_text_witness :
  0 <= 3232235777 < 2 ^ 32
  /\ Address_str (_address_class V4 3232235777) = "192.168.1.1"
  /\ ip_address (Address_str (_address_class V4 3232235777))
     = Ok (_address_class V4 3232235777).
Proof.
  assert (Hx : 0 <= 3232235777 < 2 ^ 32) by (split; [discriminate | reflexivity]).
  split; [exact Hx|]. split; [vm_compute; reflexivity|].
  exact (ip_address_of_IPv4_text 3232235777 Hx).
Defined.

(** The canonical text of an aligned IPv4 block reads back as the block. *)
Lemma ip_network_of_IPv4_text (x p : Z) :
  0 <= p <= 32 -> 0 <= x < 2 ^ 32 -> x mod 2 ^ (32 - p) = 0 ->
  ip_network (Network_str (network_at V4 x p)) true = Ok (network_at V4 x p).
Proof.
  intros Hp Hx Hm.
  destruct (v4_string_roundtrip x Hx) as [Hparse Hslash].
  destruct (prefix_text V4 p Hp) as [Hpre Hpslash].
  rewrite ip_network_unfold.
  assert (E : make_network V4 (NStr (Network_str (network_at V4 x p))) true
              = Ok (network_at V4 x p)).
  { unfold make_network, Network_str, network_at.
    cbn [network_address _prefixlen Address_str addr_family _ip].
    unfold _split_addr_prefix, _split_optional_netmask.
    change (append "/" (Py.str p)) with (String "/"%char (Py.str p)).
    rewrite (split_append_sep _ _ _ Hslash).
    rewrite (contains_false_split _ _ Hpslash).
    cbn [List.length Z.of_nat Pos.of_succ_nat Pos.succ Z.ltb Z.compare
         Pos.compare Pos.compare_cont bind make_address IPv4Address].
    rewrite Hslash, Hparse. cbn [bind].
    unfold _make_netmask. rewrite Hpre. cbn [try_except bind].
    rewrite make_address_int by (apply ip_int_from_prefix_range; assumption).
    cbn [bind _ip].
    assert (A : Z.land x (_ip_int_from_prefix V4 p) = x)
      by (apply aligned_iff; auto).
    rewrite A, Z.eqb_refl. reflexivity. }
  rewrite E. reflexivity.
Qed.

Lemma v4_ip_int_from_string_Ok_address (a : string) (x : Address) :
  make_address V4 (AStr a) = Ok x -> x = _address_class V4 (_ip x).
Proof.
  cbn [make_address IPv4Address]. destruct (Py.contains "/" a); [discriminate|].
  intros H. apply bind_Ok in H. destruct H as (ip & _ & H).
  injection H as <-. reflexivity.
Qed.

(** A valid IPv4 block is the object built from the integer of its
    network address and its prefix length. *)
Lemma ip_network_IPv4_shape (s : string) (n : Network) :
  ip_network s true = Ok n -> net_family n = V4 ->
  n = network_at V4 (_ip (network_address n)) (_prefixlen n).
Proof.
  intros Hn Hf. pose proof (ip_network_wf _ _ Hn) as Hwf.
  pose proof (wf_netmask n Hwf) as Hnm. rewrite Hf in Hnm.
  assert (Hna : network_address n = _address_class V4 (_ip (network_address n))).
  { destruct (make_network_str_cases V4 s)
      as [(e4 & He4 & H4)
         |(na4 & nm4 & p4 & Ha4 & [(Hal4 & H4)|(Hnal4 & (m4 & H4t) & H4f)])];
      rewrite ip_network_unfold in Hn.
    - rewrite H4 in Hn. cbn [try_except] in Hn. rewrite He4 in Hn.
      apply try_except_Ok in Hn. destruct Hn as [Hn|(e & _ & _ & Hn)];
        [|discriminate].
      apply make_network_strict_wf in Hn. destruct Hn as [_ Hn]. congruence.
    - rewrite H4 in Hn. cbn [try_except] in Hn. injection Hn as <-.
      cbn [network_address].
      apply (v4_ip_int_from_string_Ok_address _ _ Ha4).
    - rewrite H4t in Hn. cbn [try_except] in Hn.
      change (is_Address_or_Netmask_error (Exn ValueError m4)) with false in Hn.
      discriminate. }
  destruct n as [na nm p]. cbn [network_address netmask _prefixlen] in *.
  unfold network_at. rewrite Hnm. rewrite Hna at 1. reflexivity.
Qed.

(** X13: the canonical text [address/prefixlen] of a valid IPv4 block
    reads back as the same block, so it validates, whatever accepted
    spelling (netmask form, hostmask form, bare address) the block was
    given in. *)
Theorem ip_network_canonical_text_IPv4 (s : string) (n : Network)
        (Hvalid : ip_network s true = Ok n)
        (Hv4 : net_family n = V4) :
  ip_network (Network_str n) true = Ok n
  /\ validate_cidr (Network_str n) = Ok true.
Proof.
  pose proof (ip_network_wf _ _ Hvalid) as Hwf.
  pose proof (wf_prefix n Hwf) as Hp. rewrite Hv4 in Hp. cbn in Hp.
  destruct (wf_network_facts n Hwf) as (_ & Hx & Hm & Hup & _).
  rewrite Hv4 in Hm, Hup. cbn [_max_prefixlen] in Hm, Hup.
  assert (Hpos : 0 < 2 ^ (32 - _prefixlen n)) by (apply Z.pow_pos_nonneg; lia).
  assert (E : ip_network (Network_str n) true = Ok n).
  { rewrite (ip_network_IPv4_shape _ _ Hvalid Hv4).
    apply ip_network_of_IPv4_text; cbn [network_at network_address _prefixlen _ip];
      lia. }
  split; [exact E|]. apply validate_cidr_true_iff. eauto.
Qed.

Lemma ip_network_canonical_text_IPv4_witness :
  exists n,
    ip_network "10.0.0.0/0.0.255.255" true = Ok n
    /\ net_family n = V4
    /\ Network_str n = "10.0.0.0/16"
    /\ ip_network (Network_str n) true = Ok n
    /\ validate_cidr (Network_str n) = Ok true.
Proof.
  assert (Hp : ip_network "10.0.0.0/0.0.255.255" true
               = Ok (network_at V4 167772160 16))
    by (vm_compute; reflexivity).
  assert (Hf : net_family (network_at V4 167772160 16) = V4) by reflexivity.
  exists (network_at V4 167772160 16).
  split; [exact Hp|]. split; [exact Hf|]. split; [vm_compute; reflexivity|].
  exact (ip_network_canonical_text_IPv4 _ _ Hp Hf).
Defined.

(** ** The subnets of an IPv4 block validate and lie in the parent *)

Lemma In_firstn {A : Type} (k : nat) (l : list A) (x : A) :
  In x (firstn k l) -> In x l.
Proof.
  intros H. rewrite <- (firstn_skipn k l). apply in_or_app. left. assumption.
Qed.

Lemma In_slice_to {A : Type} (l : list A) (count : Z) (x : A) :
  In x (Py.slice_to l count) -> In x l.
Proof. unfold Py.slice_to. destruct (0 <=? count); apply In_firstn. Qed.

(** Each network that [subnets] returns is the parent itself or an object
    built from a pair of integers. *)
Lemma subnets_shape (p : Network) (n : Z) (all : list Network) :
  wf_network p ->
  _prefixlen p <= n <= _max_prefixlen (net_family p) ->
  subnets p n = Ok all ->
  forall sub, In sub all ->
    sub = p \/ sub = network_at (net_family p) (_ip (network_address sub)) n.
Proof.
  intros Hwf Hn Hall sub Hin.
  destruct (Z.eq_dec (_prefixlen p) (_max_prefixlen (net_family p))) as [E|E].
  - rewrite subnets_max_prefixlen in Hall by assumption.
    injection Hall as <-. destruct Hin as [<-|[]]. left. reflexivity.
  - rewrite subnets_Ok in Hall by (auto; lia). injection Hall as <-.
    apply in_map_iff in Hin. destruct Hin as (i & <- & _). right. reflexivity.
Qed.

Lemma ip_network_of_wf_IPv4 (n : Network) :
  wf_network n -> net_family n = V4 ->
  n = network_at V4 (_ip (network_address n)) (_prefixlen n) ->
  ip_network (Network_str n) true = Ok n.
Proof.
  intros Hwf Hv4 Hshape.
  pose proof (wf_prefix n Hwf) as Hp. rewrite Hv4 in Hp. cbn in Hp.
  destruct (wf_network_facts n Hwf) as (_ & Hx & Hm & Hup & _).
  rewrite Hv4 in Hm, Hup. cbn [_max_prefixlen] in Hm, Hup.
  assert (Hpos : 0 < 2 ^ (32 - _prefixlen n)) by (apply Z.pow_pos_nonneg; lia).
  rewrite Hshape. apply ip_network_of_IPv4_text;
    cbn [network_at network_address _prefixlen _ip]; lia.
Qed.

(** X14: every text that [generate_subnets] returns for a valid IPv4
    parent and a new prefix length in range validates, and [is_subnet_of]
    accepts it as a subnet of the parent, for every count (negative ones
    included). *)
Theorem generate_subnets_results_valid_IPv4 (s : string) (n count : Z)
        (p : Network)
        (Hvalid : ip_network s true = Ok p)
        (Hv4 : net_family p = V4)
        (Hn : _prefixlen p <= n <= 32) :
  exists texts,
    generate_subnets s n count = Ok texts
    /\ forall t, In t texts ->
         validate_cidr t = Ok true /\ is_subnet_of s t = Ok true.
Proof.
  pose proof (ip_network_wf _ _ Hvalid) as Hwf.
  assert (Hn' : _prefixlen p <= n <= _max_prefixlen (net_family p))
    by (rewrite Hv4; exact Hn).
  destruct (subnets_spec p n Hwf Hn') as (all & Hall & Hlen & Hnth).
  exists (map Network_str (Py.slice_to all count)).
  split; [eapply generate_subnets_Ok; eassumption|].
  intros t Ht. apply in_map_iff in Ht. destruct Ht as (sub & <- & Hin).
  apply In_slice_to in Hin.
  pose proof (subnets_shape p n all Hwf Hn' Hall sub Hin) as Hshape.
  destruct (In_nth all sub p Hin) as (j & Hj & Ej).
  destruct (Hnth (Z.of_nat j) ltac:(lia)) as (Hf & Hpl & Hip & Hwfs).
  cbv zeta in Hf, Hpl, Hip, Hwfs.
  rewrite Nat2Z.id, Ej in Hf, Hpl, Hip, Hwfs.
  assert (Hparse : ip_network (Network_str sub) true = Ok sub).
  { apply ip_network_of_wf_IPv4; [assumption | congruence |].
    destruct Hshape as [->| Hs].
    - apply (ip_network_IPv4_shape _ _ Hvalid Hv4).
    - rewrite Hv4 in Hs. rewrite Hpl. exact Hs. }
  split; [apply validate_cidr_true_iff; eauto|].
  rewrite (is_subnet_of_same_family _ _ _ _ Hvalid Hparse) by congruence.
  f_equal. apply andb_true_iff.
  pose proof (wf_prefix p Hwf) as Hp.
  destruct (wf_network_facts p Hwf) as (Hk & Hx & Hm & Hup & _ & Hbp & _).
  destruct (wf_network_facts sub Hwfs) as (_ & _ & _ & _ & _ & Hbs & _).
  rewrite Hf, Hpl in Hbs.
  assert (Hpos : 0 < 2 ^ (n - _prefixlen p)) by (apply Z.pow_pos_nonneg; lia).
  destruct (sub_block_aligned (_max_prefixlen (net_family p))
              (_max_prefixlen (net_family p) - _prefixlen p)
              (_max_prefixlen (net_family p) - n)
              (_ip (network_address p)) (Z.of_nat j)) as (Hr1 & Hr2 & Hr3);
    try lia.
  { replace (_max_prefixlen (net_family p) - _prefixlen p
             - (_max_prefixlen (net_family p) - n))
      with (n - _prefixlen p) by lia. lia. }
  assert (Hs0 : 0 < 2 ^ (_max_prefixlen (net_family p) - n))
    by (apply Z.pow_pos_nonneg; lia).
  split.
  - rewrite Address_eq_same_family by (unfold net_family in Hf; congruence).
    fold (net_family p). rewrite Hv4, andb_true_r.
    destruct (Z.ltb_spec (_ip (network_address p)) (_ip (network_address sub)));
      [reflexivity|].
    cbn [orb]. apply Z.eqb_eq. nia.
  - apply negb_true_iff. apply Z.ltb_ge. rewrite Hbp, Hbs, Hip. lia.
Qed.

Lemma generate_subnets_results_valid_IPv4_witness :
  exists texts,
    generate_subnets "10.0.0.0/16" 18 2 = Ok texts
    /\ texts = ["10.0.0.0/18"; "10.0.64.0/18"]
    /\ forall t, In t texts ->
         validate_cidr t = Ok true /\ is_subnet_of "10.0.0.0/16" t = Ok true.
Proof.
  assert (Hp : ip_network "10.0.0.0/16" true
               = Ok (network_at V4 167772160 16))
    by (vm_compute; reflexivity).
  assert (Hf : net_family (network_at V4 167772160 16) = V4) by reflexivity.
  assert (Hn : _prefixlen (network_at V4 167772160 16) <= 18 <= 32)
    by (split; discriminate).
  destruct (generate_subnets_results_valid_IPv4 "10.0.0.0/16" 18 2 _ Hp Hf Hn)
    as (texts & Hgen & Hall).
  exists texts. split; [exact Hgen|]. split; [|exact Hall].
  assert (E : generate_subnets "10.0.0.0/16" 18 2
              = Ok ["10.0.0.0/18"; "10.0.64.0/18"]) by (vm_compute; reflexivity).
  rewrite E in Hgen. injection Hgen as <-. reflexivity.
Defined.

(** ** Addresses handed out by [get_available_ip] on IPv4 blocks *)

(** Every host of a valid IPv4 block is an IPv4 address object without
    scope id whose integer lies within the block. *)
Lemma hosts_IPv4_shape (s : string) (n : Network) (h : Address) :
  ip_network s true = Ok n -> net_family n = V4 -> In h (hosts n) ->
  h = _address_class V4 (_ip h)
  /\ _ip (network_address n) <= _ip h <= _ip (broadcast_address n)
  /\ 0 <= _ip h < 2 ^ 32.
Proof.
  intros Hn Hv4 Hin. pose proof (ip_network_wf _ _ Hn) as Hwf.
  apply hosts_usable in Hin; [|assumption]. unfold usable_host in Hin.
  destruct (wf_network_facts n Hwf) as (Hk & Hx & Hm & Hup & _ & Hb & _).
  pose proof (wf_prefix n Hwf) as Hp.
  rewrite Hv4 in Hin, Hk, Hup, Hb, Hp. cbn [_max_prefixlen] in *.
  assert (Hpos : 0 < 2 ^ (32 - _prefixlen n)) by (apply Z.pow_pos_nonneg; lia).
  destruct (Z.eqb_spec (_prefixlen n) 32) as [E|E].
  - subst h. split; [|lia].
    pose proof (ip_network_IPv4_shape _ _ Hn Hv4) as Hs.
    rewrite Hs at 1. reflexivity.
  - destruct Hin as (Hf & Hsc & Hr).
    split.
    + destruct h as [hf hip hsc]. cbn in *. subst. reflexivity.
    + destruct (_prefixlen n =? 32 - 1); lia.
Qed.

Lemma get_available_ip_Some_inv (s : string) (used : list string) (x : string) :
  get_available_ip s used = Ok (Some x) ->
  exists n addrs,
    ip_network s true = Ok n /\ mapM ip_address used = Ok addrs
    /\ first_unused addrs (hosts n) = Some x.
Proof.
  unfold get_available_ip. intros H.
  destruct (ip_network s true) as [n|e] eqn:En.
  2:{ cbn [bind try_except] in H.
      rewrite (ip_network_Raise_ValueError _ _ _ En) in H. discriminate. }
  cbn [bind] in H.
  destruct (mapM ip_address used) as [addrs|e] eqn:Eu.
  2:{ cbn [bind try_except] in H.
      pose proof (mapM_ip_address_raises used) as R. rewrite Eu in R.
      cbn in R. rewrite R in H. discriminate. }
  cbn [bind try_except] in H. apply Ok_inj in H. eauto.
Qed.

(** X15: on a valid IPv4 block, the text that [get_available_ip] returns
    is an address that [ip_address] reads back, it lies within the block,
    and once it is added to the used list the same text is not returned
    again. *)
Theorem get_available_ip_not_reissued_IPv4 (s : string) (used : list string)
        (x : string) (n : Network)
        (Hvalid : ip_network s true = Ok n)
        (Hv4 : net_family n = V4)
        (Hgot : get_available_ip s used = Ok (Some x)) :
  (exists h, ip_address x = Ok h
             /\ _ip (network_address n) <= _ip h <= _ip (broadcast_address n))
  /\ get_available_ip s (x :: used) <> Ok (Some x).
Proof.
  destruct (get_available_ip_Some_inv _ _ _ Hgot) as (n' & addrs & Hn' & Hu & Hf).
  assert (n' = n) by congruence. subst n'.
  pose proof (ip_network_wf _ _ Hvalid) as Hwf.
  pose proof (first_unused_spec addrs (hosts n) (hosts_sorted n Hwf)) as S.
  rewrite Hf in S. destruct S as (h & -> & Hin & Hfree & _).
  destruct (hosts_IPv4_shape _ _ _ Hvalid Hv4 Hin) as (Hsh & Hr & Hr32).
  assert (Hback : ip_address (Address_str h) = Ok h).
  { rewrite Hsh at 1 2. unfold Address_str at 1.
    apply (ip_address_V4 _ _).
    destruct (v4_string_roundtrip _ Hr32) as [Hparse Hslash].
    cbn [_address_class addr_family _ip make_address IPv4Address].
    rewrite Hslash, Hparse. reflexivity. }
  split; [eauto|].
  rewrite (get_available_ip_Ok _ (Address_str h :: used) n (h :: addrs) Hvalid).
  2:{ cbn [mapM]. rewrite Hback, Hu. reflexivity. }
  intros Hagain. apply Ok_inj in Hagain.
  pose proof (first_unused_spec (h :: addrs) (hosts n) (hosts_sorted n Hwf)) as S.
  rewrite Hagain in S. destruct S as (h' & Heq & Hin' & Hfree' & _).
  destruct (hosts_IPv4_shape _ _ _ Hvalid Hv4 Hin') as (Hsh' & _ & Hr32').
  assert (Hback' : ip_address (Address_str h') = Ok h').
  { rewrite Hsh' at 1 2. unfold Address_str at 1.
    apply (ip_address_V4 _ _).
    destruct (v4_string_roundtrip _ Hr32') as [Hparse Hslash].
    cbn [_address_class addr_family _ip make_address IPv4Address].
    rewrite Hslash, Hparse. reflexivity. }
  rewrite <- Heq, Hback in Hback'. injection Hback' as <-.
  cbn [set_contains existsb] in Hfree'.
  rewrite Address_eq_refl in Hfree'. discriminate.
Qed.

Lemma get_available_ip_not_reissued_IPv4_witness :
  exists n,
    ip_network "192.168.1.0/30" true = Ok n
    /\ net_family n = V4
    /\ get_available_ip "192.168.1.0/30" [] = Ok (Some "192.168.1.1")
    /\ get_available_ip "192.168.1.0/30" ["192.168.1.1"]
       <> Ok (Some "192.168.1.1").
Proof.
  assert (Hp : ip_network "192.168.1.0/30" true
               = Ok (network_at V4 3232235776 30))
    by (vm_compute; reflexivity).
  assert (Hf : net_family (network_at V4 3232235776 30) = V4) by reflexivity.
  assert (Hg : get_available_ip "192.168.1.0/30" [] = Ok (Some "192.168.1.1"))
    by (vm_compute; reflexivity).
  exists (network_at V4 3232235776 30).
  split; [exact Hp|]. split; [exact Hf|]. split; [exact Hg|].
  exact (proj2 (get_available_ip_not_reissued_IPv4 _ _ _ _ Hp Hf Hg)).
Defined.

(** ** Parsed addresses are within the range of their family *)

Lemma is_digit_value (c : ascii) :
  Py.is_digit c = true -> 0 <= Py.digit_value c <= 9.
Proof.
  unfold Py.is_digit, Py.digit_value. intros H. rewrite H.
  apply andb_true_iff in H. lia.
Qed.

Lemma is_hex_digit_value (c : ascii) :
  Py.is_hex_digit c = true -> 0 <= Py.digit_value c <= 15.
Proof.
  unfold Py.is_hex_digit, Py.digit_value. intros H.
  destruct ((48 <=? Z.of_nat (nat_of_ascii c)) && (Z.of_nat (nat_of_ascii c) <=? 57))
    eqn:E1.
  - apply andb_true_iff in E1. lia.
  - destruct ((65 <=? Z.of_nat (nat_of_ascii c))
              && (Z.of_nat (nat_of_ascii c) <=? 70)) eqn:E2.
    + apply andb_true_iff in E2. lia.
    + cbn [orb] in H. apply andb_true_iff in H. lia.
Qed.

(** The value of a digit string is below [base ^ length]. *)
Lemma int_digits_bound (base : Z) (P : ascii -> bool) (s : string) (acc : Z) :
  0 < base ->
  (forall c, P c = true -> 0 <= Py.digit_value c <= base - 1) ->
  Py.all_chars P s = true -> 0 <= acc ->
  0 <= Py.int_digits base acc s < (acc + 1) * base ^ Py.len s.
Proof.
  intros Hb HP. revert acc. unfold Py.len.
  induction s as [|c s IH]; intros acc Hs Hacc; cbn [Py.int_digits String.length].
  - change (Z.of_nat 0) with 0. rewrite Z.pow_0_r. lia.
  - cbn [Py.all_chars] in Hs. apply andb_true_iff in Hs. destruct Hs as [Hc Hs].
    specialize (HP c Hc).
    specialize (IH (acc * base + Py.digit_value c) Hs ltac:(nia)).
    rewrite Nat2Z.inj_succ, Z.pow_succ_r by lia.
    assert (0 < base ^ Z.of_nat (String.length s))
      by (apply Z.pow_pos_nonneg; lia).
    split; [lia|].
    apply Z.lt_le_trans with (1 := proj2 IH). nia.
Qed.

Lemma parse_octet_range (s : string) (b : Z) :
  _parse_octet s = Ok b -> 0 <= b <= 255.
Proof.
  unfold _parse_octet. destruct s as [|c s]; [discriminate|].
  destruct (Py.isascii_isdigit (String c s)) eqn:Ed; [|discriminate].
  cbn [negb]. destruct (3 <? _); [discriminate|].
  destruct (_ && _); [discriminate|].
  cbn [Py.int bind].
  destruct (Z.ltb_spec 255 (Py.int_digits 10 0 (String c s))) as [Hgt|Hle];
    [discriminate|].
  intros Hres. injection Hres as <-.
  pose proof (int_digits_bound 10 Py.is_digit (String c s) 0 ltac:(lia)
                is_digit_value Ed ltac:(lia)).
  change (0 <= Py.int_digits 10 0 (String c s) <= 255). lia.
Qed.

Lemma v4_ip_int_from_string_range (s : string) (x : Z) :
  v4_ip_int_from_string s = Ok x -> 0 <= x < 2 ^ 32.
Proof.
  unfold v4_ip_int_from_string. destruct s as [|c s]; [discriminate|].
  destruct (Z.eqb_spec (Z.of_nat (List.length (Py.split "." (String c s)))) 4)
    as [E|E]; [|discriminate].
  cbn [negb]. intros H.
  apply try_except_Ok in H. destruct H as [H|(e & _ & _ & H)]; [|discriminate].
  apply bind_Ok in H. destruct H as (bs & Hbs & H). injection H as <-.
  pose proof (mapM_Ok_length _ _ _ Hbs) as Hlen.
  apply mapM_Ok_Forall2 in Hbs.
  assert (Hr : Forall (fun b => 0 <= b <= 255) bs).
  { clear -Hbs. induction Hbs as [|o b os bs Ho _ IH]; constructor; auto.
    eapply parse_octet_range; eassumption. }
  destruct bs as [|b0 [|b1 [|b2 [|b3 [|b4 bs]]]]]; cbn [List.length] in Hlen;
    try lia.
  inversion Hr as [|? ? H0 Hr1]; subst. inversion Hr1 as [|? ? H1 Hr2]; subst.
  inversion Hr2 as [|? ? H2 Hr3]; subst. inversion Hr3 as [|? ? H3 _]; subst.
  unfold from_bytes_big. cbn [fold_left].
  change (2 ^ 32) with 4294967296. lia.
Qed.

Lemma parse_hextet_range (s : string) (h : Z) :
  _parse_hextet s = Ok h -> 0 <= h < 2 ^ 16.
Proof.
  unfold _parse_hextet.
  destruct (Py.all_chars Py.is_hex_digit s) eqn:Eh; [|discriminate].
  cbn [negb]. destruct (Z.ltb_spec 4 (Py.len s)) as [Hgt|Hle]; [discriminate|].
  destruct s as [|c s]; [discriminate|]. cbn [Py.int]. intros Hres.
  injection Hres as <-.
  pose proof (int_digits_bound 16 Py.is_hex_digit (String c s) 0 ltac:(lia)
                is_hex_digit_value Eh ltac:(lia)) as B.
  assert (16 ^ Py.len (String c s) <= 16 ^ 4)
    by (apply Z.pow_le_mono_r; [lia | assumption]).
  change (16 ^ 4) with (2 ^ 16) in *.
  change (0 <= Py.int_digits 16 0 (String c s) < 2 ^ 16). lia.
Qed.

(** Shifting a hextet in appends it to the integer. *)
Lemma lor_shiftl_hextet (acc h : Z) :
  0 <= h < 2 ^ 16 -> Z.lor (Z.shiftl acc 16) h = acc * 2 ^ 16 + h.
Proof.
  intros Hh. rewrite Z.shiftl_mul_pow2 by lia.
  assert (E : Z.land (acc * 2 ^ 16) h = 0).
  { apply Z.bits_inj'. intros i Hi. rewrite Z.land_spec, Z.bits_0.
    destruct (Z.lt_ge_cases i 16).
    - rewrite Z.mul_pow2_bits_low by lia. reflexivity.
    - rewrite <- (Z.mod_small h (2 ^ 16)) by lia.
      rewrite Z.mod_pow2_bits_high by lia. apply andb_false_r. }
  rewrite <- Z.lxor_lor by assumption.
  symmetry. apply Z.add_nocarry_lxor. assumption.
Qed.

Lemma parse_hextets_bound (parts : list string) (idxs : list Z) (acc j r : Z) :
  0 <= j -> 0 <= acc < 2 ^ (16 * j) ->
  parse_hextets parts idxs acc = Ok r ->
  0 <= r < 2 ^ (16 * (j + Z.of_nat (List.length idxs))).
Proof.
  revert acc j. induction idxs as [|i idxs IH]; intros acc j Hj Hacc H.
  - cbn in H. injection H as <-. cbn [List.length]. rewrite Z.add_0_r. assumption.
  - cbn [parse_hextets] in H. apply bind_Ok in H. destruct H as (h & Hh & H).
    apply parse_hextet_range in Hh.
    rewrite lor_shiftl_hextet in H by assumption.
    apply (IH _ (j + 1)) in H; [|lia|].
    + cbn [List.length]. rewrite Nat2Z.inj_succ.
      replace (j + Z.succ (Z.of_nat (List.length idxs)))
        with (j + 1 + Z.of_nat (List.length idxs)) by lia.
      assumption.
    + replace (16 * (j + 1)) with (16 * j + 16) by lia.
      rewrite pow2_split by lia. nia.
Qed.

Lemma find_skip_index_In (ip_str : string) (parts : list string)
      (idxs : list Z) (acc : option Z) (i : Z) :
  find_skip_index ip_str parts idxs acc = Ok (Some i) ->
  acc = Some i \/ In i idxs.
Proof.
  revert acc. induction idxs as [|k idxs IH]; intros acc H; cbn in H.
  - injection H as ->. auto.
  - destruct (is_empty (getitem parts k)).
    + destruct acc; [discriminate|].
      apply IH in H. destruct H as [H|H]; [injection H as ->|]; cbn; auto.
    + apply IH in H. destruct H; cbn; auto.
Qed.

Lemma v6_ip_int_from_string_range (s : string) (x : Z) :
  v6_ip_int_from_string s = Ok x -> 0 <= x < 2 ^ 128.
Proof.
  unfold v6_ip_int_from_string. destruct s as [|c0 s0]; [discriminate|].
  set (ip_str := String c0 s0).
  destruct (_ <? 3); [discriminate|]. intros H.
  apply bind_Ok in H. destruct H as (parts & _ & H).
  set (nparts := Z.of_nat (List.length parts)) in *.
  destruct (_HEXTET_COUNT + 1 <? nparts); [discriminate|].
  apply bind_Ok in H. destruct H as (skip & Hskip & H).
  apply bind_Ok in H. destruct H as ([[hi lo] sk] & Htriple & H).
  apply try_except_Ok in H. destruct H as [H|(e & _ & _ & H)]; [|discriminate].
  apply bind_Ok in H. destruct H as (r1 & Hr1 & H).
  assert (Hcounts : 0 <= hi /\ 0 <= lo /\ 0 <= sk /\ hi + lo + sk = 8).
  { destruct skip as [si|].
    - apply find_skip_index_In in Hskip.
      destruct Hskip as [Hskip|Hskip]; [discriminate|].
      apply range_In in Hskip.
      apply bind_Ok in Htriple. destruct Htriple as (hi' & Hhi & Htriple).
      apply bind_Ok in Htriple. destruct Htriple as (lo' & Hlo & Htriple).
      remember (_HEXTET_COUNT - (hi' + lo')) as sk' eqn:Esk.
      destruct (Z.ltb_spec sk' 1); [discriminate|].
      injection Htriple as <- <- <-.
      assert (0 <= hi').
      { destruct (is_empty (getitem parts 0)).
        - destruct (Z.eqb_spec (si - 1) 0); cbn [negb] in Hhi; [|discriminate].
          injection Hhi as <-. lia.
        - injection Hhi as <-. lia. }
      assert (0 <= lo').
      { destruct (is_empty (getitem parts (-1))).
        - destruct (Z.eqb_spec (nparts - si - 1 - 1) 0); cbn [negb] in Hlo;
            [|discriminate].
          injection Hlo as <-. lia.
        - injection Hlo as <-. lia. }
      unfold _HEXTET_COUNT in *. lia.
    - destruct (Z.eqb_spec nparts _HEXTET_COUNT) as [E|E]; cbn [negb] in Htriple;
        [|discriminate].
      destruct (is_empty (getitem parts 0)); [discriminate|].
      destruct (is_empty (getitem parts (-1))); [discriminate|].
      injection Htriple as <- <- <-. unfold _HEXTET_COUNT in *. lia. }
  destruct Hcounts as (Hhi & Hlo & Hsk & Hsum).
  apply (parse_hextets_bound _ _ 0 0) in Hr1; [|lia|cbn; lia].
  rewrite range_length in Hr1.
  replace (16 * (0 + Z.of_nat (Z.to_nat (hi - 0)))) with (16 * hi) in Hr1 by lia.
  apply (parse_hextets_bound _ _ _ (hi + sk)) in H; [|lia|].
  - rewrite range_length in H.
    replace (16 * (hi + sk + Z.of_nat (Z.to_nat (0 - - lo)))) with 128 in H by lia.
    assumption.
  - rewrite Z.shiftl_mul_pow2 by lia.
    replace (16 * (hi + sk)) with (16 * hi + 16 * sk) by lia.
    rewrite pow2_split by lia.
    assert (0 < 2 ^ (16 * sk)) by (apply Z.pow_pos_nonneg; lia).
    nia.
Qed.

Lemma make_address_range (f : family) (a : addr_arg) (x : Address) :
  make_address f a = Ok x -> 0 <= _ip x < 2 ^ _max_prefixlen f.
Proof.
  destruct f, a as [s|z]; cbn [make_address IPv4Address IPv6Address];
    intros H.
  - destruct (Py.contains "/" s); [discriminate|].
    apply bind_Ok in H. destruct H as (ip & Hip & H). injection H as <-.
    apply v4_ip_int_from_string_range in Hip. exact Hip.
  - apply bind_Ok in H. destruct H as ([] & Hc & H). injection H as <-.
    unfold _check_int_address in Hc.
    destruct (Z.ltb_spec z 0); [discriminate|].
    destruct (Z.ltb_spec (_ALL_ONES V4) z); [discriminate|].
    unfold _ALL_ONES in *. cbn [_ip]. lia.
  - destruct (Py.contains "/" s); [discriminate|].
    apply bind_Ok in H. destruct H as ([a sc] & _ & H).
    apply bind_Ok in H. destruct H as (ip & Hip & H). injection H as <-.
    apply v6_ip_int_from_string_range in Hip. exact Hip.
  - apply bind_Ok in H. destruct H as ([] & Hc & H). injection H as <-.
    unfold _check_int_address in Hc.
    destruct (Z.ltb_spec z 0); [discriminate|].
    destruct (Z.ltb_spec (_ALL_ONES V6) z); [discriminate|].
    unfold _ALL_ONES in *. cbn [_ip]. lia.
Qed.

(** X16: every address that [ip_address] returns is within the range of
    its family: below [2 ^ 32] for IPv4 and below [2 ^ 128] for IPv6, and
    only an IPv6 address can carry a scope id. *)
Theorem ip_address_in_range (s : string) (a : Address)
        (Hparsed : ip_address s = Ok a) :
  0 <= _ip a < 2 ^ _max_prefixlen (addr_family a)
  /\ (addr_family a = V4 -> _scope_id a = None).
Proof.
  apply ip_address_Ok_inv in Hparsed. split.
  - eapply make_address_range; eassumption.
  - intros Hf. rewrite Hf in Hparsed.
    rewrite (v4_ip_int_from_string_Ok_address _ _ Hparsed). reflexivity.
Qed.

Lemma ip_address_in_range_witness :
  exists a,
    ip_address "::ffff:192.168.1.1" = Ok a
    /\ 0 <= _ip a < 2 ^ _max_prefixlen (addr_family a).
Proof.
  assert (H : ip_address "::ffff:192.168.1.1"
              = Ok (_address_class V6 281473913979137))
    by (vm_compute; reflexivity).
  exists (_address_class V6 281473913979137). split; [exact H|].
  exact (proj1 (ip_address_in_range _ _ H)).
Defined.

(** ** A text without prefix length *)

Lemma address_text_no_slash (s : string) :
  Py.contains "/" s = false -> address_text s = s.
Proof.
  intros H. unfold address_text. rewrite (contains_false_split _ _ H).
  reflexivity.
Qed.

Lemma make_network_bare_address (f : family) (s : string) (a : Address) :
  Py.contains "/" s = false -> make_address f (AStr s) = Ok a ->
  make_network f (NStr s) true
  = Ok (mkNetwork a (_address_class f (_ALL_ONES f)) (_max_prefixlen f)).
Proof.
  intros Hs Ha. pose proof (make_address_range _ _ _ Ha) as Hr.
  pose proof (max_prefixlen_pos f) as HW.
  unfold make_network, _split_addr_prefix, _split_optional_netmask.
  rewrite (contains_false_split _ _ Hs).
  cbn [List.length Z.of_nat Pos.of_succ_nat Z.ltb Z.compare Pos.compare
       Pos.compare_cont bind].
  rewrite Ha. cbn [bind]. unfold _make_netmask.
  replace ((0 <=? _max_prefixlen f) && (_max_prefixlen f <=? _max_prefixlen f))
    with true by (symmetry; apply andb_true_iff; lia).
  cbn [negb bind].
  rewrite make_address_int by (apply ip_int_from_prefix_range; lia).
  cbn [bind _ip].
  assert (E : Z.land (_ip a) (_ip_int_from_prefix f (_max_prefixlen f)) = _ip a).
  { apply aligned_iff; [lia|]. split; [assumption|].
    rewrite Z.sub_diag. apply Z.mod_1_r. }
  rewrite E, Z.eqb_refl. cbn [negb].
  rewrite ip_int_from_prefix_eq by lia. rewrite Z.sub_diag.
  reflexivity.
Qed.

(** X17: a text without [/] validates exactly when it is an IP address,
    and then denotes the block of that single address with the maximal
    prefix length (/32 or /128). *)
Theorem validate_cidr_bare_address (s : string)
        (Hbare : Py.contains "/" s = false) :
  (validate_cidr s = Ok true <-> exists a, ip_address s = Ok a)
  /\ (forall a, ip_address s = Ok a ->
        ip_network s true
        = Ok (mkNetwork a (_address_class (addr_family a)
                                          (_ALL_ONES (addr_family a)))
                        (_max_prefixlen (addr_family a)))).
Proof.
  assert (Hnet : forall a, ip_address s = Ok a ->
            ip_network s true
            = Ok (mkNetwork a (_address_class (addr_family a)
                                              (_ALL_ONES (addr_family a)))
                            (_max_prefixlen (addr_family a)))).
  { intros a Ha. pose proof (ip_address_Ok_inv _ _ Ha) as Hm.
    pose proof (make_network_bare_address _ _ _ Hbare Hm) as Hn.
    rewrite ip_network_unfold.
    destruct (addr_family a) eqn:Ef.
    - rewrite Hn. reflexivity.
    - destruct (make_network_str_cases V4 s)
        as [(e4 & He4 & H4)
           |(na4 & nm4 & p4 & Ha4 & _)].
      + rewrite H4. cbn [try_except]. rewrite He4, Hn. reflexivity.
      + rewrite (address_text_no_slash _ Hbare) in Ha4.
        pose proof (ip_address_V4 _ _ Ha4) as Hip. rewrite Ha in Hip.
        apply Ok_inj in Hip. subst na4.
        pose proof (make_address_family _ _ _ Ha4). congruence. }
  split; [|exact Hnet]. rewrite validate_cidr_true_iff. split.
  - intros [n Hn]. apply ip_network_strict_Ok in Hn. destruct Hn as [f Hn].
    destruct (make_network_str_cases f s)
      as [(e & He & H)|(na & nm & p & Ha & _)].
    + rewrite H in Hn. discriminate.
    + rewrite (address_text_no_slash _ Hbare) in Ha.
      exists na. destruct f; [apply ip_address_V4 | apply ip_address_V6];
        assumption.
  - intros [a Ha]. eexists. apply Hnet. eassumption.
Qed.

Lemma validate_cidr_bare_address_witness :
  Py.contains "/" "192.168.1.7" = false
  /\ validate_cidr "192.168.1.7" = Ok true
  /\ get_available_ip "192.168.1.7" [] = Ok (Some "192.168.1.7").
Proof.
  assert (Hb : Py.contains "/" "192.168.1.7" = false) by reflexivity.
  split; [exact Hb|]. split; [|vm_compute; reflexivity].
  apply (proj1 (validate_cidr_bare_address "192.168.1.7" Hb)).
  eexists. vm_compute. reflexivity.
Defined.

(** ** IPv4 netmask and hostmask spellings *)

Lemma mask_texts_checked :
  forallb (fun p =>
             let nm := v4_string_from_ip_int (_ip_int_from_prefix V4 p) in
             let hm := v4_string_from_ip_int
                         (Z.lxor (_ip_int_from_prefix V4 p) (_ALL_ONES V4)) in
             match _make_netmask V4 (MStr nm), _make_netmask V4 (MStr hm) with
             | Ok (_, p1), Ok (_, p2) =>
                 (p1 =? p) && negb (Py.contains "/" nm)
                 && negb (Py.contains "/" hm)
                 && implb ((1 <=? p) && (p <=? 31)) (p2 =? p)
             | _, _ => false
             end) (Py.range 0 33) = true.
Proof. vm_compute. reflexivity. Qed.

Lemma make_netmask_prefix_text (f : family) (p : Z) :
  0 <= p <= _max_prefixlen f ->
  _make_netmask f (MStr (Py.str p))
  = Ok (_address_class f (_ip_int_from_prefix f p), p).
Proof.
  intros Hp. destruct (prefix_text f p Hp) as [Hpre _].
  unfold _make_netmask.
  assert (E : match f with
              | V4 => try_except (_prefix_from_prefix_string V4 (Py.str p))
                                 is_NetmaskValueError
                                 (fun _ => _prefix_from_ip_string V4 (Py.str p))
              | V6 => _prefix_from_prefix_string V6 (Py.str p)
              end = Ok p)
    by (destruct f; rewrite Hpre; reflexivity).
  rewrite E. cbn [bind].
  rewrite make_address_int by (apply ip_int_from_prefix_range; assumption).
  reflexivity.
Qed.

Lemma make_netmask_determined (f : family) (m : mask_arg) (nm : Address) (p : Z) :
  _make_netmask f m = Ok (nm, p) ->
  _make_netmask f m = Ok (_address_class f (_ip_int_from_prefix f p), p).
Proof.
  intros H. destruct (make_netmask_Ok _ _ _ _ H) as [_ ->]. exact H.
Qed.

(** Splitting [address/mask] when neither part contains a [/]. *)
Lemma make_network_address_mask (f : family) (a m : string) (strict : bool) :
  Py.contains "/" a = false -> Py.contains "/" m = false ->
  make_network f (NStr (append a (String "/" m))) strict
  = (network_address <- make_address f (AStr a) ;;
     '(netmask, prefixlen) <- _make_netmask f (MStr m) ;;
     let self := mkNetwork network_address netmask prefixlen in
     let packed := _ip network_address in
     if negb (Z.land packed (_ip netmask) =? packed) then
       if strict then
         raise ValueError (Fmt "%s has host bits set" [Lit (Network_str self)])
       else
         network_address <- make_address f (AInt (Z.land packed (_ip netmask))) ;;
         Ok (mkNetwork network_address netmask prefixlen)
     else Ok self).
Proof.
  intros Ha Hm. unfold make_network, _split_addr_prefix, _split_optional_netmask.
  rewrite (split_append_sep _ _ _ Ha), (contains_false_split _ _ Hm).
  reflexivity.
Qed.

(** A result that is no address or netmask error passes through the
    fallback of [ip_network] unchanged. *)
Lemma ip_network_of_IPv4_result (s : string) (strict : bool) :
  raises_only is_plain_ValueError (make_network V4 (NStr s) strict) ->
  ip_network s strict = make_network V4 (NStr s) strict.
Proof.
  rewrite ip_network_unfold. intros H.
  destruct (make_network V4 (NStr s) strict) as [n|e]; [reflexivity|].
  cbn in H. cbn [try_except]. destruct e as [[] ?]; cbn in *; congruence.
Qed.

Lemma ip_network_IPv4_mask_spellings_aux (a : string) (x : Address) (p : Z)
      (strict : bool) :
  IPv4Address (AStr a) = Ok x -> 0 <= p <= 32 ->
  ip_network
    (append a (String "/" (v4_string_from_ip_int (_ip_int_from_prefix V4 p))))
    strict
  = ip_network (append a (String "/" (Py.str p))) strict
  /\ (1 <= p <= 31 ->
      ip_network
        (append a (String "/" (v4_string_from_ip_int
                                 (Z.lxor (_ip_int_from_prefix V4 p)
                                         (_ALL_ONES V4)))))
        strict
      = ip_network (append a (String "/" (Py.str p))) strict).
Proof.
  intros Haddr Hp.
  assert (Ha : Py.contains "/" a = false).
  { cbn [IPv4Address] in Haddr. destruct (Py.contains "/" a);
      [discriminate | reflexivity]. }
  destruct (prefix_text V4 p Hp) as [_ Hps].
  pose proof mask_texts_checked as C. rewrite forallb_forall in C.
  specialize (C p ltac:(apply range_In; lia)). cbv zeta in C.
  destruct (_make_netmask V4 (MStr (v4_string_from_ip_int (_ip_int_from_prefix V4 p))))
    as [[nm1 p1]|e1] eqn:E1; [|discriminate].
  destruct (_make_netmask V4
              (MStr (v4_string_from_ip_int
                       (Z.lxor (_ip_int_from_prefix V4 p) (_ALL_ONES V4)))))
    as [[nm2 p2]|e2] eqn:E2; [|discriminate].
  apply andb_true_iff in C. destruct C as [C C4].
  apply andb_true_iff in C. destruct C as [C C3].
  apply andb_true_iff in C. destruct C as [C1 C2].
  apply Z.eqb_eq in C1. subst p1.
  apply negb_true_iff in C2, C3.
  apply make_netmask_determined in E1, E2.
  pose proof (make_netmask_prefix_text V4 p Hp) as E0.
  assert (R : forall m, Py.contains "/" m = false ->
            _make_netmask V4 (MStr m)
            = Ok (_address_class V4 (_ip_int_from_prefix V4 p), p) ->
            ip_network (append a (String "/" m)) strict
            = (let nm := _address_class V4 (_ip_int_from_prefix V4 p) in
               if negb (Z.land (_ip x) (_ip nm) =? _ip x) then
                 if strict then
                   raise ValueError
                         (Fmt "%s has host bits set"
                              [Lit (Network_str (mkNetwork x nm p))])
                 else
                   network_address <-
                     make_address V4 (AInt (Z.land (_ip x) (_ip nm))) ;;
                   Ok (mkNetwork network_address nm p)
               else Ok (mkNetwork x nm p))).
  { intros m Hm Em.
    assert (Emk := make_network_address_mask V4 a m strict Ha Hm).
    change (IPv4Address (AStr a)) with (make_address V4 (AStr a)) in Haddr.
    rewrite Haddr, Em in Emk. cbn [bind] in Emk.
    rewrite ip_network_of_IPv4_result; [exact Emk|].
    rewrite Emk. cbv zeta.
    destruct (negb _); [|exact I]. destruct strict; [reflexivity|].
    cbn [_address_class _ip].
    rewrite make_address_int by (apply land_netmask_range; assumption).
    exact I. }
  split.
  - rewrite (R _ C2 E1), (R _ Hps E0). reflexivity.
  - intros Hp31.
    assert (p2 = p).
    { replace ((1 <=? p) && (p <=? 31)) with true in C4
        by (symmetry; apply andb_true_iff; lia).
      cbn [implb] in C4. apply Z.eqb_eq in C4. exact C4. }
    subst p2. rewrite (R _ C3 E2), (R _ Hps E0). reflexivity.
Qed.

(** X18: after an IPv4 address, a prefix length may be spelled as the
    dotted netmask, and for prefix lengths 1 to 31 as the dotted hostmask:
    [ip_network] gives the same result as for the decimal prefix length,
    so [validate_cidr] and [calculate_network_info] answer the same for
    the netmask spelling as for the decimal one. *)
Theorem ip_network_IPv4_mask_spellings (a : string) (x : Address) (p : Z)
        (strict : bool)
        (Haddr : IPv4Address (AStr a) = Ok x)
        (Hp : 0 <= p <= 32) :
  let decimal := append a (String "/" (Py.str p)) in
  let netmask_form :=
    append a (String "/" (v4_string_from_ip_int (_ip_int_from_prefix V4 p))) in
  let hostmask_form :=
    append a (String "/" (v4_string_from_ip_int
                            (Z.lxor (_ip_int_from_prefix V4 p) (_ALL_ONES V4)))) in
  (ip_network netmask_form strict = ip_network decimal strict
   /\ (1 <= p <= 31 ->
       ip_network hostmask_form strict = ip_network decimal strict))
  /\ validate_cidr netmask_form = validate_cidr decimal
  /\ calculate_network_info netmask_form = calculate_network_info decimal.
Proof.
  cbv zeta.
  split; [apply (ip_network_IPv4_mask_spellings_aux a x p strict Haddr Hp)|].
  unfold validate_cidr, calculate_network_info.
  rewrite (proj1 (ip_network_IPv4_mask_spellings_aux a x p true Haddr Hp)).
  split; reflexivity.
Qed.

Lemma ip_network_IPv4_mask_spellings_witness :
  exists x,
    IPv4Address (AStr "10.0.0.0") = Ok x
    /\ 0 <= 16 <= 32
    /\ ip_network "10.0.0.0/255.255.0.0" true = ip_network "10.0.0.0/16" true
    /\ ip_network "10.0.0.0/0.0.255.255" true = ip_network "10.0.0.0/16" true.
Proof.
  assert (Ha : IPv4Address (AStr "10.0.0.0") = Ok (_address_class V4 167772160))
    by (vm_compute; reflexivity).
  assert (Hp : 0 <= 16 <= 32) by lia.
  exists (_address_class V4 167772160).
  split; [exact Ha|]. split; [exact Hp|].
  destruct (ip_network_IPv4_mask_spellings "10.0.0.0" _ 16 true Ha Hp)
    as [[H1 H2] _].
  split; [exact H1 | exact (H2 ltac:(lia))].
Defined.

(** ** Used entries that are no host of the block *)

Lemma first_unused_irrelevant (a : Address) (addrs hs : list Address) :
  (forall h, In h hs -> Address_eq h a = false) ->
  first_unused (a :: addrs) hs = first_unused addrs hs.
Proof.
  induction hs as [|h hs IH]; intros H; cbn [first_unused]; [reflexivity|].
  cbn [set_contains existsb]. rewrite (H h) by (left; reflexivity).
  cbn [orb]. change (existsb (Address_eq h) addrs) with (set_contains addrs h).
  rewrite IH by (intros; apply H; right; assumption). reflexivity.
Qed.

(** X19: a used entry that parses to an address equal to no usable host of
    the block (an address outside the block, the reserved network or
    broadcast address, or an address of the other IP version) does not
    change what [get_available_ip] returns. *)
Theorem get_available_ip_ignores_foreign_entry
        (s u : string) (used : list string) (n : Network) (a : Address)
        (Hvalid : ip_network s true = Ok n)
        (Hentry : ip_address u = Ok a)
        (Hforeign : forall h, usable_host n h -> Address_eq h a = false) :
  get_available_ip s (u :: used) = get_available_ip s used.
Proof.
  pose proof (ip_network_wf _ _ Hvalid) as Hwf.
  unfold get_available_ip. rewrite Hvalid. cbn [bind mapM]. rewrite Hentry.
  cbn [bind].
  destruct (mapM ip_address used) as [addrs|e]; cbn [bind try_except];
    [|reflexivity].
  f_equal. apply first_unused_irrelevant.
  intros h Hh. apply Hforeign. apply hosts_usable; assumption.
Qed.

Lemma get_available_ip_ignores_foreign_entry_witness :
  get_available_ip "192.168.1.0/30" ["::1"; "192.168.1.1"]
  = get_available_ip "192.168.1.0/30" ["192.168.1.1"]
  /\ get_available_ip "192.168.1.0/30" ["192.168.1.1"] = Ok (Some "192.168.1.2").
Proof.
  assert (Hp : ip_network "192.168.1.0/30" true
               = Ok (network_at V4 3232235776 30))
    by (vm_compute; reflexivity).
  assert (Ha : ip_address "::1" = Ok (_address_class V6 1))
    by (vm_compute; reflexivity).
  assert (Hf : forall h, usable_host (network_at V4 3232235776 30) h ->
                         Address_eq h (_address_class V6 1) = false).
  { intros h Hh. unfold usable_host in Hh. cbn in Hh.
    destruct Hh as (Hfam & _ & _). unfold Address_eq. rewrite Hfam.
    cbn. apply andb_false_r. }
  split; [|vm_compute; reflexivity].
  exact (get_available_ip_ignores_foreign_entry _ _ _ _ _ Hp Ha Hf).
Defined.

(** ** Describing the canonical text again *)

(** X20: for a valid IPv4 block, the network address and the prefix length
    that [calculate_network_info] reports, joined by [/], form a text that
    validates and whose description is the same dictionary. *)
Theorem calculate_network_info_canonical_IPv4 (s : string) (n : Network)
        (Hvalid : ip_network s true = Ok n)
        (Hv4 : net_family n = V4) :
  exists d a p,
    calculate_network_info s = Ok d
    /\ dict_get d "network_address" = Some (VStr a)
    /\ dict_get d "prefixlen" = Some (VInt p)
    /\ validate_cidr (append a (append "/" (Py.str p))) = Ok true
    /\ calculate_network_info (append a (append "/" (Py.str p))) = Ok d.
Proof.
  pose proof (ip_network_wf _ _ Hvalid) as Hwf.
  assert (E : ip_network (Network_str n) true = Ok n).
  { apply ip_network_of_wf_IPv4; try assumption.
    apply (ip_network_IPv4_shape _ _ Hvalid Hv4). }
  eexists _, (Address_str (network_address n)), (_prefixlen n).
  split; [apply (calculate_network_info_Ok _ _ Hvalid)|].
  split; [reflexivity|]. split; [reflexivity|].
  change (append (Address_str (network_address n))
                 (append "/" (Py.str (_prefixlen n))))
    with (Network_str n).
  split; [apply validate_cidr_true_iff; eauto|].
  apply (calculate_network_info_Ok _ _ E).
Qed.

Lemma calculate_network_info_canonical_IPv4_witness :
  exists d a p,
    calculate_network_info "192.168.1.0/255.255.255.252" = Ok d
    /\ dict_get d "network_address" = Some (VStr a)
    /\ dict_get d "prefixlen" = Some (VInt p)
    /\ validate_cidr (append a (append "/" (Py.str p))) = Ok true
    /\ calculate_network_info (append a (append "/" (Py.str p))) = Ok d.
Proof.
  assert (Hp : ip_network "192.168.1.0/255.255.255.252" true
               = Ok (network_at V4 3232235776 30))
    by (vm_compute; reflexivity).
  assert (Hf : net_family (network_at V4 3232235776 30) = V4) by reflexivity.
  exact (calculate_network_info_canonical_IPv4 _ _ Hp Hf).
Defined.
